(** * metashark-afiliados: guards, guarded mutations and optimistic UI hooks

    A shallow embedding of the permission layer ([hasWorkspacePermission]),
    the guard layer ([requireAppRole], [requireWorkspacePermission],
    [requireSitePermission]), the audit helper ([createAuditLog]), the
    server actions of [sites.actions.ts], [campaigns.actions.ts],
    [builder.actions.ts], [invitations.actions.ts], [admin.actions.ts] and
    [profiles.actions.ts] that change stored data, and the two client hooks
    [useOptimisticResourceManagement] and [useSubdomainAvailability].

    Server code runs in a small monad that threads the request state (the
    event trace and the per-request session cache) and propagates thrown
    exceptions; everything the backend platform answers is read from an
    environment record.  A request runs inside the framework's request
    scope, so [cookies()] and [headers()] answer; an awaited write may
    resolve with an error or reject.

    Beside these: the server actions that check no permission
    ([Accounts]: accepted invitations, workspaces, passwords, sign-up,
    sign-in and sign-out, telemetry, the Sentry test), what every run of a
    handler keeps to ([Policy]), the session lookup of the middleware, the
    key conversion of [object-case-converter.ts], the lookup of a site by
    host and the availability check on top of it, [debounce] with the hook
    that uses it, the wiring of [useSitesPage], [useCountdownRedirect],
    and [isPrivateIpAddress].

    Strings are UTF-8 bytes; [js_length] is the [length] of the language,
    in UTF-16 code units. An awaited call of a server action from the
    client may reject ([Awaited]). *)

From Stdlib Require Import String Ascii List Bool Arith Lia.
From Stdlib Require Import ZArith.
Import ListNotations.
Open Scope string_scope.

Set Implicit Arguments.

(* ===================================================================== *)
(** ** Values shared by client and server *)
(* ===================================================================== *)

(** [ActionResult<T>] of [validators/index.ts]:
    [{ success: true; data: T } | { success: false; error: string }]. *)
Inductive ActionResult (T : Type) : Type :=
| Success (data : T)
| Failure (error : string).
Arguments Success {T} data.
Arguments Failure {T} error.

Definition succeeded {T} (r : ActionResult T) : bool :=
  match r with Success _ => true | Failure _ => false end.

(** A [FormData] whose entries are text fields: an ordered list of
    (name, value) pairs; [get] answers the first value of that name, or
    [null]. *)
Definition FormData := list (string * string).

Fixpoint get (formData : FormData) (name : string) : option string :=
  match formData with
  | [] => None
  | (k, v) :: rest => if String.eqb k name then Some v else get rest name
  end.

(** JavaScript truthiness of a [string | null] value: [null] and the empty
    string are falsy. *)
Definition truthy (v : option string) : bool :=
  match v with
  | None => false
  | Some s => negb (String.eqb s "")
  end.

(** [a || b] on strings. *)
Definition or_else (a : string) (b : string) : string :=
  if String.eqb a "" then b else a.

(** A string is held as the bytes of its UTF-8 form. [str.length] counts
    UTF-16 code units: a continuation byte (10xxxxxx) adds none, the first
    byte of a four-byte sequence (a character outside the basic plane) adds
    two, any other byte one. *)
Definition code_units (c : ascii) : nat :=
  let n := nat_of_ascii c in
  if (128 <=? n)%nat && (n <? 192)%nat then 0
  else if (240 <=? n)%nat then 2
  else 1.

Fixpoint js_length (str : string) : nat :=
  match str with
  | EmptyString => 0
  | String c rest => code_units c + js_length rest
  end.

(** What a call of a server action settles with on the client: its
    result, or a rejection (the request failed, or the action threw). *)
Inductive Awaited (A : Type) : Type :=
| Fulfilled (result : A)
| Rejects.
Arguments Fulfilled {A} result.
Arguments Rejects {A}.

(* ===================================================================== *)
(** ** [use-subdomain-availability.ts] *)
(* ===================================================================== *)

Module Availability.

Inductive AvailabilityStatus := idle | checking | available | unavailable.

Record State := { status : AvailabilityStatus }.

Inductive Action :=
| CHECK_START
| CHECK_SUCCESS (isAvailable : bool)
| CHECK_ERROR
| RESET.

Definition initialState : State := {| status := idle |}.

(** The [default] branch of the source's [switch] is unreachable for a
    well-typed [Action]; the four tags are the four constructors. *)
Definition availabilityReducer (state : State) (action : Action) : State :=
  match action with
  | CHECK_START => {| status := checking |}
  | CHECK_SUCCESS isAvailable =>
      {| status := if isAvailable then available else unavailable |}
  | CHECK_ERROR => {| status := unavailable |}
  | RESET => initialState
  end.

(** The dispatches of one run of the debounced check, given what
    [checkSubdomainAvailabilityAction] resolved with. *)
Definition debouncedCheck (result : ActionResult bool) : list Action :=
  [ CHECK_START;
    match result with
    | Success isAvailable => CHECK_SUCCESS isAvailable
    | Failure _ => CHECK_ERROR
    end ].

(** The states the reducer goes through, one per dispatch. *)
Fixpoint states_through (state : State) (actions : list Action) : list State :=
  match actions with
  | [] => []
  | a :: rest =>
      let state' := availabilityReducer state a in
      state' :: states_through state' rest
  end.

End Availability.

(* ===================================================================== *)
(** ** [use-optimistic-resource-management.ts] *)
(* ===================================================================== *)

Module Optimistic.

(** [interface Resource { id: string; [key: string]: any }]: the id and
    the remaining properties. *)
Record Resource := { id : string; props : list (string * string) }.

(** What the hook does to the outside world. *)
Inductive Effect :=
| CreateActionCalled (formData : FormData)
| DeleteActionCalled (formData : FormData)
| ToastSuccess (message : string)
| ToastError (message : string)
| RouterRefresh.

(** The React state cells of the hook, with the effects performed so far. *)
Record HookState := {
  items : list Resource;
  isPending : bool;
  mutatingId : option string;
  effects : list Effect
}.

Definition setItems (f : list Resource -> list Resource) (st : HookState) : HookState :=
  {| items := f (items st); isPending := isPending st;
     mutatingId := mutatingId st; effects := effects st |}.

Definition setMutatingId (m : option string) (st : HookState) : HookState :=
  {| items := items st; isPending := isPending st;
     mutatingId := m; effects := effects st |}.

Definition setPending (b : bool) (st : HookState) : HookState :=
  {| items := items st; isPending := b;
     mutatingId := mutatingId st; effects := effects st |}.

Definition perform (e : Effect) (st : HookState) : HookState :=
  {| items := items st; isPending := isPending st;
     mutatingId := mutatingId st; effects := (effects st ++ [e])%list |}.

Section Hook.

Variable entityName : string.
(** What the two server actions resolve with. *)
Variable createAction : FormData -> ActionResult string.
Variable deleteAction : FormData -> ActionResult unit.

(** A handler is created by a render and closes over that render's
    [items]; [rendered] is that value.  [st] is the state the handler's
    updates apply to. *)

(** [handleCreate], up to the [startTransition] call: the phantom item,
    the snapshot, the optimistic append. [now] is [Date.now()]. *)
Definition phantomItem (now : string) (optimisticItem : list (string * string)) : Resource :=
  {| id := "optimistic-" ++ now; props := optimisticItem |}.

Definition handleCreate_optimistic
    (now : string) (optimisticItem : list (string * string))
    (st : HookState) : HookState :=
  let phantom := phantomItem now optimisticItem in
  let st := setItems (fun current => (current ++ [phantom])%list) st in
  let st := setMutatingId (Some (id phantom)) st in
  setPending true st.

(** The body of the transition of [handleCreate]; [previousItems] is the
    snapshot the closure holds. *)
Definition handleCreate_transition
    (previousItems : list Resource) (formData : FormData)
    (st : HookState) : HookState :=
  let st := perform (CreateActionCalled formData) st in
  let st :=
    match createAction formData with
    | Success _ =>
        let st := perform (ToastSuccess (entityName ++ " creado con éxito.")) st in
        perform RouterRefresh st
    | Failure error =>
        let st := perform (ToastError
                    (or_else error ("No se pudo crear el " ++ entityName ++ "."))) st in
        setItems (fun _ => previousItems) st
    end in
  let st := setMutatingId None st in
  setPending false st.

Definition handleCreate
    (rendered : list Resource) (now : string)
    (formData : FormData) (optimisticItem : list (string * string))
    (st : HookState) : HookState :=
  let previousItems := rendered in
  handleCreate_transition previousItems formData
    (handleCreate_optimistic now optimisticItem st).

(** [handleDelete], after its guard, up to the [startTransition] call. *)
Definition handleDelete_optimistic (idToDelete : string) (st : HookState) : HookState :=
  let st := setItems
              (filter (fun item => negb (String.eqb (id item) idToDelete))) st in
  let st := setMutatingId (Some idToDelete) st in
  setPending true st.

Definition handleDelete_transition
    (previousItems : list Resource) (formData : FormData)
    (st : HookState) : HookState :=
  let st := perform (DeleteActionCalled formData) st in
  let st :=
    match deleteAction formData with
    | Success _ =>
        let st := perform (ToastSuccess (entityName ++ " eliminado con éxito.")) st in
        perform RouterRefresh st
    | Failure error =>
        let st := perform (ToastError
                    (or_else error ("No se pudo eliminar el " ++ entityName ++ "."))) st in
        setItems (fun _ => previousItems) st
    end in
  let st := setMutatingId None st in
  setPending false st.

Definition handleDelete
    (rendered : list Resource) (formData : FormData)
    (st : HookState) : HookState :=
  let idToDelete := get formData "siteId" in
  if negb (truthy idToDelete) then st
  else
    match idToDelete with
    | None => st
    | Some idToDelete =>
        let previousItems := rendered in
        handleDelete_transition previousItems formData
          (handleDelete_optimistic idToDelete st)
    end.

(** One call of a handler of the hook. *)
Inductive HandlerCall :=
| Create (now : string) (formData : FormData) (optimisticItem : list (string * string))
| Delete (formData : FormData).

(** Whether the server action of the call resolves with
    [{ success: false }]. *)
Definition server_fails (call : HandlerCall) : bool :=
  match call with
  | Create _ formData _ => negb (succeeded (createAction formData))
  | Delete formData => negb (succeeded (deleteAction formData))
  end.

(** The transition of the call, which runs once the server action has
    resolved. *)
Definition transition (call : HandlerCall) (previousItems : list Resource)
    (st : HookState) : HookState :=
  match call with
  | Create _ formData _ => handleCreate_transition previousItems formData st
  | Delete formData => handleDelete_transition previousItems formData st
  end.

(** The whole call, from the render whose [items] is [rendered]. *)
Definition handle (call : HandlerCall) (rendered : list Resource)
    (st : HookState) : HookState :=
  match call with
  | Create now formData optimisticItem =>
      handleCreate rendered now formData optimisticItem st
  | Delete formData => handleDelete rendered formData st
  end.

End Hook.

End Optimistic.

(* ===================================================================== *)
(** ** Server side: the request monad and the backend platform *)
(* ===================================================================== *)

Module Server.

(** [Enums["workspace_role"]] and [Enums["app_role"]] of [enums.ts]. *)
Inductive WorkspaceRole := owner | admin | member.
Inductive AppRole := app_user | app_admin | app_developer.

Definition WorkspaceRole_eqb (a b : WorkspaceRole) : bool :=
  match a, b with
  | owner, owner | admin, admin | member, member => true
  | _, _ => false
  end.

Definition WorkspaceRole_string (r : WorkspaceRole) : string :=
  match r with
  | owner => "owner"
  | admin => "admin"
  | member => "member"
  end.

Definition AppRole_eqb (a b : AppRole) : bool :=
  match a, b with
  | app_user, app_user | app_admin, app_admin | app_developer, app_developer => true
  | _, _ => false
  end.

Definition AppRole_string (r : AppRole) : string :=
  match r with
  | app_user => "user"
  | app_admin => "admin"
  | app_developer => "developer"
  end.

(** [requiredRoles.includes(role)]. *)
Definition includes (requiredRoles : list WorkspaceRole) (role : WorkspaceRole) : bool :=
  existsb (WorkspaceRole_eqb role) requiredRoles.

(** The error object of a store answer. *)
Record PostgrestError := { code : string; message : string }.

(** [{ data, error }], the shape every store call resolves with. *)
Record Response (A : Type) := { data : option A; error : option PostgrestError }.

Definition PGRST116 : PostgrestError :=
  {| code := "PGRST116";
     message := "JSON object requested, multiple (or no) rows returned" |}.

(** The contract of [.single()] of the store client: the one matching row,
    or the [PGRST116] error when the filters match no row or several; a
    transport or server failure [fault] comes back as the error. *)
Definition single {A} (fault : option PostgrestError) (rows : list A) : Response A :=
  match fault with
  | Some e => {| data := None; error := Some e |}
  | None =>
      match rows with
      | [row] => {| data := Some row; error := None |}
      | _ => {| data := None; error := Some PGRST116 |}
      end
  end.

Record User := { user_id : string; email : option string }.

Record WorkspaceMember := {
  wm_user_id : string; wm_workspace_id : string; role : WorkspaceRole
}.

(** [SiteBasicInfo]: the columns [id, subdomain, workspace_id] of a site. *)
Record Site := {
  site_id : string; subdomain : option string; workspace_id : string
}.

Record Campaign := {
  campaign_id : string; campaign_site_id : string;
  campaign_name : string; slug : option string
}.

(** A campaign row with its embedded parent, [sites (workspace_id, subdomain)]. *)
Record CampaignWithSite := { campaign : Campaign; parent : option Site }.

#[local] Unset Elimination Schemes.
Inductive Json :=
| JNull
| JString (s : string)
| JObject (fields : list (string * Json)).
#[local] Set Elimination Schemes.

(** The row [createAuditLog] inserts into [audit_logs]. *)
Record AuditLogInsert := {
  action : string;
  actor_id : option string;
  target_entity_id : option string;
  target_entity_type : option string;
  metadata : Json;
  ip_address : string
}.

(** The columns [createSiteAction] inserts. *)
Record CreateSiteData := {
  cs_name : string; cs_subdomain : string;
  cs_description : option string; cs_workspace_id : string
}.

(** [updateData]: what is left of the parsed update after [site_id]. *)
Record UpdateSiteData := {
  us_name : option string; us_subdomain : option string;
  us_description : option string
}.

Record CreateCampaignData := { cc_name : string; cc_slug : string; cc_site_id : string }.

(** [CampaignConfig]: the builder's content; only its name is read. *)
Record CampaignConfig := { config_name : string; blocks : Json }.

(** The payload of [createInvitation]. *)
Record CreateInvitationPayload := {
  inv_workspace_id : string; invitee_email : string;
  inv_role : WorkspaceRole; invited_by : string
}.

(** The write statements the actions send to the store. *)
Inductive Statement :=
| InsertSite (row : CreateSiteData) (owner_id : string)
| UpdateSite (id : string) (changes : UpdateSiteData)
| DeleteSite (id : string)
| DeleteSiteBySubdomain (subdomain : string)
| InsertCampaign (name slug site : string)
| UpdateCampaign (id : string) (content : CampaignConfig)
| DeleteCampaign (id : string)
| InsertInvitation (row : CreateInvitationPayload)
| UpdateProfileRole (id : string) (app_role : AppRole)
| UpdateDashboardLayout (id : string) (moduleIds : list string)
| InsertAuditLog (row : AuditLogInsert).

Inductive LogLevel := TRACE | INFO | WARN | ERROR.

(** [NEXT_REDIRECT] is what [redirect(url)] of the framework throws;
    [Error] is [new Error(message)]. *)
Inductive Exn :=
| ZodError
| TypeError (what : string)
| PlatformError (what : string)
| NEXT_REDIRECT (url : string)
| Error (message : string).

Inductive LogContext :=
| NoContext
| WithError (e : PostgrestError)
| WithExn (e : Exn)
| WithFields (fields : list (string * option string)).

(** The row [logClientVisitAction] upserts into [visitor_logs]. *)
Record VisitorLogInsert := {
  session_id : string;
  fingerprint : string;
  visit_ip_address : string;
  screenWidth : option nat;
  screenHeight : option nat;
  (** the brands and versions, [null], or absent *)
  userAgentClientHint : option (option (list (string * string)))
}.

(** What a request does, in order. [Call] marks the entry into a function
    of the data, permission, guard or audit layer; the other events are the
    calls that leave the repository: the logger, the store, the auth
    service, the cache, the cookies. *)
Inductive Event :=
| Log (level : LogLevel) (text : string) (context : LogContext)
| Call (function : string)
| GetUser
| Select (table : string) (filters : list (string * string))
| Send (statement : Statement)
| AdminGetUserById (id : string)
| AdminGenerateLink (email : option string)
| RevalidatePath (path : string)
| RevalidateLayout (path : string)
| RevalidateTag (tag : string)
(** [supabase.rpc(function, args)] *)
| Rpc (function : string) (args : list (string * string))
(** [from("visitor_logs").upsert(row, { onConflict: "session_id" })] *)
| UpsertVisitorLog (row : VisitorLogInsert)
(** [auth.getSession()], [auth.signUp(...)], [auth.signInWithPassword(...)],
    [auth.updateUser({ password })], [auth.signOut({ scope })] *)
| AuthGetSession
| AuthSignUp (email password emailRedirectTo : string)
| AuthSignInWithPassword (email password : string)
| AuthUpdateUser (password : string)
| AuthSignOut (scope : option string)
(** [auth.admin.generateLink({ type: "recovery", email })] *)
| AdminGenerateRecoveryLink (email : string)
(** [cookies().set(name, value, ...)] *)
| SetCookie (name value : string)
(** [Sentry.captureException(error)] *)
| CaptureException (error : Exn).

(** [UserAuthData] of [user-permissions.ts]. *)
Record UserAuthData := {
  user : User; appRole : AppRole; activeWorkspaceId : option string
}.

(** The state of one request: what happened so far, and the value
    [React.cache] holds for [getAuthenticatedUserAuthData]. *)
Record Request := {
  trace : list Event;
  sessionCache : option (option UserAuthData)
}.

Definition initial : Request := {| trace := []; sessionCache := None |}.

Inductive Outcome (A : Type) :=
| Returned (value : A)
| Threw (e : Exn).
Arguments Returned {A} value.
Arguments Threw {A} e.

Definition M (A : Type) : Type := Request -> Outcome A * Request.

Definition ret {A} (a : A) : M A := fun r => (Returned a, r).

Definition bind {A B} (m : M A) (k : A -> M B) : M B :=
  fun r =>
    match m r with
    | (Returned a, r') => k a r'
    | (Threw e, r') => (Threw e, r')
    end.

Definition throw {A} (e : Exn) : M A := fun r => (Threw e, r).

(** [try { body } catch (e) { handler }]. *)
Definition try_catch {A} (body : M A) (handler : Exn -> M A) : M A :=
  fun r =>
    match body r with
    | (Returned a, r') => (Returned a, r')
    | (Threw e, r') => handler e r'
    end.

Definition emit (e : Event) : M unit :=
  fun r => (Returned tt,
            {| trace := (trace r ++ [e])%list; sessionCache := sessionCache r |}).

Definition readCache : M (option (option UserAuthData)) :=
  fun r => (Returned (sessionCache r), r).

Definition writeCache (v : option UserAuthData) : M unit :=
  fun r => (Returned tt, {| trace := trace r; sessionCache := Some v |}).

Declare Scope request_scope.
Delimit Scope request_scope with request.
Notation "x <- c1 ;; c2" := (bind c1 (fun x => c2))
  (at level 61, c1 at next level, right associativity) : request_scope.
Notation "c1 ;; c2" := (bind c1 (fun _ => c2))
  (at level 61, right associativity) : request_scope.
Open Scope request_scope.

(** [logger] of [logging.ts]: every level is a call that returns. *)
Module logger.
Definition trace (text : string) (context : LogContext) : M unit := emit (Log TRACE text context).
Definition info (text : string) (context : LogContext) : M unit := emit (Log INFO text context).
Definition warn (text : string) (context : LogContext) : M unit := emit (Log WARN text context).
Definition error (text : string) (context : LogContext) : M unit := emit (Log ERROR text context).
End logger.

(** The primitive string schemas of [validators/index.ts], built from the
    validation library ([z.string().uuid()], [.trim().min(3)],
    [.regex(...)]): each answers the parsed value or rejects. *)
Record Zod := {
  UuidSchema : string -> option string;
  NameSchema : string -> option string;
  SubdomainSchema : string -> option string;
  SlugSchema : string -> option string;
  EmailSchema : string -> option string;
  slugify : string -> string
}.

(** What an awaited platform call settles with. *)
Inductive Settled (A : Type) :=
| Resolved (answer : Response A)
| Rejected (what : string).
Arguments Resolved {A} answer.
Arguments Rejected {A} what.

(** For a write, the data is the id of the row written, where the
    statement asks for it with [.select(...).single()]. *)
Definition StoreAnswer := Settled string.

(** What the backend platform answers during one request. *)
Record Env := {
  (** the [x-forwarded-for] header *)
  forwarded_for : option string;
  (** [supabase.auth.getUser()] *)
  auth_user : option User;
  (** [profile?.app_role] of the user's profile row *)
  profile_app_role : option AppRole;
  (** the [active_workspace_id] cookie *)
  active_workspace_cookie : option string;
  (** the tables read *)
  workspace_members : list WorkspaceMember;
  sites : list Site;
  campaigns : list Campaign;
  (** a failure of a read, per table *)
  read_fault : string -> option PostgrestError;
  (** the answer to a write: the awaited call resolves with its error
      and, for [insert(...).select("id").single()], the new row's id; or
      it rejects *)
  execute : Statement -> StoreAnswer;
  (** [auth.admin.getUserById(id)]: [data.user] *)
  admin_getUserById : string -> Settled User;
  (** [auth.admin.generateLink({ type: "magiclink", email })]:
      [data.properties.action_link] *)
  admin_generateLink : option string -> Settled string
}.

(** *** Results of guards and handlers *)

(** The error of an [AuthResult]. *)
Inductive AuthError := SESSION_NOT_FOUND | PERMISSION_DENIED | NOT_FOUND.

(** The string an [AuthError] is in the source. *)
Definition AuthError_string (e : AuthError) : string :=
  match e with
  | SESSION_NOT_FOUND => "SESSION_NOT_FOUND"
  | PERMISSION_DENIED => "PERMISSION_DENIED"
  | NOT_FOUND => "NOT_FOUND"
  end.

(** [AuthResult<T>]. *)
Inductive AuthResult (T : Type) :=
| Authorized (payload : T)
| Denied (reason : AuthError).
Arguments Authorized {T} payload.
Arguments Denied {T} reason.

(** The [details] argument of [createAuditLog]. *)
Record AuditDetails := {
  userId : option string;
  targetEntityId : option string;
  targetEntityType : option string;
  details_metadata : option Json
}.

(** The handlers that parse a form with a schema. *)
Inductive Handler :=
| createSite | updateSite | deleteSite
| createCampaign | deleteCampaign
| sendInvitation.

(** A call of a mutation handler. *)
Inductive Invocation :=
| OnForm (handler : Handler) (formData : FormData)
| SaveContent (campaignId : string) (content : CampaignConfig)
| Impersonate (userId : string)
| DeleteSiteAsAdmin (formData : FormData)
| UpdateUserRole (userId : string) (newRole : AppRole)
| SaveLayout (moduleIds : list string).

(** The [data] of a success: [{ id }], [{ message }], [{ signInLink }] or
    [undefined]. *)
Inductive Payload :=
| Id (id : string) | Message (text : string) | Link (signInLink : string) | Void.

(** A guard as a handler calls it. *)
Inductive GuardCall :=
| SiteGuard (siteId : string) (requiredRoles : list WorkspaceRole)
| WorkspaceGuard (workspaceId : string) (requiredRoles : list WorkspaceRole)
| AppGuard (requiredRoles : list AppRole).

Section Request.

Variable zod : Zod.
Variable env : Env.

(** *** [supabase/server.ts] and the platform calls *)

(** [createClient()]: inside a request [cookies()] answers, and the
    client is built without talking to the store. *)
Definition createClient : M unit := ret tt.

(** [headers().get("x-forwarded-for")]. *)
Definition headers_get : M (option string) := ret (forwarded_for env).

(** [supabase.auth.getUser()]. *)
Definition auth_getUser : M (option User) :=
  emit GetUser ;; ret (auth_user env).

(** [await] on a platform call: its answer, or the rejection thrown. *)
Definition await {A} (settled : Settled A) : M (Response A) :=
  match settled with
  | Resolved answer => ret answer
  | Rejected what => throw (PlatformError what)
  end.

(** [await supabase.from(table)...]: a write. *)
Definition send (statement : Statement) : M (Response string) :=
  emit (Send statement) ;; await (execute env statement).

Definition revalidatePath (path : string) : M unit := emit (RevalidatePath path).

(** [revalidatePath(path, "layout")]. *)
Definition revalidateLayout (path : string) : M unit := emit (RevalidateLayout path).

Definition revalidateTag (tag : string) : M unit := emit (RevalidateTag tag).

(** *** The reads *)

(** The rows [.eq("user_id", userId).eq("workspace_id", workspaceId)] keeps. *)
Definition memberships (userId workspaceId : string) : list WorkspaceMember :=
  filter (fun m => String.eqb (wm_workspace_id m) workspaceId)
    (filter (fun m => String.eqb (wm_user_id m) userId)
       (workspace_members env)).

(** [from("workspace_members").select("role").eq("user_id", userId)
    .eq("workspace_id", workspaceId).single()]. *)
Definition select_member (userId workspaceId : string) : M (Response WorkspaceMember) :=
  emit (Select "workspace_members"
          [("user_id", userId); ("workspace_id", workspaceId)]) ;;
  ret (single (read_fault env "workspace_members") (memberships userId workspaceId)).

(** [from("sites").select("id, subdomain, workspace_id").eq("id", siteId).single()]. *)
Definition select_site (siteId : string) : M (Response Site) :=
  emit (Select "sites" [("id", siteId)]) ;;
  ret (single (read_fault env "sites")
         (filter (fun s => String.eqb (site_id s) siteId) (sites env))).

(** The embedded parent of a campaign row: [sites (...)]. *)
Definition embed_site (c : Campaign) : CampaignWithSite :=
  {| campaign := c;
     parent := find (fun s => String.eqb (site_id s) (campaign_site_id c)) (sites env) |}.

(** [from("campaigns").select("*, sites (...)").eq("id", campaignId).single()]. *)
Definition select_campaign (campaignId : string) : M (Response CampaignWithSite) :=
  emit (Select "campaigns" [("id", campaignId)]) ;;
  ret (single (read_fault env "campaigns")
         (map embed_site
            (filter (fun c => String.eqb (campaign_id c) campaignId) (campaigns env)))).

(** *** [data/permissions.ts] (and its copy [auth/permissions.ts]) *)

Definition hasWorkspacePermission
    (userId workspaceId : string) (requiredRoles : list WorkspaceRole) : M bool :=
  emit (Call "hasWorkspacePermission") ;;
  createClient ;;
  answer <- select_member userId workspaceId ;;
  (* [if (error || !member) { ... return false; }], else [includes] *)
  match error answer, data answer with
  | None, Some row => ret (includes requiredRoles (role row))
  | err, _ =>
      match err with
      | Some e =>
          if negb (String.eqb (code e) "PGRST116") then
            logger.error
              ("[AuthPermissions] Error al verificar permisos para usuario "
                 ++ userId ++ " en workspace " ++ workspaceId ++ ":")
              (WithError e)
          else ret tt
      | None => ret tt
      end ;;
      ret false
  end.

(** *** [data/sites.ts] *)

Definition getSiteById (siteId : string) : M (option Site) :=
  emit (Call "getSiteById") ;;
  createClient ;;
  answer <- select_site siteId ;;
  match error answer with
  | Some e =>
      (if negb (String.eqb (code e) "PGRST116") then
         logger.error
           ("[DataLayer:Sites] Error al obtener el sitio " ++ siteId ++ ":")
           (WithError e)
       else ret tt) ;;
      ret None
  | None => ret (data answer)
  end.

(** *** [auth/user-permissions.ts] *)

(** The function [cache(...)] wraps: runs on a miss only. *)
Definition fetchUserAuthData : M (option UserAuthData) :=
  logger.trace "[AuthCache] Miss: Obteniendo datos de sesión del usuario." NoContext ;;
  createClient ;;
  u <- auth_getUser ;;
  match u with
  | None => ret None
  | Some u =>
      (* [cookies()], then the profile row of the user *)
      emit (Select "profiles" [("id", user_id u)]) ;;
      ret (Some {| user := u;
                   appRole := match profile_app_role env with
                              | Some r => r
                              | None => app_user
                              end;
                   activeWorkspaceId :=
                     if truthy (active_workspace_cookie env)
                     then active_workspace_cookie env else None |})
  end.

Definition getAuthenticatedUserAuthData : M (option UserAuthData) :=
  emit (Call "getAuthenticatedUserAuthData") ;;
  cached <- readCache ;;
  match cached with
  | Some authData => ret authData
  | None =>
      authData <- fetchUserAuthData ;;
      writeCache authData ;;
      ret authData
  end.

Definition requireAppRole (requiredRoles : list AppRole) : M (AuthResult UserAuthData) :=
  emit (Call "requireAppRole") ;;
  authData <- getAuthenticatedUserAuthData ;;
  match authData with
  | None => ret (Denied SESSION_NOT_FOUND)
  | Some authData =>
      if negb (existsb (AppRole_eqb (appRole authData)) requiredRoles) then
        logger.warn
          ("[AuthGuard] VIOLACIÓN DE ACCESO DE ROL: Usuario " ++ user_id (user authData)
             ++ " con rol '" ++ AppRole_string (appRole authData)
             ++ "' intentó acceder a un recurso que requiere ["
             ++ String.concat ", " (map AppRole_string requiredRoles) ++ "].")
          NoContext ;;
        ret (Denied PERMISSION_DENIED)
      else ret (Authorized authData)
  end.

Definition requireWorkspacePermission
    (workspaceId : string) (requiredRoles : list WorkspaceRole) : M (AuthResult User) :=
  emit (Call "requireWorkspacePermission") ;;
  authData <- getAuthenticatedUserAuthData ;;
  match authData with
  | None => ret (Denied SESSION_NOT_FOUND)
  | Some authData =>
      let user := user authData in
      isAuthorized <- hasWorkspacePermission (user_id user) workspaceId requiredRoles ;;
      if negb isAuthorized then ret (Denied PERMISSION_DENIED)
      else ret (Authorized user)
  end.

Definition requireSitePermission
    (siteId : string) (requiredRoles : list WorkspaceRole) : M (AuthResult (User * Site)) :=
  emit (Call "requireSitePermission") ;;
  authData <- getAuthenticatedUserAuthData ;;
  match authData with
  | None => ret (Denied SESSION_NOT_FOUND)
  | Some authData =>
      let user := user authData in
      site <- getSiteById siteId ;;
      match site with
      | None => ret (Denied NOT_FOUND)
      | Some site =>
          isAuthorized <-
            hasWorkspacePermission (user_id user) (workspace_id site) requiredRoles ;;
          if negb isAuthorized then
            logger.warn
              ("[AuthGuard] VIOLACIÓN DE ACCESO A SITIO: Usuario " ++ user_id user
                 ++ " intentó acceder al sitio " ++ siteId
                 ++ " sin permisos en el workspace " ++ workspace_id site ++ ".")
              NoContext ;;
            ret (Denied PERMISSION_DENIED)
          else ret (Authorized (user, site))
      end
  end.

(** *** [actions/_helpers/audit-log.helper.ts] *)

(** The row built from the arguments and the caller's address [ip];
    [details.metadata || {}]: a metadata that is absent, [null] or the
    empty string gives the empty object. *)
Definition audit_row (action : string) (details : AuditDetails) (ip : string)
  : AuditLogInsert :=
  {| action := action;
     actor_id := userId details;
     target_entity_id := targetEntityId details;
     target_entity_type := targetEntityType details;
     metadata := match details_metadata details with
                 | Some (JObject fields) => JObject fields
                 | Some (JString s) => if String.eqb s "" then JObject [] else JString s
                 | Some JNull | None => JObject []
                 end;
     ip_address := ip |}.

Definition createAuditLog (action : string) (details : AuditDetails) : M unit :=
  emit (Call "createAuditLog") ;;
  try_catch
    (createClient ;;
     forwarded <- headers_get ;;
     let ip := match forwarded with Some ip => ip | None => "127.0.0.1" end in
     answer <- send (InsertAuditLog (audit_row action details ip)) ;;
     match error answer with
     | Some e =>
         logger.error
           ("[AuditLogHelper] No se pudo guardar el log de auditoría para la acción '"
              ++ action ++ "':")
           (WithError e)
     | None => ret tt
     end)
    (fun e =>
       logger.error
         ("[AuditLogHelper] Fallo crítico al intentar guardar el log para la acción '"
            ++ action ++ "':")
         (WithExn e)).

(** *** The object schemas of [validators/index.ts] *)

(** [Object.fromEntries(formData)[key]]: the last entry of that name. *)
Definition fromEntries (formData : FormData) (key : string) : option string :=
  get (rev formData) key.

(** [schema.optional()] on a property. *)
Definition optional (schema : string -> option string) (v : option string)
  : option (option string) :=
  match v with
  | None => Some None
  | Some s => match schema s with Some s' => Some (Some s') | None => None end
  end.

(** A required property. *)
Definition required (schema : string -> option string) (v : option string)
  : option string :=
  match v with
  | None => None
  | Some s => schema s
  end.

Definition CreateSiteServerSchema (object : string -> option string)
  : option CreateSiteData :=
  match optional (NameSchema zod) (object "name"),
        required (SubdomainSchema zod) (object "subdomain"),
        required (UuidSchema zod) (object "workspaceId") with
  | Some name, Some subdomain, Some workspaceId =>
      Some {| cs_name := match name with
                         | Some n => or_else n subdomain
                         | None => subdomain
                         end;
              cs_subdomain := subdomain;
              cs_description := if truthy (object "description")
                                then object "description" else None;
              cs_workspace_id := workspaceId |}
  | _, _, _ => None
  end.

Definition UpdateSiteSchema (object : string -> option string)
  : option (string * UpdateSiteData) :=
  match required (UuidSchema zod) (object "siteId"),
        optional (NameSchema zod) (object "name"),
        optional (SubdomainSchema zod) (object "subdomain") with
  | Some siteId, Some name, Some subdomain =>
      Some (siteId, {| us_name := name; us_subdomain := subdomain;
                       us_description := object "description" |})
  | _, _, _ => None
  end.

(** [DeleteSiteSchema.parse({ siteId })] and
    [DeleteCampaignSchema.parse({ campaignId })]. *)
Definition DeleteSiteSchema (siteId : option string) : option string :=
  required (UuidSchema zod) siteId.

Definition DeleteCampaignSchema (campaignId : option string) : option string :=
  required (UuidSchema zod) campaignId.

Definition CreateCampaignSchema (object : string -> option string)
  : option CreateCampaignData :=
  match required (NameSchema zod) (object "name"),
        optional (SlugSchema zod) (object "slug"),
        required (UuidSchema zod) (object "siteId") with
  | Some name, Some slug, Some siteId =>
      Some {| cc_name := name;
              cc_slug := match slug with
                         | Some s => or_else s (slugify zod name)
                         | None => slugify zod name
                         end;
              cc_site_id := siteId |}
  | _, _, _ => None
  end.

(** [z.enum(["admin", "member", "owner"])]. *)
Definition RoleSchema (v : option string) : option WorkspaceRole :=
  match v with
  | Some s =>
      if String.eqb s "admin" then Some admin
      else if String.eqb s "member" then Some member
      else if String.eqb s "owner" then Some owner
      else None
  | None => None
  end.

(** [InvitationServerSchema]: the parsed form without [invited_by]. *)
Definition InvitationServerSchema (object : string -> option string)
  : option (string * WorkspaceRole * string) :=
  match required (EmailSchema zod) (object "email"),
        RoleSchema (object "role"),
        required (UuidSchema zod) (object "workspaceId") with
  | Some email, Some role, Some workspaceId => Some (email, role, workspaceId)
  | _, _, _ => None
  end.

(** [schema.parse(input)]: the parsed value, or a thrown [ZodError]. *)
Definition parse {A} (parsed : option A) : M A :=
  match parsed with
  | Some a => ret a
  | None => throw ZodError
  end.

Definition isZodError (e : Exn) : bool :=
  match e with ZodError => true | _ => false end.

(** *** [actions/sites.actions.ts] *)

Definition createSiteAction (formData : FormData) : M (ActionResult string) :=
  try_catch
    (parsedData <- parse (CreateSiteServerSchema (fromEntries formData)) ;;
     let workspace_id := cs_workspace_id parsedData in
     let subdomain := cs_subdomain parsedData in
     let name := cs_name parsedData in
     permissionCheck <- requireWorkspacePermission workspace_id [owner; admin] ;;
     match permissionCheck with
     | Denied _ =>
         ret (Failure "No tienes permiso para crear sitios en este workspace.")
     | Authorized user =>
         createClient ;;
         answer <- send (InsertSite parsedData (user_id user)) ;;
         match error answer with
         | Some e =>
             if String.eqb (code e) "23505" then
               ret (Failure "Este subdominio ya está en uso.")
             else
               logger.error
                 ("[SitesActions] Error al crear el sitio en la base de datos para el workspace "
                    ++ workspace_id ++ ":")
                 (WithError e) ;;
               ret (Failure "No se pudo crear el sitio.")
         | None =>
             match data answer with
             | None => throw (TypeError "newSite is null")
             | Some newSiteId =>
                 createAuditLog "site.created"
                   {| userId := Some (user_id user);
                      targetEntityId := Some newSiteId;
                      targetEntityType := Some "site";
                      details_metadata :=
                        Some (JObject [("subdomain", JString subdomain);
                                       ("name", JString name);
                                       ("workspaceId", JString workspace_id)]) |} ;;
                 revalidatePath "/dashboard/sites" ;;
                 ret (Success newSiteId)
             end
         end
     end)
    (fun e =>
       if isZodError e then ret (Failure "Datos de formulario inválidos.")
       else
         logger.error "[SitesActions] Error inesperado en createSiteAction:" (WithExn e) ;;
         ret (Failure "Un error inesperado ocurrió.")).

(** A column that may be [null]. *)
Definition json_opt (v : option string) : Json :=
  match v with Some s => JString s | None => JNull end.

(** An object of properties that may be absent: those that are there. *)
Fixpoint json_present (fields : list (string * option string)) : list (string * Json) :=
  match fields with
  | [] => []
  | (key, Some s) :: rest => (key, JString s) :: json_present rest
  | (_, None) :: rest => json_present rest
  end.

Definition updateSiteAction (formData : FormData) : M (ActionResult string) :=
  try_catch
    (parsed <- parse (UpdateSiteSchema (fromEntries formData)) ;;
     let site_id := fst parsed in
     let updateData := snd parsed in
     permissionCheck <- requireSitePermission site_id [owner; admin] ;;
     match permissionCheck with
     | Denied reason =>
         (* the guard's error is passed on as it is *)
         ret (Failure (AuthError_string reason))
     | Authorized (user, _) =>
         createClient ;;
         answer <- send (UpdateSite site_id updateData) ;;
         match error answer with
         | Some e =>
             logger.error
               ("[SitesActions] Error al actualizar el sitio " ++ site_id ++ ":")
               (WithError e) ;;
             ret (Failure "No se pudo actualizar el sitio.")
         | None =>
             createAuditLog "site.updated"
               {| userId := Some (user_id user);
                  targetEntityId := Some site_id;
                  targetEntityType := Some "site";
                  details_metadata :=
                    Some (JObject
                            [("changes",
                              JObject
                                (json_present
                                   [("name", us_name updateData);
                                    ("subdomain", us_subdomain updateData);
                                    ("description", us_description updateData)]))]) |} ;;
             revalidatePath ("/dashboard/sites/" ++ site_id ++ "/settings") ;;
             revalidatePath "/dashboard/sites" ;;
             ret (Success "Sitio actualizado correctamente.")
         end
     end)
    (fun e =>
       if isZodError e then ret (Failure "Datos de formulario inválidos.")
       else
         logger.error "[SitesActions] Error inesperado en updateSiteAction:" (WithExn e) ;;
         ret (Failure "Un error inesperado ocurrió.")).

Definition deleteSiteAction (formData : FormData) : M (ActionResult string) :=
  try_catch
    (siteId <- parse (DeleteSiteSchema (get formData "siteId")) ;;
     permissionCheck <- requireSitePermission siteId [owner] ;;
     match permissionCheck with
     | Denied reason => ret (Failure (AuthError_string reason))
     | Authorized (user, site) =>
         createClient ;;
         answer <- send (DeleteSite siteId) ;;
         match error answer with
         | Some e =>
             logger.error
               ("[SitesActions] Error al eliminar el sitio " ++ siteId ++ ":")
               (WithError e) ;;
             ret (Failure "No se pudo eliminar el sitio.")
         | None =>
             createAuditLog "site.deleted"
               {| userId := Some (user_id user);
                  targetEntityId := Some siteId;
                  targetEntityType := Some "site";
                  details_metadata :=
                    Some (JObject [("subdomain", json_opt (subdomain site))]) |} ;;
             revalidatePath "/dashboard/sites" ;;
             ret (Success "Sitio eliminado correctamente.")
         end
     end)
    (fun e =>
       if isZodError e then ret (Failure "ID de sitio inválido.")
       else
         logger.error "[SitesActions] Error inesperado en deleteSiteAction:" (WithExn e) ;;
         ret (Failure "Un error inesperado ocurrió.")).

(** *** [data/campaigns.ts] *)

Definition getCampaignContentById (campaignId userId : string)
  : M (option CampaignWithSite) :=
  emit (Call "getCampaignContentById") ;;
  createClient ;;
  answer <- select_campaign campaignId ;;
  match error answer, data answer with
  | None, Some found =>
      (* [campaign.sites?.workspace_id]; an absent one is falsy like "" *)
      let workspaceId := match parent found with
                         | Some site => workspace_id site
                         | None => ""
                         end in
      if String.eqb workspaceId "" then
        logger.error
          ("[DataLayer:Campaigns] INCONSISTENCIA DE DATOS: Campaña " ++ campaignId
             ++ " sin workspace asociado.") NoContext ;;
        ret None
      else
        isAuthorized <-
          hasWorkspacePermission userId workspaceId [owner; admin; member] ;;
        if negb isAuthorized then
          logger.warn
            ("[DataLayer:Campaigns] VIOLACIÓN DE ACCESO: Usuario " ++ userId
               ++ " intentó acceder a la campaña " ++ campaignId ++ " sin permisos.")
            NoContext ;;
          ret None
        else ret (Some found)
  | err, _ =>
      match err with
      | Some e =>
          if negb (String.eqb (code e) "PGRST116") then
            logger.error
              ("[DataLayer:Campaigns] Error al obtener la campaña " ++ campaignId ++ ":")
              (WithError e)
          else ret tt
      | None => ret tt
      end ;;
      ret None
  end.

(** *** [actions/campaigns.actions.ts] *)

(** The private helper: the user, or the failure to hand back. *)
Definition getAuthenticatedUser : M (User + ActionResult string) :=
  createClient ;;
  u <- auth_getUser ;;
  match u with
  | None => ret (inr (Failure "Usuario no autenticado."))
  | Some u => ret (inl u)
  end.

Definition createCampaignAction (formData : FormData) : M (ActionResult string) :=
  authResult <- getAuthenticatedUser ;;
  match authResult with
  | inr failure => ret failure
  | inl user =>
      try_catch
        (parsed <- parse (CreateCampaignSchema (fromEntries formData)) ;;
         let name := cc_name parsed in
         let slug := cc_slug parsed in
         let site_id := cc_site_id parsed in
         site <- getSiteById site_id ;;
         match site with
         | None => ret (Failure "El sitio asociado no existe.")
         | Some site =>
             isAuthorized <-
               hasWorkspacePermission (user_id user) (workspace_id site)
                 [owner; admin; member] ;;
             if negb isAuthorized then
               logger.warn
                 ("[SEGURIDAD] VIOLACIÓN DE ACCESO: Usuario " ++ user_id user
                    ++ " intentó crear una campaña en el sitio " ++ site_id
                    ++ " sin permisos.") NoContext ;;
               ret (Failure "No tienes permiso para crear campañas en este sitio.")
             else
               createClient ;;
               answer <- send (InsertCampaign name slug site_id) ;;
               match error answer with
               | Some e =>
                   logger.error "Error al crear la campaña en la base de datos:"
                     (WithError e) ;;
                   ret (Failure "No se pudo crear la campaña.")
               | None =>
                   match data answer with
                   | None => throw (TypeError "newCampaign is null")
                   | Some newCampaignId =>
                       createAuditLog "campaign.created"
                         {| userId := Some (user_id user);
                            targetEntityId := Some newCampaignId;
                            targetEntityType := Some "campaign";
                            details_metadata :=
                              Some (JObject [("name", JString name);
                                             ("siteId", JString site_id)]) |} ;;
                       revalidatePath ("/dashboard/sites/" ++ site_id ++ "/campaigns") ;;
                       ret (Success newCampaignId)
                   end
               end
         end)
        (fun e =>
           if isZodError e then ret (Failure "Datos inválidos.")
           else
             logger.error "Error inesperado en createCampaignAction:" (WithExn e) ;;
             ret (Failure "Un error inesperado ocurrió."))
  end.

Definition deleteCampaignAction (formData : FormData) : M (ActionResult string) :=
  authResult <- getAuthenticatedUser ;;
  match authResult with
  | inr failure => ret failure
  | inl user =>
      try_catch
        (campaignId <- parse (DeleteCampaignSchema (get formData "campaignId")) ;;
         createClient ;;
         answer <- select_campaign campaignId ;;
         match error answer, data answer with
         | None, Some found =>
             (* [campaign.sites?.workspace_id]; an absent one is falsy like "" *)
             let workspaceId := match parent found with
                                | Some site => workspace_id site
                                | None => ""
                                end in
             if String.eqb workspaceId "" then
               logger.error
                 ("INCONSISTENCIA DE DATOS: Campaña " ++ campaignId
                    ++ " sin workspace asociado.") NoContext ;;
               ret (Failure "Error de integridad de datos.")
             else
               isAuthorized <-
                 hasWorkspacePermission (user_id user) workspaceId
                   [owner; admin; member] ;;
               if negb isAuthorized then
                 logger.warn
                   ("[SEGURIDAD] VIOLACIÓN DE ACCESO: Usuario " ++ user_id user
                      ++ " intentó eliminar la campaña " ++ campaignId
                      ++ " sin permisos.") NoContext ;;
                 ret (Failure "No tienes permiso para eliminar esta campaña.")
               else
                 deleted <- send (DeleteCampaign campaignId) ;;
                 match error deleted with
                 | Some e =>
                     logger.error
                       ("Error al eliminar la campaña " ++ campaignId ++ ":")
                       (WithError e) ;;
                     ret (Failure "No se pudo eliminar la campaña.")
                 | None =>
                     let c := campaign found in
                     createAuditLog "campaign.deleted"
                       {| userId := Some (user_id user);
                          targetEntityId := Some (campaign_id c);
                          targetEntityType := Some "campaign";
                          details_metadata :=
                            Some (JObject [("name", JString (campaign_name c));
                                           ("siteId", JString (campaign_site_id c))]) |} ;;
                     revalidatePath
                       ("/dashboard/sites/" ++ campaign_site_id c ++ "/campaigns") ;;
                     ret (Success "Campaña eliminada.")
                 end
         | _, _ => ret (Failure "La campaña no se pudo encontrar.")
         end)
        (fun e =>
           if isZodError e then ret (Failure "ID de campaña inválido.")
           else
             logger.error "Error inesperado en deleteCampaignAction:" (WithExn e) ;;
             ret (Failure "Un error inesperado ocurrió."))
  end.

(** *** [actions/builder.actions.ts] *)

Definition updateCampaignContentAction (campaignId : string) (content : CampaignConfig)
  : M (ActionResult unit) :=
  createClient ;;
  u <- auth_getUser ;;
  match u with
  | None => ret (Failure "No autenticado.")
  | Some user =>
      campaignData <- getCampaignContentById campaignId (user_id user) ;;
      match campaignData with
      | None =>
          logger.warn
            ("[SEGURIDAD] VIOLACIÓN DE ACCESO: Usuario " ++ user_id user
               ++ " intentó guardar la campaña " ++ campaignId ++ " sin permisos.")
            NoContext ;;
          ret (Failure "Acceso denegado. No tienes permiso para editar esta campaña.")
      | Some campaignData =>
          logger.trace
            ("[BuilderActions] Usuario " ++ user_id user
               ++ " autorizado para guardar la campaña " ++ campaignId ++ ".")
            NoContext ;;
          answer <- send (UpdateCampaign campaignId content) ;;
          match error answer with
          | Some e =>
              logger.error
                ("[BuilderActions] Error al guardar campaña " ++ campaignId ++ ":")
                (WithError e) ;;
              ret (Failure "No se pudo guardar la campaña.")
          | None =>
              createAuditLog "campaign_content_updated"
                {| userId := Some (user_id user);
                   targetEntityId := Some campaignId;
                   targetEntityType := Some "campaign";
                   details_metadata :=
                     Some (JObject [("campaignName", JString (config_name content))]) |} ;;
              let slug := slug (campaign campaignData) in
              let subdomain := match parent campaignData with
                               | Some site => subdomain site
                               | None => None
                               end in
              (if truthy subdomain && truthy slug then
                 match subdomain, slug with
                 | Some subdomain, Some slug =>
                     let path := "/s/" ++ subdomain ++ "/" ++ slug in
                     revalidatePath path ;;
                     logger.info ("[BuilderActions] Revalidated path for ISR: " ++ path)
                       NoContext
                 | _, _ => ret tt
                 end
               else
                 logger.warn
                   ("[BuilderActions] No se pudo revalidar la ruta. Faltan datos para la campaña "
                      ++ campaignId ++ ".")
                   (WithFields [("subdomain", subdomain); ("slug", slug)])) ;;
              ret (Success tt)
          end
      end
  end.

(** *** [data/invitations.ts] *)

(** [{ success: true }], or the failure with the store's error. *)
Definition createInvitation (payload : CreateInvitationPayload)
  : M (option PostgrestError) :=
  emit (Call "createInvitation") ;;
  createClient ;;
  logger.trace "[DataLayer:Invitations] Intentando crear invitación." NoContext ;;
  answer <- send (InsertInvitation payload) ;;
  match error answer with
  | Some e =>
      logger.error "[DataLayer:Invitations] Error al crear invitación." (WithError e) ;;
      ret (Some e)
  | None =>
      logger.info "[DataLayer:Invitations] Invitación creada con éxito."
        (WithFields [("invitee", Some (invitee_email payload));
                     ("workspaceId", Some (inv_workspace_id payload))]) ;;
      ret None
  end.

(** *** [actions/invitations.actions.ts] *)

Definition sendWorkspaceInvitationAction (formData : FormData) : M (ActionResult string) :=
  createClient ;;
  u <- auth_getUser ;;
  match u with
  | None =>
      logger.warn "[InvitationsAction] Intento no autorizado para enviar invitación."
        NoContext ;;
      ret (Failure "No autenticado.")
  | Some user =>
      try_catch
        (parsedData <- parse (InvitationServerSchema (fromEntries formData)) ;;
         let invitee_email := fst (fst parsedData) in
         let role := snd (fst parsedData) in
         let workspace_id := snd parsedData in
         if match email user with
            | Some own => String.eqb invitee_email own
            | None => false
            end
         then ret (Failure "No puedes invitarte a ti mismo.")
         else
           permissionCheck <- requireWorkspacePermission workspace_id [owner; admin] ;;
           match permissionCheck with
           | Denied reason => ret (Failure (AuthError_string reason))
           | Authorized _ =>
               result <- createInvitation
                           {| inv_workspace_id := workspace_id;
                              invitee_email := invitee_email;
                              inv_role := role;
                              invited_by := user_id user |} ;;
               match result with
               | Some e =>
                   if String.eqb (code e) "23505" then
                     ret (Failure "Este usuario ya ha sido invitado o ya es miembro.")
                   else ret (Failure "No se pudo enviar la invitación.")
               | None =>
                   createAuditLog "workspace_invitation_sent"
                     {| userId := Some (user_id user);
                        targetEntityId := Some workspace_id;
                        targetEntityType := Some "workspace";
                        details_metadata :=
                          Some (JObject
                                  [("invitedEmail", JString invitee_email);
                                   ("role", JString (WorkspaceRole_string role))]) |} ;;
                   revalidateTag ("invitations:" ++ invitee_email) ;;
                   logger.info "[InvitationsAction] Invitación enviada con éxito."
                     (WithFields [("inviterId", Some (user_id user));
                                  ("inviteeEmail", Some invitee_email);
                                  ("workspaceId", Some workspace_id)]) ;;
                   ret (Success ("Invitación enviada a " ++ invitee_email ++ "."))
               end
           end)
        (fun e =>
           if isZodError e then ret (Failure "Datos de invitación inválidos.")
           else
             logger.error "[InvitationsAction] Error inesperado al enviar invitación."
               (WithExn e) ;;
             ret (Failure "Un error inesperado ocurrió."))
  end.

(** *** [actions/admin.actions.ts] *)

(** [createAdminClient()]: like [createClient], with the service key. *)
Definition createAdminClient : M unit := ret tt.

Definition impersonateUserAction (userId : string) : M (ActionResult string) :=
  roleCheck <- requireAppRole [app_developer] ;;
  match roleCheck with
  | Denied reason => ret (Failure (AuthError_string reason))
  | Authorized authData =>
      if String.eqb (user_id (user authData)) userId then
        ret (Failure "No puedes suplantarte a ti mismo.")
      else
        createAdminClient ;;
        emit (AdminGetUserById userId) ;;
        found <- await (admin_getUserById env userId) ;;
        match error found, data found with
        | None, Some target =>
            emit (AdminGenerateLink (email target)) ;;
            link <- await (admin_generateLink env (email target)) ;;
            match error link with
            | Some e =>
                logger.error
                  ("[AdminActions] Error al generar link de suplantación para "
                     ++ userId ++ ":")
                  (WithError e) ;;
                ret (Failure "No se pudo generar el link de suplantación.")
            | None =>
                createAuditLog "user_impersonated"
                  {| userId := Some (user_id (user authData));
                     targetEntityId := Some userId;
                     targetEntityType := Some "user";
                     details_metadata :=
                       Some (JObject (json_present [("impersonatedEmail", email target)])) |} ;;
                match data link with
                | None => throw (TypeError "data is null")
                | Some action_link => ret (Success action_link)
                end
            end
        | userError, _ =>
            logger.error
              ("[AdminActions] Error al obtener usuario para suplantación " ++ userId ++ ":")
              match userError with Some e => WithError e | None => NoContext end ;;
            ret (Failure "Usuario no encontrado.")
        end
  end.

Definition deleteSiteAsAdminAction (formData : FormData) : M (ActionResult string) :=
  roleCheck <- requireAppRole [app_admin; app_developer] ;;
  match roleCheck with
  | Denied reason => ret (Failure (AuthError_string reason))
  | Authorized authData =>
      match get formData "subdomain" with
      | None => ret (Failure "Subdominio ausente.")
      | Some subdomain =>
          if String.eqb subdomain "" then ret (Failure "Subdominio ausente.")
          else
            createAdminClient ;;
            answer <- send (DeleteSiteBySubdomain subdomain) ;;
            match error answer, data answer with
            | None, Some deletedSiteId =>
                revalidateTag ("sites:" ++ subdomain) ;;
                revalidatePath "/admin" ;;
                createAuditLog "site_deleted_admin"
                  {| userId := Some (user_id (user authData));
                     targetEntityId := Some deletedSiteId;
                     targetEntityType := Some "site";
                     (* [deletedSite.subdomain]: the column the row was matched on *)
                     details_metadata :=
                       Some (JObject [("subdomain", JString subdomain)]) |} ;;
                ret (Success ("Sitio " ++ subdomain ++ " eliminado correctamente."))
            | err, _ =>
                logger.error
                  ("[AdminActions] Error al eliminar el sitio " ++ subdomain ++ ":")
                  match err with Some e => WithError e | None => NoContext end ;;
                ret (Failure "No se pudo eliminar el sitio.")
            end
      end
  end.

Definition updateUserRoleAction (userId : string) (newRole : AppRole)
  : M (ActionResult unit) :=
  roleCheck <- requireAppRole [app_developer] ;;
  match roleCheck with
  | Denied reason => ret (Failure (AuthError_string reason))
  | Authorized authData =>
      if String.eqb (user_id (user authData)) userId then
        ret (Failure "No puedes cambiar tu propio rol.")
      else
        createAdminClient ;;
        answer <- send (UpdateProfileRole userId newRole) ;;
        match error answer with
        | Some e =>
            logger.error
              ("[AdminActions] Error al actualizar rol para " ++ userId ++ ":")
              (WithError e) ;;
            ret (Failure "No se pudo actualizar el rol.")
        | None =>
            revalidatePath "/dev-console/users" ;;
            createAuditLog "user_role_updated"
              {| userId := Some (user_id (user authData));
                 targetEntityId := Some userId;
                 targetEntityType := Some "user";
                 details_metadata :=
                   Some (JObject [("newRole", JString (AppRole_string newRole))]) |} ;;
            ret (Success tt)
        end
  end.

(** *** [actions/profiles.actions.ts] *)

Definition updateDashboardLayoutAction (moduleIds : list string) : M (ActionResult unit) :=
  createClient ;;
  u <- auth_getUser ;;
  match u with
  | None => ret (Failure "No autenticado.")
  | Some user =>
      answer <- send (UpdateDashboardLayout (user_id user) moduleIds) ;;
      match error answer with
      | Some _ => ret (Failure "No se pudo guardar el layout.")
      | None =>
          revalidateLayout "/dashboard" ;;
          ret (Success tt)
      end
  end.

(** *** The mutation handlers, as one family *)

Definition with_payload {A} (f : A -> Payload) (m : M (ActionResult A))
  : M (ActionResult Payload) :=
  r <- m ;;
  ret (match r with
       | Success a => Success (f a)
       | Failure e => Failure e
       end).

Definition invoke (call : Invocation) : M (ActionResult Payload) :=
  match call with
  | OnForm createSite formData => with_payload Id (createSiteAction formData)
  | OnForm updateSite formData => with_payload Message (updateSiteAction formData)
  | OnForm deleteSite formData => with_payload Message (deleteSiteAction formData)
  | OnForm createCampaign formData => with_payload Id (createCampaignAction formData)
  | OnForm deleteCampaign formData => with_payload Message (deleteCampaignAction formData)
  | OnForm sendInvitation formData =>
      with_payload Message (sendWorkspaceInvitationAction formData)
  | SaveContent campaignId content =>
      with_payload (fun _ => Void) (updateCampaignContentAction campaignId content)
  | Impersonate userId => with_payload Link (impersonateUserAction userId)
  | DeleteSiteAsAdmin formData => with_payload Message (deleteSiteAsAdminAction formData)
  | UpdateUserRole userId newRole =>
      with_payload (fun _ => Void) (updateUserRoleAction userId newRole)
  | SaveLayout moduleIds =>
      with_payload (fun _ => Void) (updateDashboardLayoutAction moduleIds)
  end.

(** Whether the handler's schema rejects the form. *)
Definition malformed (handler : Handler) (formData : FormData) : bool :=
  match handler with
  | createSite =>
      match CreateSiteServerSchema (fromEntries formData) with Some _ => false | None => true end
  | updateSite =>
      match UpdateSiteSchema (fromEntries formData) with Some _ => false | None => true end
  | deleteSite =>
      match DeleteSiteSchema (get formData "siteId") with Some _ => false | None => true end
  | createCampaign =>
      match CreateCampaignSchema (fromEntries formData) with Some _ => false | None => true end
  | deleteCampaign =>
      match DeleteCampaignSchema (get formData "campaignId") with Some _ => false | None => true end
  | sendInvitation =>
      match InvitationServerSchema (fromEntries formData) with Some _ => false | None => true end
  end.

(** The guard whose error the handler hands back as it is, when the call
    gets as far as that guard: [updateSiteAction], [deleteSiteAction] and
    [sendWorkspaceInvitationAction] once the form has parsed (the latter
    for a signed-in user who does not invite themselves), the admin actions
    at once. *)
Definition passes_on (call : Invocation) : option GuardCall :=
  match call with
  | OnForm updateSite formData =>
      match UpdateSiteSchema (fromEntries formData) with
      | Some parsed => Some (SiteGuard (fst parsed) [owner; admin])
      | None => None
      end
  | OnForm deleteSite formData =>
      match DeleteSiteSchema (get formData "siteId") with
      | Some siteId => Some (SiteGuard siteId [owner])
      | None => None
      end
  | OnForm sendInvitation formData =>
      match auth_user env, InvitationServerSchema (fromEntries formData) with
      | Some user, Some parsed =>
          if match email user with
             | Some own => String.eqb (fst (fst parsed)) own
             | None => false
             end
          then None
          else Some (WorkspaceGuard (snd parsed) [owner; admin])
      | _, _ => None
      end
  | Impersonate _ | UpdateUserRole _ _ => Some (AppGuard [app_developer])
  | DeleteSiteAsAdmin _ => Some (AppGuard [app_admin; app_developer])
  | _ => None
  end.

(** What a guard denies with, if it denies. *)
Definition denial {T} (result : AuthResult T) : option AuthError :=
  match result with
  | Authorized _ => None
  | Denied reason => Some reason
  end.

Definition guard (g : GuardCall) : M (option AuthError) :=
  match g with
  | SiteGuard siteId requiredRoles =>
      result <- requireSitePermission siteId requiredRoles ;; ret (denial result)
  | WorkspaceGuard workspaceId requiredRoles =>
      result <- requireWorkspacePermission workspaceId requiredRoles ;; ret (denial result)
  | AppGuard requiredRoles =>
      result <- requireAppRole requiredRoles ;; ret (denial result)
  end.

End Request.


(** The handlers of [campaigns.actions.ts] and [invitations.actions.ts]
    resolve the user before their [try], and answer with this message
    when there is none. *)
Definition unauthenticated_message (handler : Handler) : option string :=
  match handler with
  | createCampaign | deleteCampaign => Some "Usuario no autenticado."
  | sendInvitation => Some "No autenticado."
  | createSite | updateSite | deleteSite => None
  end.

(** The message each handler answers a [ZodError] with. *)
Definition invalid_data_message (handler : Handler) : string :=
  match handler with
  | createSite | updateSite => "Datos de formulario inválidos."
  | deleteSite => "ID de sitio inválido."
  | createCampaign => "Datos inválidos."
  | deleteCampaign => "ID de campaña inválido."
  | sendInvitation => "Datos de invitación inválidos."
  end.

(** The handlers that check a permission: all but the layout update,
    which only needs a signed-in user. *)
Definition guarded (call : Invocation) : bool :=
  match call with
  | SaveLayout _ => false
  | _ => true
  end.


(** The internal codes of the guard layer. *)
Definition internal_codes : list string :=
  map AuthError_string [SESSION_NOT_FOUND; PERMISSION_DENIED; NOT_FOUND].

Definition is_internal_code (text : string) : bool :=
  existsb (String.eqb text) internal_codes.

(** *** Reading a trace *)

Definition is_call (function : string) (e : Event) : bool :=
  match e with Call f => String.eqb f function | _ => false end.

(** How many times [function] was entered. *)
Definition calls (function : string) (t : list Event) : nat :=
  length (filter (is_call function) t).

Definition is_log (level : LogLevel) (e : Event) : bool :=
  match e, level with
  | Log TRACE _ _, TRACE | Log INFO _ _, INFO
  | Log WARN _ _, WARN | Log ERROR _ _, ERROR => true
  | _, _ => false
  end.

(** The log entries of one level, in order. *)
Definition logged (level : LogLevel) (t : list Event) : list Event :=
  filter (is_log level) t.

Definition is_select (table : string) (e : Event) : bool :=
  match e with Select tbl _ => String.eqb tbl table | _ => false end.

(** How many reads of [table] were issued. *)
Definition selects (table : string) (t : list Event) : nat :=
  length (filter (is_select table) t).

Definition is_audit_write (e : Event) : bool :=
  match e with Send (InsertAuditLog _) => true | _ => false end.

Definition is_send (e : Event) : bool :=
  match e with Send _ => true | _ => false end.

(** The writes sent to the store, in order. *)
Definition sent (t : list Event) : list Event := filter is_send t.

(** How many inserts into [audit_logs] were sent. *)
Definition audit_writes (t : list Event) : nat :=
  length (filter is_audit_write t).

(** [haystack.startsWith(needle)] and [haystack.includes(needle)]. *)
Fixpoint starts_with (needle haystack : string) : bool :=
  match needle, haystack with
  | EmptyString, _ => true
  | String a needle', String b haystack' => Ascii.eqb a b && starts_with needle' haystack'
  | String _ _, EmptyString => false
  end.

Fixpoint contains (needle haystack : string) : bool :=
  starts_with needle haystack
  || match haystack with
     | EmptyString => false
     | String _ rest => contains needle rest
     end.

(** A fresh request: run from [initial]. *)
Definition run {A} (m : M A) : Outcome A * list Event :=
  let (outcome, r) := m initial in (outcome, trace r).


End Server.

(* ===================================================================== *)
(** ** The other server actions: invitations accepted, workspaces,
       passwords, sign-up, sign-in, sign-out, telemetry *)
(* ===================================================================== *)

Module Accounts.

Import Server.

(** [data as { success, error, message } | null] of the
    [accept_workspace_invitation] procedure. *)
Record RpcResult := {
  rpc_success : bool; rpc_error : option string; rpc_message : option string
}.

(** [{ success: boolean; error?: string; message?: string }] of
    [acceptInvitation]. *)
Record Acceptance := {
  accepted : bool; acceptance_error : option string; acceptance_message : option string
}.

(** [{ success: boolean; error?: string }] of [checkRateLimit]. *)
Record RateLimit := { allowed : bool; limit_error : option string }.

(** The output of [ClientVisitSchema]. *)
Record ClientVisit := {
  cv_sessionId : string;
  cv_fingerprint : string;
  cv_screenWidth : option nat;
  cv_screenHeight : option nat;
  cv_userAgentClientHint : option (option (list (string * string)))
}.

(** What the platform answers to the calls of these actions, beside [Env]. *)
Record Platform := {
  (** [headers().get("origin")] *)
  origin : option string;
  (** the [error] that comes with the user of [auth.getUser()] *)
  getUser_error : option PostgrestError;
  (** [auth.getSession()]: the user of [data.session] *)
  auth_session : option User;
  (** [rpc("create_workspace_with_owner", ...)]: the ids of the rows of [data] *)
  create_workspace_with_owner : string -> string -> string -> Settled (list string);
  (** [rpc("accept_workspace_invitation", ...)] *)
  accept_workspace_invitation : string -> string -> Settled RpcResult;
  auth_signUp : string -> string -> string -> Settled unit;
  auth_signInWithPassword : string -> string -> Settled unit;
  auth_updateUser : string -> Settled unit;
  auth_signOut : option string -> Settled unit;
  (** [auth.admin.generateLink({ type: "recovery", email })]:
      [data.properties.action_link] *)
  admin_generateRecoveryLink : string -> Settled string;
  upsert_visitor_log : VisitorLogInsert -> Settled unit;
  (** [randomUUID()] *)
  randomUUID : string;
  (** [new Date().toISOString()] *)
  toISOString : string
}.

(** What these actions resolve with: an [ActionResult], the form states of
    [password.actions.ts], or nothing ([Promise<void>]). *)
Inductive Reply :=
| Result (result : ActionResult Payload)
| UpdatePasswordFormState (error : option string) (success : bool)
| RequestPasswordResetState (error : option string)
| Nothing.


(** [a || b || ...] on values that may be [undefined]: the first that is
    there and not empty. *)
Fixpoint first_truthy (values : list (option string)) (otherwise : string) : string :=
  match values with
  | [] => otherwise
  | v :: rest => if truthy v then match v with Some s => s | None => otherwise end
                 else first_truthy rest otherwise
  end.

Section Actions.

(** The argument of [logClientVisitAction], typed [unknown]. *)
Variable unknown : Type.

Variable zod : Zod.
(** [z.string().trim().min(1, ...)] of the icon of a workspace. *)
Variable IconSchema : string -> option string.
(** [ClientVisitSchema.parse(payload)]. *)
Variable ClientVisitSchema : unknown -> option ClientVisit.
(** The message of the validation library for a value that is missing. *)
Variable Required : string.
Variable env : Env.
Variable platform : Platform.

(** [redirect(url)] throws, and what follows it does not run. *)
Definition redirect {A} (url : string) : M A := throw (NEXT_REDIRECT url).

(** [supabase.rpc(function, args)], awaited. *)
Definition rpc {A} (function : string) (args : list (string * string))
    (settled : Settled A) : M (Response A) :=
  emit (Rpc function args) ;; await settled.

(** *** The object schemas these actions parse with *)

(** [PasswordSchema]: [z.string().min(8, ...)]. *)
Definition PasswordSchema (s : string) : option string :=
  if (js_length s <? 8)%nat then None else Some s.

(** [z.string().min(1, ...)] of [SignInSchema]. *)
Definition NonEmptySchema (s : string) : option string :=
  if (js_length s <? 1)%nat then None else Some s.

Definition SignUpSchema (object : string -> option string) : option (string * string) :=
  match required (EmailSchema zod) (object "email"),
        required PasswordSchema (object "password") with
  | Some email, Some password => Some (email, password)
  | _, _ => None
  end.

Definition SignInSchema (object : string -> option string) : option (string * string) :=
  match required (EmailSchema zod) (object "email"),
        required NonEmptySchema (object "password") with
  | Some email, Some password => Some (email, password)
  | _, _ => None
  end.

(** [CreateWorkspaceSchema]: [workspace_name] and [icon]. *)
Definition CreateWorkspaceSchema (object : string -> option string)
  : option (string * string) :=
  match required (NameSchema zod) (object "workspaceName"),
        required IconSchema (object "icon") with
  | Some workspace_name, Some icon => Some (workspace_name, icon)
  | _, _ => None
  end.

(** [error.flatten().fieldErrors.workspaceName?.[0]]: [NameSchema] is
    [z.string({ required_error }).trim().min(3, ...)]. *)
Definition workspaceName_error (object : string -> option string) : option string :=
  match object "workspaceName" with
  | None => Some "El nombre es requerido."
  | Some s =>
      match NameSchema zod s with
      | Some _ => None
      | None => Some "El nombre debe tener al menos 3 caracteres."
      end
  end.

(** [fieldErrors.password?.[0]] and [fieldErrors.confirmPassword?.[0]] of
    [ResetPasswordSchema]: the refinement on the two being equal reports
    under [confirmPassword], and runs when both are strings. *)
Definition password_error (object : string -> option string) : option string :=
  match object "password" with
  | None => Some Required
  | Some password =>
      if (js_length password <? 8)%nat
      then Some "La contraseña debe tener al menos 8 caracteres."
      else None
  end.

Definition confirmPassword_error (object : string -> option string) : option string :=
  match object "confirmPassword" with
  | None => Some Required
  | Some confirmPassword =>
      match object "password" with
      | Some password =>
          if String.eqb password confirmPassword then None
          else Some "Las contraseñas no coinciden."
      | None => None
      end
  end.

(** [ResetPasswordSchema.safeParse(...)]: the parsed password, or the
    field errors. *)
Definition ResetPasswordSchema (object : string -> option string) : option string :=
  match password_error object, confirmPassword_error object with
  | None, None => object "password"
  | _, _ => None
  end.

(** *** [actions/_helpers]: the rate limiter and the mail service *)

Definition checkRateLimit (ip : option string) (action : string) : M RateLimit :=
  if negb (truthy ip) then
    logger.warn
      ("[RateLimiter] No se pudo determinar la dirección IP. Se omitirá la verificación de límite de tasa para la acción: "
         ++ action ++ ". Esta acción será permitida.")
      NoContext ;;
    ret {| allowed := true; limit_error := None |}
  else
    logger.info
      ("[RateLimiter:Simulated] Verificación de límite de tasa para IP "
         ++ match ip with Some ip => ip | None => "" end
         ++ " en la acción " ++ action ++ ". Acción permitida.")
      NoContext ;;
    ret {| allowed := true; limit_error := None |}.

(** [EmailService.sendPasswordResetEmail]: it logs, and sends nothing. *)
Definition sendPasswordResetEmail (email resetLink : string) : M unit :=
  logger.info
    ("[EmailService:Simulated] Enviando correo de restablecimiento de contraseña a "
       ++ email ++ ".")
    (WithFields [("link", Some resetLink)]).

(** *** [data/invitations.ts] *)

Definition acceptInvitation (invitationId acceptingUserId : string) : M Acceptance :=
  emit (Call "acceptInvitation") ;;
  createClient ;;
  logger.trace "[DataLayer:Invitations] Intentando aceptar invitación."
    (WithFields [("invitationId", Some invitationId); ("userId", Some acceptingUserId)]) ;;
  answer <- rpc "accept_workspace_invitation"
              [("invitation_id", invitationId); ("accepting_user_id", acceptingUserId)]
              (accept_workspace_invitation platform invitationId acceptingUserId) ;;
  match error answer with
  | Some e =>
      logger.error "[DataLayer:Invitations] RPC falló al aceptar invitación." (WithError e) ;;
      ret {| accepted := false;
             acceptance_error := Some "No se pudo procesar la aceptación.";
             acceptance_message := None |}
  | None =>
      (* [rpcResult && !rpcResult.success] *)
      match data answer with
      | Some {| rpc_success := false; rpc_error := rpcError |} =>
          logger.warn "[DataLayer:Invitations] RPC devolvió un error de lógica de negocio."
            (WithFields [("invitationId", Some invitationId); ("rpcError", rpcError)]) ;;
          ret {| accepted := false; acceptance_error := rpcError;
                 acceptance_message := None |}
      | rpcResult =>
          logger.info "[DataLayer:Invitations] Invitación aceptada vía RPC."
            (WithFields [("invitationId", Some invitationId);
                         ("userId", Some acceptingUserId)]) ;;
          ret {| accepted := true; acceptance_error := None;
                 acceptance_message := match rpcResult with
                                       | Some r => rpc_message r
                                       | None => None
                                       end |}
      end
  end.

(** *** [actions/invitations.actions.ts] *)

Definition acceptInvitationAction (invitationId : string) : M (ActionResult string) :=
  createClient ;;
  u <- auth_getUser env ;;
  match u with
  | None => ret (Failure "No autenticado.")
  | Some user =>
      result <- acceptInvitation invitationId (user_id user) ;;
      if negb (accepted result) then
        ret (Failure (first_truthy [acceptance_error result]
                        "No se pudo aceptar la invitación."))
      else
        createAuditLog env "workspace_invitation_accepted"
          {| userId := Some (user_id user);
             targetEntityId := Some invitationId;
             targetEntityType := Some "invitation";
             details_metadata := None |} ;;
        (if truthy (email user) then
           revalidateTag ("invitations:"
                            ++ match email user with Some e => e | None => "" end)
         else
           logger.warn
             ("[InvitationsAction] No se pudo revalidar la caché de invitaciones por email para el usuario "
                ++ user_id user ++ " porque el email no está disponible.")
             NoContext) ;;
        revalidateTag ("workspaces:" ++ user_id user) ;;
        revalidateLayout "/dashboard" ;;
        logger.info "[InvitationsAction] Invitación aceptada con éxito."
          (WithFields [("userId", Some (user_id user));
                       ("invitationId", Some invitationId)]) ;;
        ret (Success (first_truthy [acceptance_message result]
                        "Te has unido al workspace con éxito!"))
  end.

(** *** [actions/workspaces.actions.ts] *)

Definition setActiveWorkspaceAction (workspaceId : string) : M unit :=
  logger.trace ("[WorkspacesAction] Estableciendo workspace activo: " ++ workspaceId)
    NoContext ;;
  emit (SetCookie "active_workspace_id" workspaceId) ;;
  revalidateLayout "/dashboard" ;;
  redirect "/dashboard".

Definition createWorkspaceAction (formData : FormData) : M (ActionResult string) :=
  createClient ;;
  u <- auth_getUser env ;;
  match u with
  | None =>
      logger.warn "[WorkspacesAction] Intento no autorizado para crear workspace."
        NoContext ;;
      ret (Failure "No autenticado. Inicia sesión de nuevo.")
  | Some user =>
      try_catch
        (parsed <- parse (CreateWorkspaceSchema (fromEntries formData)) ;;
         let workspace_name := fst parsed in
         let icon := snd parsed in
         answer <- rpc "create_workspace_with_owner"
                     [("owner_user_id", user_id user);
                      ("new_workspace_name", workspace_name);
                      ("new_workspace_icon", icon)]
                     (create_workspace_with_owner platform (user_id user)
                        workspace_name icon) ;;
         match error answer, data answer with
         | None, Some rows =>
             (* [data[0]], and its [id] *)
             match rows with
             | [] => throw (TypeError "newWorkspace is undefined")
             | newWorkspaceId :: _ =>
                 createAuditLog env "workspace_created"
                   {| userId := Some (user_id user);
                      targetEntityId := Some newWorkspaceId;
                      targetEntityType := Some "workspace";
                      details_metadata :=
                        Some (JObject [("workspaceName", JString workspace_name);
                                       ("icon", JString icon)]) |} ;;
                 revalidateLayout "/dashboard" ;;
                 logger.info
                   ("[WorkspacesAction] Workspace " ++ newWorkspaceId
                      ++ " creado con éxito para el usuario " ++ user_id user ++ ".")
                   NoContext ;;
                 ret (Success newWorkspaceId)
             end
         | err, _ =>
             logger.error
               ("[WorkspacesAction] RPC falló al crear workspace para el usuario "
                  ++ user_id user ++ ".")
               match err with Some e => WithError e | None => NoContext end ;;
             ret (Failure "No se pudo crear el workspace.")
         end)
        (fun e =>
           if isZodError e then
             let errorMessage :=
               first_truthy [workspaceName_error (fromEntries formData)]
                 "Datos inválidos." in
             logger.warn
               ("[WorkspacesAction] Datos inválidos para la creación de workspace por el usuario "
                  ++ user_id user ++ ".")
               (WithExn e) ;;
             ret (Failure errorMessage)
           else
             logger.error
               ("[WorkspacesAction] Error inesperado al crear workspace para el usuario "
                  ++ user_id user ++ ".")
               (WithExn e) ;;
             ret (Failure "Un error inesperado ocurrió."))
  end.

(** *** [actions/password.actions.ts] *)

Definition requestPasswordResetAction (formData : FormData) : M Reply :=
  forwarded <- headers_get env ;;
  let ip := match forwarded with Some ip => ip | None => "127.0.0.1" end in
  limit <- checkRateLimit (Some ip) "password_reset" ;;
  if negb (allowed limit) then
    ret (RequestPasswordResetState
           (Some (first_truthy [limit_error limit]
                    "Demasiadas solicitudes. Intente nuevamente más tarde.")))
  else
    match required (EmailSchema zod) (get formData "email") with
    | None => ret (RequestPasswordResetState (Some "Por favor, introduce un email válido."))
    | Some validatedEmail =>
        createAdminClient ;;
        emit (AdminGenerateRecoveryLink validatedEmail) ;;
        link <- await (admin_generateRecoveryLink platform validatedEmail) ;;
        match error link with
        | Some e =>
            logger.error
              ("[PasswordActions] Error al generar link de recuperación para "
                 ++ validatedEmail ++ ":")
              (WithError e)
        | None =>
            match data link with
            | None => throw (TypeError "data is null")
            | Some action_link => sendPasswordResetEmail validatedEmail action_link
            end
        end ;;
        createAuditLog env "password_reset_request"
          {| userId := None; targetEntityId := None; targetEntityType := None;
             details_metadata :=
               Some (JObject [("targetEmail", JString validatedEmail);
                              ("ipAddress", JString ip)]) |} ;;
        redirect "/auth-notice?message=check-email-for-reset"
    end.

Definition updatePasswordAction (formData : FormData) : M Reply :=
  let object := fromEntries formData in
  match ResetPasswordSchema object with
  | None =>
      let errorMessage :=
        first_truthy [password_error object; confirmPassword_error object]
          "Datos inválidos." in
      ret (UpdatePasswordFormState (Some errorMessage) false)
  | Some password =>
      createClient ;;
      u <- auth_getUser env ;;
      match getUser_error platform, u with
      | None, Some user =>
          emit (AuthUpdateUser password) ;;
          answer <- await (auth_updateUser platform password) ;;
          match error answer with
          | Some e =>
              (* the context is [error.message] *)
              logger.error
                ("[PasswordActions] Error al actualizar la contraseña para "
                   ++ user_id user ++ ":")
                (WithFields [("message", Some (message e))]) ;;
              if contains "token has expired" (message e) then
                ret (UpdatePasswordFormState
                       (Some "El enlace de reseteo ha expirado. Por favor, solicita uno nuevo.")
                       false)
              else
                ret (UpdatePasswordFormState
                       (Some "No fue posible actualizar la contraseña. Intente nuevamente.")
                       false)
          | None =>
              createAuditLog env "password_reset_success"
                {| userId := Some (user_id user); targetEntityId := None;
                   targetEntityType := None; details_metadata := None |} ;;
              emit (AuthSignOut (Some "others")) ;;
              await (auth_signOut platform (Some "others")) ;;
              ret (UpdatePasswordFormState None true)
          end
      | _, _ =>
          ret (UpdatePasswordFormState
                 (Some "Sesión de recuperación inválida o expirada. Por favor, solicita un nuevo enlace.")
                 false)
      end
  end.

(** *** [actions/auth.actions.ts] and [actions/session.actions.ts] *)

Definition signUpAction (formData : FormData) : M (ActionResult unit) :=
  createClient ;;
  let rawData := fromEntries formData in
  try_catch
    (parsed <- parse (SignUpSchema rawData) ;;
     let email := fst parsed in
     let password := snd parsed in
     (* [`${origin}/api/auth/callback`] *)
     let emailRedirectTo :=
       match origin platform with Some o => o | None => "null" end
       ++ "/api/auth/callback" in
     logger.trace ("[AuthActions] Iniciando registro para " ++ email) NoContext ;;
     emit (AuthSignUp email password emailRedirectTo) ;;
     answer <- await (auth_signUp platform email password emailRedirectTo) ;;
     match error answer with
     | Some e =>
         logger.warn ("[AuthActions] Fallo en el registro para " ++ email)
           (WithFields [("message", Some (message e))]) ;;
         ret (Failure
                "No se pudo completar el registro. El correo electrónico ya podría estar en uso.")
     | None =>
         createAuditLog env "user_signup_initiated"
           {| userId := None; targetEntityId := None; targetEntityType := None;
              details_metadata := Some (JObject [("email", JString email)]) |} ;;
         logger.info
           ("[AuthActions] Registro exitoso para " ++ email ++ ". Esperando confirmación.")
           NoContext ;;
         (* inside the [try] *)
         redirect "/auth-notice?message=check-email-for-confirmation"
     end)
    (fun e =>
       if isZodError e then
         logger.warn "[AuthActions] Datos de registro inválidos." (WithExn e) ;;
         ret (Failure "Datos de registro inválidos.")
       else
         logger.error "[AuthActions] Error inesperado en signUpAction" (WithExn e) ;;
         ret (Failure "Un error inesperado ocurrió.")).

Definition signInWithPasswordAction (formData : FormData) : M (ActionResult unit) :=
  ip <- headers_get env ;;
  limit <- checkRateLimit ip "login" ;;
  if negb (allowed limit) then
    (* [limit.error!] *)
    ret (Failure match limit_error limit with Some e => e | None => "" end)
  else
    let rawData := fromEntries formData in
    (* what the [try] statement returns with, if it does *)
    returned <-
      try_catch
        (parsed <- parse (SignInSchema rawData) ;;
         let email := fst parsed in
         let password := snd parsed in
         createClient ;;
         logger.trace
           ("[AuthActions] Iniciando intento de inicio de sesión para " ++ email)
           NoContext ;;
         emit (AuthSignInWithPassword email password) ;;
         answer <- await (auth_signInWithPassword platform email password) ;;
         match error answer with
         | Some e =>
             createAuditLog env "user_login_failed"
               {| userId := None; targetEntityId := None; targetEntityType := None;
                  details_metadata :=
                    Some (JObject [("email", JString email);
                                   ("reason", JString (message e))]) |} ;;
             logger.warn ("[AuthActions] Intento de login fallido para " ++ email)
               (WithFields [("message", Some (message e))]) ;;
             ret (Some (Failure "Credenciales inválidas."))
         | None => ret None
         end)
        (fun e =>
           if isZodError e then
             logger.warn "[AuthActions] Datos de inicio de sesión inválidos." (WithExn e) ;;
             ret (Some (Failure "Datos de inicio de sesión inválidos."))
           else
             logger.error "[AuthActions] Error inesperado en signInAction" (WithExn e) ;;
             ret (Some (Failure "Un error inesperado ocurrió."))) ;;
    match returned with
    | Some result => ret result
    | None => redirect "/dashboard"
    end.

Definition signOutAction : M unit :=
  createClient ;;
  emit AuthGetSession ;;
  match auth_session platform with
  | Some sessionUser =>
      createAuditLog env "user_sign_out"
        {| userId := Some (user_id sessionUser); targetEntityId := None;
           targetEntityType := None; details_metadata := None |}
  | None => ret tt
  end ;;
  emit (AuthSignOut None) ;;
  await (auth_signOut platform None) ;;
  redirect "/".

(** *** [actions/telemetry.actions.ts] *)

Definition logClientVisitAction (payload : unknown) : M (ActionResult unit) :=
  logger.trace "[TelemetryAction] Iniciando log de visita de cliente." NoContext ;;
  try_catch
    (validatedData <- parse (ClientVisitSchema payload) ;;
     let sessionId := cv_sessionId validatedData in
     (* [sessionId || randomUUID()] *)
     let finalSessionId := or_else sessionId (randomUUID platform) in
     (if String.eqb sessionId "" then
        logger.warn
          ("[TelemetryAction] Cliente no proporcionó sessionId. Generando uno nuevo: "
             ++ finalSessionId)
          NoContext
      else ret tt) ;;
     createClient ;;
     forwarded <- headers_get env ;;
     let ipAddress := match forwarded with Some ip => ip | None => "127.0.0.1" end in
     let clientLogData :=
       {| session_id := finalSessionId;
          fingerprint := cv_fingerprint validatedData;
          visit_ip_address := ipAddress;
          screenWidth := cv_screenWidth validatedData;
          screenHeight := cv_screenHeight validatedData;
          userAgentClientHint := cv_userAgentClientHint validatedData |} in
     emit (UpsertVisitorLog clientLogData) ;;
     answer <- await (upsert_visitor_log platform clientLogData) ;;
     match error answer with
     | Some e =>
         logger.error "[TelemetryAction] Error en upsert de visita de cliente:"
           (WithFields [("error", Some (message e))]) ;;
         ret (Failure "No se pudo registrar la visita.")
     | None =>
         logger.info "[TelemetryAction] Visita de cliente registrada/actualizada."
           (WithFields [("sessionId", Some finalSessionId)]) ;;
         ret (Success tt)
     end)
    (fun e =>
       if isZodError e then
         logger.warn "[TelemetryAction] Datos de visita de cliente inválidos:" (WithExn e) ;;
         ret (Failure "Datos de cliente inválidos.")
       else
         logger.error "[TelemetryAction] Error inesperado en logClientVisitAction:"
           (WithExn e) ;;
         ret (Failure "Un error inesperado ocurrió.")).

(** *** [actions/sentry.actions.ts] *)

Definition testSentryServerErrorAction : M unit :=
  try_catch
    (throw (Error ("LIA-E-S-01: Error de servidor de prueba provocado a las "
                     ++ toISOString platform)))
    (fun error =>
       emit (CaptureException error) ;;
       throw error).

(** *** These actions, as one family *)

Inductive Action :=
| AcceptInvitation (invitationId : string)
| SetActiveWorkspace (workspaceId : string)
| CreateWorkspace (formData : FormData)
| RequestPasswordReset (formData : FormData)
| UpdatePassword (formData : FormData)
| SignUp (formData : FormData)
| SignIn (formData : FormData)
| SignOut
| LogClientVisit (payload : unknown)
| TestSentryServerError.

Definition as_result {A} (f : A -> Payload) (m : M (ActionResult A)) : M Reply :=
  r <- m ;;
  ret (Result match r with
              | Success a => Success (f a)
              | Failure e => Failure e
              end).

Definition answer (action : Action) : M Reply :=
  match action with
  | AcceptInvitation invitationId => as_result Message (acceptInvitationAction invitationId)
  | SetActiveWorkspace workspaceId => setActiveWorkspaceAction workspaceId ;; ret Nothing
  | CreateWorkspace formData => as_result Id (createWorkspaceAction formData)
  | RequestPasswordReset formData => requestPasswordResetAction formData
  | UpdatePassword formData => updatePasswordAction formData
  | SignUp formData => as_result (fun _ => Void) (signUpAction formData)
  | SignIn formData => as_result (fun _ => Void) (signInWithPasswordAction formData)
  | SignOut => signOutAction ;; ret Nothing
  | LogClientVisit payload => as_result (fun _ => Void) (logClientVisitAction payload)
  | TestSentryServerError => testSentryServerErrorAction ;; ret Nothing
  end.

(** Whether the schema of the action rejects its input; the actions
    without a schema take any. *)
Definition rejected (action : Action) : bool :=
  match action with
  | CreateWorkspace formData =>
      match CreateWorkspaceSchema (fromEntries formData) with Some _ => false | None => true end
  | RequestPasswordReset formData =>
      match required (EmailSchema zod) (get formData "email") with
      | Some _ => false
      | None => true
      end
  | UpdatePassword formData =>
      match ResetPasswordSchema (fromEntries formData) with Some _ => false | None => true end
  | SignUp formData =>
      match SignUpSchema (fromEntries formData) with Some _ => false | None => true end
  | SignIn formData =>
      match SignInSchema (fromEntries formData) with Some _ => false | None => true end
  | LogClientVisit payload =>
      match ClientVisitSchema payload with Some _ => false | None => true end
  | AcceptInvitation _ | SetActiveWorkspace _ | SignOut | TestSentryServerError => false
  end.

(** What the action answers an input its schema rejects with. *)
Definition rejection (action : Action) : Reply :=
  match action with
  | CreateWorkspace formData =>
      Result (Failure
                match auth_user env with
                | None => "No autenticado. Inicia sesión de nuevo."
                | Some _ =>
                    first_truthy [workspaceName_error (fromEntries formData)]
                      "Datos inválidos."
                end)
  | RequestPasswordReset _ =>
      RequestPasswordResetState (Some "Por favor, introduce un email válido.")
  | UpdatePassword formData =>
      UpdatePasswordFormState
        (Some (first_truthy [password_error (fromEntries formData);
                             confirmPassword_error (fromEntries formData)]
                 "Datos inválidos."))
        false
  | SignUp _ => Result (Failure "Datos de registro inválidos.")
  | SignIn _ => Result (Failure "Datos de inicio de sesión inválidos.")
  | LogClientVisit _ => Result (Failure "Datos de cliente inválidos.")
  | AcceptInvitation _ | SetActiveWorkspace _ | SignOut | TestSentryServerError => Nothing
  end.




End Actions.

Arguments AcceptInvitation {unknown} invitationId.
Arguments SetActiveWorkspace {unknown} workspaceId.
Arguments CreateWorkspace {unknown} formData.
Arguments RequestPasswordReset {unknown} formData.
Arguments UpdatePassword {unknown} formData.
Arguments SignUp {unknown} formData.
Arguments SignIn {unknown} formData.
Arguments SignOut {unknown}.
Arguments LogClientVisit {unknown} payload.
Arguments TestSentryServerError {unknown}.

End Accounts.

(* ===================================================================== *)
(** ** What the handlers are held to *)
(* ===================================================================== *)

Module Policy.

Import Server.

(** The user has a row in [workspace_members] for the workspace, with one
    of the roles. *)
Definition holds_role (env : Env) (userId workspaceId : string)
    (roles : list WorkspaceRole) : Prop :=
  exists m, In m (workspace_members env)
            /\ wm_user_id m = userId /\ wm_workspace_id m = workspaceId
            /\ includes roles (role m) = true.

(** The site is a row of [sites], in that workspace. *)
Definition site_in (env : Env) (siteId workspaceId : string) : Prop :=
  exists s, In s (sites env) /\ site_id s = siteId /\ workspace_id s = workspaceId.

(** The campaign is a row of [campaigns], of that site. *)
Definition campaign_in (env : Env) (campaignId siteId : string) : Prop :=
  exists c, In c (campaigns env) /\ campaign_id c = campaignId
            /\ campaign_site_id c = siteId.

(** [profile?.app_role || "user"]. *)
Definition app_role_of (env : Env) : AppRole :=
  match profile_app_role env with Some r => r | None => app_user end.

(** The roles each write asks of the user [u] who sends it, as the
    handlers' guards name them. *)
Definition permitted (env : Env) (u : User) (statement : Statement) : Prop :=
  match statement with
  | InsertSite row owner_id =>
      owner_id = user_id u
      /\ holds_role env (user_id u) (cs_workspace_id row) [owner; admin]
  | UpdateSite id _ =>
      exists w, site_in env id w /\ holds_role env (user_id u) w [owner; admin]
  | DeleteSite id =>
      exists w, site_in env id w /\ holds_role env (user_id u) w [owner]
  | InsertCampaign _ _ site =>
      exists w, site_in env site w
                /\ holds_role env (user_id u) w [owner; admin; member]
  | UpdateCampaign id _ | DeleteCampaign id =>
      exists site w, campaign_in env id site /\ site_in env site w
                     /\ holds_role env (user_id u) w [owner; admin; member]
  | InsertInvitation row =>
      invited_by row = user_id u
      /\ email u <> Some (invitee_email row)
      /\ holds_role env (user_id u) (inv_workspace_id row) [owner; admin]
  | UpdateProfileRole id _ =>
      app_role_of env = app_developer /\ id <> user_id u
  | DeleteSiteBySubdomain _ =>
      app_role_of env = app_admin \/ app_role_of env = app_developer
  | UpdateDashboardLayout id _ => id = user_id u
  | InsertAuditLog row => actor_id row = Some (user_id u)
  end.

(** The same for every event that changes something: a write, or a call
    of the admin client. *)
Definition authorized (env : Env) (e : Event) : Prop :=
  match e with
  | Send statement => exists u, auth_user env = Some u /\ permitted env u statement
  | AdminGetUserById id =>
      exists u, auth_user env = Some u
                /\ app_role_of env = app_developer /\ id <> user_id u
  | AdminGenerateLink _ => app_role_of env = app_developer
  | _ => True
  end.

Definition is_permission_check (e : Event) : bool :=
  is_call "hasWorkspacePermission" e || is_call "requireAppRole" e.

(** What a handler is there for: its write, or the sign-in link. *)
Definition is_mutation (e : Event) : bool :=
  match e with
  | Send (InsertAuditLog _) => false
  | Send _ => true
  | AdminGenerateLink _ => true
  | _ => false
  end.

Definition mutations (t : list Event) : nat := length (filter is_mutation t).

(** Every mutation comes after a permission check, and every audit write
    after a mutation. *)
Fixpoint in_order (checked mutated : bool) (t : list Event) : bool :=
  match t with
  | [] => true
  | e :: rest =>
      if is_permission_check e then in_order true mutated rest
      else if is_mutation e then checked && in_order checked true rest
      else if is_audit_write e then mutated && in_order checked mutated rest
      else in_order checked mutated rest
  end.

(** The cache revalidations of a trace. *)
Definition revalidated (t : list Event) : list Event :=
  filter (fun e => match e with
                   | RevalidatePath _ | RevalidateLayout _ | RevalidateTag _ => true
                   | _ => false
                   end) t.

(** What holds of every run of a handler. *)
Definition disciplined (env : Env) (call : Invocation)
    (outcome : Outcome (ActionResult Payload)) (events : list Event) : Prop :=
  (forall e, In e events -> authorized env e)
  /\ (guarded call = true -> in_order false false events = true)
  /\ mutations events <= 1
  /\ audit_writes events <= 1
  /\ (forall payload,
        outcome = Returned (Success payload) -> mutations events = 1)
  /\ (forall text,
        outcome = Returned (Failure text) ->
        audit_writes events = 0 /\ calls "createAuditLog" events = 0
        /\ revalidated events = [])
  /\ (forall text,
        outcome = Returned (Failure text) ->
        is_internal_code text = true ->
        mutations events = 0).

(** The path of the public page of a campaign, [/s/<subdomain>/<slug>],
    where its site has a subdomain and it has a slug. *)
Definition public_path (found : CampaignWithSite) : option string :=
  match parent found with
  | Some site =>
      match subdomain site, slug (campaign found) with
      | Some subdomain, Some slug =>
          if negb (String.eqb subdomain "") && negb (String.eqb slug "")
          then Some ("/s/" ++ subdomain ++ "/" ++ slug) else None
      | _, _ => None
      end
  | None => None
  end.

(** How many times the auth service was asked for the user. *)
Definition session_lookups (t : list Event) : nat :=
  length (filter (fun e => match e with GetUser => true | _ => false end) t).

End Policy.

(* ===================================================================== *)
(** ** [auth/middleware-permissions.ts] *)
(* ===================================================================== *)

Module Middleware.

Import Server.

(** The lookup of [getAuthenticatedUserAuthData], without [cache] and
    without its trace entry. *)
Definition getAuthDataForMiddleware (env : Env) : M (option UserAuthData) :=
  createClient ;;
  u <- auth_getUser env ;;
  match u with
  | None => ret None
  | Some u =>
      (* [cookies()], then the profile row of the user *)
      emit (Select "profiles" [("id", user_id u)]) ;;
      ret (Some {| user := u;
                   appRole := match profile_app_role env with
                              | Some r => r
                              | None => app_user
                              end;
                   activeWorkspaceId :=
                     if truthy (active_workspace_cookie env)
                     then active_workspace_cookie env else None |})
  end.

End Middleware.

(* ===================================================================== *)
(** ** [helpers/object-case-converter.ts] *)
(* ===================================================================== *)

Module CaseConverter.

(** [/[A-Z]/]: the code units 65 to 90. *)
Definition is_upper (c : ascii) : bool :=
  (65 <=? nat_of_ascii c)%nat && (nat_of_ascii c <=? 90)%nat.

(** [letter.toLowerCase()] of a letter the pattern matched. *)
Definition lower (c : ascii) : ascii := ascii_of_nat (nat_of_ascii c + 32).

(** [str.replace(/[A-Z]/g, (letter) => `_${letter.toLowerCase()}`)]. *)
Fixpoint toSnakeCase (str : string) : string :=
  match str with
  | EmptyString => EmptyString
  | String c rest =>
      if is_upper c then String "_" (String (lower c) (toSnakeCase rest))
      else String c (toSnakeCase rest)
  end.

(** The prototype of an object: [Object.prototype], none, or another
    object. *)
Inductive Prototype (V : Type) :=
| ObjectPrototype
| NoPrototype
| Inherits (parent : V).
Arguments ObjectPrototype {V}.
Arguments NoPrototype {V}.
Arguments Inherits {V} parent.

(** A value as [keysToSnakeCase] and an assignment tell them apart:
    [null], an array, an object with its prototype and its own enumerable
    properties in the order of [Object.keys], or anything else. *)
#[local] Unset Elimination Schemes.
Inductive Value (P : Type) :=
| Primitive (p : P)
| Null
| Array (elements : list (Value P))
| Object (prototype : Prototype (Value P)) (properties : list (string * Value P)).
#[local] Set Elimination Schemes.
Arguments Primitive {P} p.
Arguments Null {P}.
Arguments Array {P} elements.
Arguments Object {P} prototype properties.


(** [obj[key]] on own properties. *)
Definition lookup {P} (key : string) (properties : list (string * Value P))
  : option (Value P) :=
  option_map snd (find (fun property => String.eqb (fst property) key) properties).

Definition has_own {P} (key : string) (properties : list (string * Value P)) : bool :=
  match lookup key properties with Some _ => true | None => false end.

Definition is_digit (c : ascii) : bool :=
  (48 <=? nat_of_ascii c)%nat && (nat_of_ascii c <=? 57)%nat.

(** The number a string of digits writes, after the digits of [value]. *)
Fixpoint number_of (str : string) (value : N) : option N :=
  match str with
  | EmptyString => Some value
  | String c rest =>
      if is_digit c
      then number_of rest (10 * value + N.of_nat (nat_of_ascii c - 48))%N
      else None
  end.

(** The array index a property key is, if it is one: a canonical numeric
    string (digits, without a leading zero) below [2^32 - 1]. *)
Definition array_index (key : string) : option N :=
  match key with
  | EmptyString => None
  | String c rest =>
      if Ascii.eqb c "0" && negb (String.eqb rest "") then None
      else match number_of key 0 with
           | Some i => if (i <? 2 ^ 32 - 1)%N then Some i else None
           | None => None
           end
  end.

(** The order of the own keys of an object ([Object.keys]): the array
    indices first, ascending, then the other keys in the order of their
    creation. A property created under [key] is listed before the one
    under [k] when [comes_before key k]. *)
Definition comes_before (key k : string) : bool :=
  match array_index key, array_index k with
  | Some i, Some j => (i <? j)%N
  | Some _, None => true
  | None, _ => false
  end.

(** A property that is there keeps its place and takes the value. *)
Fixpoint update {P} (key : string) (value : Value P) (acc : list (string * Value P))
  : list (string * Value P) :=
  match acc with
  | [] => []
  | (k, v) :: rest =>
      if String.eqb k key then (k, value) :: rest
      else (k, v) :: update key value rest
  end.

(** A new property takes its place in the order of the keys. *)
Fixpoint insert {P} (key : string) (value : Value P) (acc : list (string * Value P))
  : list (string * Value P) :=
  match acc with
  | [] => [(key, value)]
  | (k, v) :: rest =>
      if comes_before key k then (key, value) :: (k, v) :: rest
      else (k, v) :: insert key value rest
  end.

(** [acc[key] = value] on the own properties of [acc]. *)
Definition assign {P} (key : string) (value : Value P) (acc : list (string * Value P))
  : list (string * Value P) :=
  if has_own key acc then update key value acc else insert key value acc.







Fixpoint has_upper (str : string) : bool :=
  match str with
  | EmptyString => false
  | String c rest => is_upper c || has_upper rest
  end.

Fixpoint uppers (str : string) : nat :=
  match str with
  | EmptyString => 0
  | String c rest => (if is_upper c then 1 else 0) + uppers rest
  end.










End CaseConverter.

(* ===================================================================== *)
(** ** [data/sites.ts]: sites by host, and the availability check of
       [sites.actions.ts] *)
(* ===================================================================== *)

Module Hosts.

Import Server.

(** [haystack.endsWith(needle)]. *)
Fixpoint ends_with (needle haystack : string) : bool :=
  String.eqb needle haystack
  || match haystack with
     | EmptyString => false
     | String _ rest => ends_with needle rest
     end.

(** [str.slice(n)]. *)
Fixpoint slice (n : nat) (str : string) : string :=
  match n, str with
  | O, _ => str
  | S n', String _ rest => slice n' rest
  | S _, EmptyString => EmptyString
  end.

(** [str.replace(pattern, "")] for a string [pattern]: the first
    occurrence goes. *)
Fixpoint remove_first (pattern str : string) : string :=
  if starts_with pattern str then slice (String.length pattern) str
  else match str with
       | EmptyString => EmptyString
       | String c rest => String c (remove_first pattern rest)
       end.

(** [str.split(":")[0]]. *)
Fixpoint before_colon (str : string) : string :=
  match str with
  | EmptyString => EmptyString
  | String c rest => if Ascii.eqb c ":" then EmptyString else String c (before_colon rest)
  end.

Section Host.

(** [String.prototype.toLowerCase]. *)
Variable toLowerCase : string -> string.
(** [process.env.NEXT_PUBLIC_ROOT_DOMAIN]. *)
Variable NEXT_PUBLIC_ROOT_DOMAIN : option string.

(** [utils.ts]: [process.env.NEXT_PUBLIC_ROOT_DOMAIN || "localhost:3000"]. *)
Definition rootDomain : string :=
  if truthy NEXT_PUBLIC_ROOT_DOMAIN
  then match NEXT_PUBLIC_ROOT_DOMAIN with Some d => d | None => "localhost:3000" end
  else "localhost:3000".

(** The constants [getSiteDataByHost] computes from its [host]. *)
Definition sanitizedHost (host : string) : string :=
  let lowered := toLowerCase host in
  (* [.replace(/^www\./, "")] *)
  if starts_with "www." lowered then slice 4 lowered else lowered.

Definition rootDomainWithoutPort : string := before_colon rootDomain.

Definition isSubdomainOfRoot (host : string) : bool :=
  ends_with ("." ++ rootDomainWithoutPort) (sanitizedHost host)
  && negb (String.eqb (sanitizedHost host) rootDomainWithoutPort).

Definition isLikelySlug (host : string) : bool :=
  negb (contains "." (sanitizedHost host)).

Definition isSubdomain (host : string) : bool :=
  isSubdomainOfRoot host || isLikelySlug host.

Definition finalHost (host : string) : string :=
  if isSubdomainOfRoot host
  then remove_first ("." ++ rootDomainWithoutPort) (sanitizedHost host)
  else sanitizedHost host.

Variable env : Env.
(** The [custom_domain] column of a row of [sites]. *)
Variable custom_domain : Site -> option string.
(** What the data cache holds under a key, if anything. *)
Variable dataCache : string -> option (option Site).

(** The column the query filters on. *)
Definition host_column (host : string) : string :=
  if isSubdomain host then "subdomain" else "custom_domain".

(** The rows [.eq(column, hostToSearch)] keeps. *)
Definition host_rows (host : string) : list Site :=
  filter (fun site =>
            match (if isSubdomain host then subdomain site else custom_domain site) with
            | Some value => String.eqb value (finalHost host)
            | None => false
            end)
    (sites env).

(** The function is wrapped in [unstable_cache] under the key
    [site-data-host-<finalHost>]: it runs on a miss. *)
Definition getSiteDataByHost (host : string) : M (option Site) :=
  emit (Call "getSiteDataByHost") ;;
  let hostToSearch := finalHost host in
  match dataCache ("site-data-host-" ++ hostToSearch) with
  | Some cached => ret cached
  | None =>
      logger.trace ("[Cache MISS] Buscando sitio para el host: " ++ hostToSearch) NoContext ;;
      createClient ;;
      emit (Select "sites" [(host_column host, hostToSearch)]) ;;
      let answer := single (read_fault env "sites") (host_rows host) in
      match error answer with
      | Some e =>
          if negb (String.eqb (code e) "PGRST116") then
            logger.error
              ("[DataLayer:Sites] Error al obtener sitio por host " ++ hostToSearch ++ ":")
              (WithError e) ;;
            ret None
          else ret (data answer)
      | None => ret (data answer)
      end
  end.

(** [sites.actions.ts]; the data of a success is [isAvailable]. *)
Definition checkSubdomainAvailabilityAction (subdomain : string) : M (ActionResult bool) :=
  if String.eqb subdomain "" || (js_length subdomain <? 3)%nat then
    ret (Failure "Subdominio inválido.")
  else
    try_catch
      (existingSite <- getSiteDataByHost subdomain ;;
       ret (Success match existingSite with Some _ => false | None => true end))
      (fun e =>
         logger.error
           ("[SitesActions] Error al verificar el subdominio " ++ subdomain ++ ":")
           (WithExn e) ;;
         ret (Failure "Error del servidor al verificar.")).

End Host.

End Hosts.

(* ===================================================================== *)
(** ** [utils.ts]: [debounce] *)
(* ===================================================================== *)

Module Debounce.

Section Debounce.

(** The arguments of [func]. *)
Variable A : Type.
Variable waitFor : nat.

(** A timer of the event loop: its id, the time it is due, and the
    arguments its callback hands to [func]. *)
Record Timer := { timer_id : nat; due : nat; args : A }.

Record State := {
  (** the variable [timeout] the returned function closes over *)
  timeout : option nat;
  (** the timers set and neither fired nor cleared, in the order set *)
  timers : list Timer;
  next_id : nat;
  (** the calls of [func] so far: when, and with what *)
  invoked : list (nat * A)
}.

Definition init : State :=
  {| timeout := None; timers := []; next_id := 1; invoked := [] |}.

Definition clearTimeout (id : nat) (st : State) : State :=
  {| timeout := timeout st;
     timers := filter (fun t => negb (timer_id t =? id)%nat) (timers st);
     next_id := next_id st;
     invoked := invoked st |}.

(** [setTimeout(() => resolve(func(...args)), delay)] at time [now]. *)
Definition setTimeout (now delay : nat) (a : A) (st : State) : nat * State :=
  (next_id st,
   {| timeout := timeout st;
      timers := (timers st ++ [{| timer_id := next_id st; due := now + delay; args := a |}])%list;
      next_id := S (next_id st);
      invoked := invoked st |}).

(** A call of the debounced function at time [now]. *)
Definition debounced (now : nat) (a : A) (st : State) : State :=
  let st := match timeout st with
            | Some id => clearTimeout id st
            | None => st
            end in
  let (id, st) := setTimeout now waitFor a st in
  {| timeout := Some id; timers := timers st; next_id := next_id st; invoked := invoked st |}.

Definition is_due (now : nat) (t : Timer) : bool := (due t <=? now)%nat.

(** The event loop reaches time [now]: the timers due by then fire, in
    the order they were set. *)
Definition elapse (now : nat) (st : State) : State :=
  {| timeout := timeout st;
     timers := filter (fun t => negb (is_due now t)) (timers st);
     next_id := next_id st;
     invoked := (invoked st
                 ++ map (fun t => (due t, args t)) (filter (is_due now) (timers st)))%list |}.

(** Calls of the debounced function, each at its time; a timer due at
    the time of a call fires before the call. *)
Fixpoint play (calls : list (nat * A)) (st : State) : State :=
  match calls with
  | [] => st
  | (now, a) :: rest => play rest (debounced now a (elapse now st))
  end.

(** What is pending: nothing, or the one timer of the latest call. *)
Definition pending_is (st : State) (p : option (nat * A)) : Prop :=
  match p with
  | None => timers st = []
  | Some (d, a) =>
      exists id, timeout st = Some id /\ id < next_id st
                 /\ timers st = [{| timer_id := id; due := d; args := a |}]
  end
  /\ match timeout st with Some id => id < next_id st | None => True end.

(** What a pending timer does by [now], and what is left of it. *)
Definition fires (p : option (nat * A)) (now : nat) : list (nat * A) :=
  match p with
  | Some (d, a) => if (d <=? now)%nat then [(d, a)] else []
  | None => []
  end.

Definition remains (p : option (nat * A)) (now : nat) : option (nat * A) :=
  match p with
  | Some (d, a) => if (d <=? now)%nat then None else Some (d, a)
  | None => None
  end.

(** The calls of [func] a run of calls leads to by [horizon]. *)
Fixpoint settled (p : option (nat * A)) (calls : list (nat * A)) (horizon : nat)
  : list (nat * A) :=
  match calls with
  | [] => fires p horizon
  | (now, a) :: rest => (fires p now ++ settled (Some (now + waitFor, a)) rest horizon)%list
  end.

(** Each call comes before the timer of the one before it is due. *)
Fixpoint burst (previous : nat) (calls : list (nat * A)) : Prop :=
  match calls with
  | [] => True
  | (now, _) :: rest => now < previous + waitFor /\ burst now rest
  end.

(** Each call comes when the timer of the one before it is due, or later. *)
Fixpoint spaced (previous : nat) (calls : list (nat * A)) : Prop :=
  match calls with
  | [] => True
  | (now, _) :: rest => previous + waitFor <= now /\ spaced now rest
  end.

End Debounce.

End Debounce.

(* ===================================================================== *)
(** ** [use-subdomain-availability.ts]: the hook around the reducer *)
(* ===================================================================== *)

Module AvailabilityHook.

Import Availability.

Section Hook.

(** What the call of [checkSubdomainAvailabilityAction] settles with. *)
Variable check : string -> Awaited (ActionResult bool).

(** The reducer state, the closure of the debounced function, and the
    calls of the server action so far. *)
Record Hook := {
  state : State;
  timer : Debounce.State string;
  requests : list string
}.

Definition mount : Hook :=
  {| state := initialState; timer := Debounce.init string; requests := [] |}.

Definition dispatch (h : Hook) (action : Action) : Hook :=
  {| state := availabilityReducer (state h) action;
     timer := timer h; requests := requests h |}.

(** The function [debounce] wraps, called by a timer with [subdomain]:
    when the awaited call rejects, nothing is dispatched after
    [CHECK_START]. *)
Definition check_now (h : Hook) (subdomain : string) : Hook :=
  let h := {| state := state h; timer := timer h;
              requests := (requests h ++ [subdomain])%list |} in
  match check subdomain with
  | Fulfilled result => fold_left dispatch (debouncedCheck result) h
  | Rejects => dispatch h CHECK_START
  end.

(** Time passes to [now]: the timers due by then run the check. *)
Definition elapse (now : nat) (h : Hook) : Hook :=
  fold_left check_now
    (map (@Debounce.args string) (filter (Debounce.is_due now) (Debounce.timers (timer h))))
    {| state := state h; timer := Debounce.elapse now (timer h);
       requests := requests h |}.

(** One run of the effect: a render in which [subdomainValue], [isDirty]
    or [hasErrors] changed, and when. *)
Record Render := {
  at_time : nat; subdomainValue : string; isDirty : bool; hasErrors : bool
}.

(** [!isDirty || hasErrors || subdomainValue.length < 3]. *)
Definition gated (r : Render) : bool :=
  negb (isDirty r) || hasErrors r || (js_length (subdomainValue r) <? 3)%nat.

Definition effect (r : Render) (h : Hook) : Hook :=
  if gated r then dispatch h RESET
  else {| state := state h;
          timer := Debounce.debounced 500 (at_time r) (subdomainValue r) (timer h);
          requests := requests h |}.

Fixpoint renders (rs : list Render) (h : Hook) : Hook :=
  match rs with
  | [] => h
  | r :: rest => renders rest (effect r (elapse (at_time r) h))
  end.

(** The status a check of [subdomain] ends in. *)
Definition verdict (subdomain : string) : AvailabilityStatus :=
  match check subdomain with
  | Fulfilled (Success true) => available
  | Fulfilled (Success false) => unavailable
  | Fulfilled (Failure _) => unavailable
  | Rejects => checking
  end.

(** The call of the debounced function a render makes. *)
Definition keystroke (r : Render) : nat * string := (at_time r, subdomainValue r).

End Hook.

End AvailabilityHook.

(* ===================================================================== *)
(** ** [use-sites-page.ts]: the optimistic hook on the site actions *)
(* ===================================================================== *)

Module SitesPage.

Import Optimistic Server.

(** Whether the call gets past the guard of its handler: [handleDelete]
    returns at once without an id. *)
Definition proceeds (call : HandlerCall) : bool :=
  match call with
  | Create _ _ _ => true
  | Delete formData => truthy (get formData "siteId")
  end.

(** The items after the optimistic update of the call. *)
Definition optimistic_items (call : HandlerCall) (current : list Resource) : list Resource :=
  match call with
  | Create now _ optimisticItem => (current ++ [phantomItem now optimisticItem])%list
  | Delete formData =>
      match get formData "siteId" with
      | Some idToDelete => filter (fun item => negb (String.eqb (id item) idToDelete)) current
      | None => current
      end
  end.

Definition is_action_call (e : Effect) : bool :=
  match e with CreateActionCalled _ | DeleteActionCalled _ => true | _ => false end.

Definition is_toast (e : Effect) : bool :=
  match e with ToastSuccess _ | ToastError _ => true | _ => false end.

(** What the hook sees of a server action [useSitesPage] hands it: the
    awaited result, its data typed [any]; nothing when the call throws. *)
Definition awaited {A} (m : M (ActionResult A)) : option (ActionResult unit) :=
  match fst (run m) with
  | Returned (Success _) => Some (Success tt)
  | Returned (Failure error) => Some (Failure error)
  | Threw _ => None
  end.

Section Settling.

Variable entityName : string.
(** What the awaited call of each server action settles with. *)
Variable createAction : FormData -> Awaited (ActionResult string).
Variable deleteAction : FormData -> Awaited (ActionResult unit).

(** The body of a transition whose [await] rejects: the action was
    called, and nothing after the [await] runs. *)
Definition interrupted (called : Effect) (st : HookState) : HookState :=
  setPending false (perform called st).

(** One call of a handler of the hook, with a server action that may
    reject. *)
Definition settle (call : HandlerCall) (rendered : list Resource) (st : HookState)
  : HookState :=
  match call with
  | Create now formData optimisticItem =>
      match createAction formData with
      | Fulfilled result =>
          handleCreate entityName (fun _ => result) rendered now formData optimisticItem st
      | Rejects =>
          interrupted (CreateActionCalled formData)
            (handleCreate_optimistic now optimisticItem st)
      end
  | Delete formData =>
      match deleteAction formData with
      | Fulfilled result => handleDelete entityName (fun _ => result) rendered formData st
      | Rejects =>
          let idToDelete := get formData "siteId" in
          if negb (truthy idToDelete) then st
          else
            match idToDelete with
            | None => st
            | Some idToDelete =>
                interrupted (DeleteActionCalled formData)
                  (handleDelete_optimistic idToDelete st)
            end
      end
  end.

(** What the action of the call settles with. *)
Definition outcome (call : HandlerCall) : Awaited bool :=
  match call with
  | Create _ formData _ =>
      match createAction formData with
      | Fulfilled result => Fulfilled (succeeded result)
      | Rejects => Rejects
      end
  | Delete formData =>
      match deleteAction formData with
      | Fulfilled result => Fulfilled (succeeded result)
      | Rejects => Rejects
      end
  end.

End Settling.

End SitesPage.

(* ===================================================================== *)
(** ** [use-countdown-redirect.ts] *)
(* ===================================================================== *)

Module Countdown.

Section Hook.

(** The numbers of the language, and what the hook does with them:
    [prev - 1], [countdown <= 0], and the comparison by which a state
    update or a dependency counts as unchanged. *)
Variable number : Type.
Variable minus_one : number -> number.
Variable not_positive : number -> bool.
Variable same : number -> number -> bool.

(** The state cell, the callback of the latest render (functions are told
    apart by a number), whether the timer of the effect is pending, and
    the callbacks called so far. *)
Record Hook := {
  countdown : number;
  onCountdownEnd : nat;
  timer : bool;
  ended : list nat
}.

(** The body of the effect. *)
Definition effect (h : Hook) : Hook :=
  if not_positive (countdown h)
  then {| countdown := countdown h; onCountdownEnd := onCountdownEnd h;
          timer := false; ended := (ended h ++ [onCountdownEnd h])%list |}
  else {| countdown := countdown h; onCountdownEnd := onCountdownEnd h;
          timer := true; ended := ended h |}.

(** The cleanup the effect returns: [clearTimeout(timer)]. *)
Definition cleanup (h : Hook) : Hook :=
  {| countdown := countdown h; onCountdownEnd := onCountdownEnd h;
     timer := false; ended := ended h |}.

Definition mount (initialCount : number) (callback : nat) : Hook :=
  effect {| countdown := initialCount; onCountdownEnd := callback;
            timer := false; ended := [] |}.

(** The pending timer runs out: [setCountdown((prev) => prev - 1)]. When
    that changes the state, the component renders again and the effect
    runs for the new value; when it does not, nothing renders and no
    timer is set again. *)
Definition second (h : Hook) : Hook :=
  if timer h then
    let next := minus_one (countdown h) in
    if same (countdown h) next then cleanup h
    else effect {| countdown := next; onCountdownEnd := onCountdownEnd h;
                   timer := false; ended := ended h |}
  else h.

(** The parent renders the component again and hands it [callback]: when
    that is another function than before, the cleanup runs and the effect
    runs again. *)
Definition render (callback : nat) (h : Hook) : Hook :=
  if (callback =? onCountdownEnd h)%nat then h
  else effect (cleanup {| countdown := countdown h; onCountdownEnd := callback;
                          timer := timer h; ended := ended h |}).

Inductive Step :=
| Second
| Render (callback : nat).

Definition step (h : Hook) (s : Step) : Hook :=
  match s with
  | Second => second h
  | Render callback => render callback h
  end.

Definition steps (ss : list Step) (h : Hook) : Hook := fold_left step ss h.

(** The seconds among the steps. *)
Fixpoint seconds (ss : list Step) : nat :=
  match ss with
  | [] => 0
  | Second :: rest => S (seconds rest)
  | Render _ :: rest => seconds rest
  end.

(** Every render hands over the same callback. *)
Definition stable (callback : nat) (ss : list Step) : Prop :=
  Forall (fun s => match s with Second => True | Render c => c = callback end) ss.

End Hook.

End Countdown.

(* ===================================================================== *)
(** ** [utils.ts]: [isPrivateIpAddress] *)
(* ===================================================================== *)

Module Utils.

(** The fragment of regular expressions [privateIpRegex] is written in. *)
Inductive Pattern :=
| Lit (c : ascii)
| Class (lo hi : ascii)
| Seq (p q : Pattern)
| Alt (p q : Pattern)
| Opt (p : Pattern).

Definition in_class (lo hi c : ascii) : bool :=
  (nat_of_ascii lo <=? nat_of_ascii c)%nat && (nat_of_ascii c <=? nat_of_ascii hi)%nat.

(** Every way [p] matches at the start of [str]: what is left of [str]
    after each. *)
Fixpoint rests (p : Pattern) (str : string) : list string :=
  match p with
  | Lit c =>
      match str with
      | String x rest => if Ascii.eqb x c then [rest] else []
      | EmptyString => []
      end
  | Class lo hi =>
      match str with
      | String x rest => if in_class lo hi x then [rest] else []
      | EmptyString => []
      end
  | Seq p q => flat_map (rests q) (rests p str)
  | Alt p q => (rests p str ++ rests q str)%list
  | Opt p => (rests p str ++ [str])%list
  end.

(** A literal text, and what follows it. *)
Fixpoint text (s : string) (then_ : Pattern) : Pattern :=
  match s with
  | EmptyString => then_
  | String c rest => Seq (Lit c) (text rest then_)
  end.

(** [\d] and [\d{1,3}]. *)
Definition digit : Pattern := Class "0" "9".
Definition octet : Pattern := Seq digit (Seq (Opt digit) (Opt digit)).
Definition dot : Pattern := Lit ".".

(** The four alternatives of [privateIpRegex]. *)
Definition class_a : Pattern :=
  text "10." (Seq octet (Seq dot (Seq octet (Seq dot octet)))).
Definition class_b : Pattern :=
  text "172."
    (Seq (Alt (Seq (Lit "1") (Class "6" "9"))
            (Alt (Seq (Lit "2") digit) (Seq (Lit "3") (Class "0" "1"))))
       (Seq dot (Seq octet (Seq dot octet)))).
Definition class_c : Pattern :=
  text "192.168." (Seq octet (Seq dot octet)).
Definition loopback : Pattern :=
  text "127.0.0." (Lit "1").

(** Whether [found] holds of [str] from some index on. *)
Fixpoint somewhere (found : string -> bool) (str : string) : bool :=
  found str
  || match str with
     | EmptyString => false
     | String _ rest => somewhere found rest
     end.

Definition matches (p : Pattern) (str : string) : bool :=
  negb (match rests p str with [] => true | _ => false end).

Definition matches_to_end (p : Pattern) (str : string) : bool :=
  existsb (String.eqb "") (rests p str).

(** [privateIpRegex.test(ip)]: in [/^(A)|(B)|(C)|(D)$/] the [^] belongs to
    the first alternative and the [$] to the last. *)
Definition isPrivateIpAddress (ip : string) : bool :=
  matches class_a ip
  || somewhere (matches class_b) ip
  || somewhere (matches class_c) ip
  || somewhere (matches_to_end loopback) ip.

(** An octet as the pattern takes it: one to three digits. *)
Definition is_digit (c : ascii) : bool := in_class "0" "9" c.

Definition is_octet (s : string) : bool :=
  match s with
  | String a EmptyString => is_digit a
  | String a (String b EmptyString) => is_digit a && is_digit b
  | String a (String b (String c EmptyString)) => is_digit a && is_digit b && is_digit c
  | _ => false
  end.

End Utils.

(* ===================================================================== *)
(** ** Scenarios *)
(* ===================================================================== *)

Module Scenario.

Import Optimistic.

Definition two_sites : list Resource :=
  [ {| id := "s1"; props := [("name", "Uno")] |};
    {| id := "s2"; props := [("name", "Dos")] |} ].

Definition rendered_state : HookState :=
  {| items := two_sites; isPending := false; mutatingId := None; effects := [] |}.

(** A server that refuses every mutation. *)
Definition refusing_create (_ : FormData) : ActionResult string :=
  Failure "Este subdominio ya está en uso.".
Definition refusing_delete (_ : FormData) : ActionResult unit :=
  Failure "PERMISSION_DENIED".

Definition campaign_form : FormData := [("campaignId", "c1")].

Import Server.

(** Stand-ins for the string schemas: an id has the length of a UUID, a
    name, subdomain or slug has three characters or more. *)
Definition long_enough (n : nat) (s : string) : option string :=
  if (n <=? js_length s)%nat then Some s else None.

Definition lenient : Zod :=
  {| UuidSchema := fun s => if (js_length s =? 36)%nat then Some s else None;
     NameSchema := long_enough 3;
     SubdomainSchema := long_enough 3;
     SlugSchema := long_enough 3;
     EmailSchema := long_enough 6;
     slugify := fun s => s |}.

Definition ana : User := {| user_id := "ana"; email := Some "ana@acme.test" |}.
Definition beto : User := {| user_id := "beto"; email := Some "beto@acme.test" |}.

Definition w1 : string := "aaaaaaaa-aaaa-4aaa-8aaa-aaaaaaaaaaaa".
Definition s1 : string := "bbbbbbbb-bbbb-4bbb-8bbb-bbbbbbbbbbbb".
Definition s9 : string := "99999999-9999-4999-8999-999999999999".
Definition c1 : string := "cccccccc-cccc-4ccc-8ccc-cccccccccccc".
Definition fresh_id : string := "dddddddd-dddd-4ddd-8ddd-dddddddddddd".

(** A store that accepts every write. *)
Definition healthy (_ : Statement) : StoreAnswer :=
  Resolved {| data := Some fresh_id; error := None |}.

(** A store whose [sites] table has the subdomain already. *)
Definition subdomain_taken (statement : Statement) : StoreAnswer :=
  match statement with
  | InsertSite _ _ =>
      Resolved {| data := None;
                  error := Some {| code := "23505";
                                   message := "duplicate key value violates unique constraint" |} |}
  | _ => healthy statement
  end.


(** Workspace [w1]: ana owns it, beto is a member; site [s1] with the
    subdomain acme and its campaign [c1]. *)
Definition world (who : option User) (store : Statement -> StoreAnswer)
    (fault : string -> option PostgrestError) : Env :=
  {| forwarded_for := Some "203.0.113.7";
     auth_user := who;
     profile_app_role := Some app_user;
     active_workspace_cookie := Some w1;
     workspace_members :=
       [ {| wm_user_id := "ana"; wm_workspace_id := w1; role := owner |};
         {| wm_user_id := "beto"; wm_workspace_id := w1; role := member |} ];
     sites := [ {| site_id := s1; subdomain := Some "acme"; workspace_id := w1 |} ];
     campaigns := [ {| campaign_id := c1; campaign_site_id := s1;
                       campaign_name := "Oferta"; slug := Some "oferta" |} ];
     read_fault := fault;
     execute := store;
     admin_getUserById := fun _ => Resolved {| data := Some beto; error := None |};
     admin_generateLink :=
       fun _ => Resolved {| data := Some "https://acme.test/auth/v1/verify?token=t";
                            error := None |} |}.

Definition no_fault (_ : string) : option PostgrestError := None.

(** The store is unreachable for reads of [workspace_members]. *)
Definition members_unreachable (table : string) : option PostgrestError :=
  if String.eqb table "workspace_members"
  then Some {| code := "08006"; message := "connection failure" |}
  else None.

Definition create_acme : FormData :=
  [("name", "Acme"); ("subdomain", "acme"); ("workspaceId", w1)].
Definition delete_s1 : FormData := [("siteId", s1)].
Definition empty_form : FormData := [].

End Scenario.

(** Further cases, for the facts beside the claims. *)
Module Cases.

Import Server Scenario.

Definition ana_world : Env := world (Some ana) healthy no_fault.
Definition beto_world : Env := world (Some beto) healthy no_fault.

(** Ana, with the platform role of a developer. *)
Definition developer_world : Env :=
  {| forwarded_for := forwarded_for ana_world;
     auth_user := auth_user ana_world;
     profile_app_role := Some app_developer;
     active_workspace_cookie := active_workspace_cookie ana_world;
     workspace_members := workspace_members ana_world;
     sites := sites ana_world;
     campaigns := campaigns ana_world;
     read_fault := read_fault ana_world;
     execute := execute ana_world;
     admin_getUserById := admin_getUserById ana_world;
     admin_generateLink := admin_generateLink ana_world |}.

(** The store is unreachable for reads of [sites]. *)
Definition sites_unreachable (table : string) : option PostgrestError :=
  if String.eqb table "sites"
  then Some {| code := "08006"; message := "connection failure" |}
  else None.

Definition sites_down : Env := world None healthy sites_unreachable.

Definition invite_ana : FormData :=
  [("email", "ana@acme.test"); ("role", "member"); ("workspaceId", w1)].

(** Lower case for the letters A to Z, which is what [toLowerCase] does
    to a host name. *)
Fixpoint lowercase (s : string) : string :=
  match s with
  | EmptyString => EmptyString
  | String c rest =>
      String (if CaseConverter.is_upper c then CaseConverter.lower c else c)
        (lowercase rest)
  end.

Definition no_custom_domain (_ : Site) : option string := None.
Definition cold_cache (_ : string) : option (option Site) := None.

(** A server that finds every subdomain free, one that accepts every
    deletion, and one that cannot be reached. *)
Definition always_free (_ : string) : Awaited (ActionResult bool) :=
  Fulfilled (Success true).
Definition accepting_delete (_ : FormData) : Awaited (ActionResult unit) :=
  Fulfilled (Success tt).
Definition unreachable_create (_ : FormData) : Awaited (ActionResult string) := Rejects.

(** A platform on which the sign-up goes through, and the invitation has
    expired. *)
Definition platform : Accounts.Platform :=
  {| Accounts.origin := Some "https://acme.test";
     Accounts.getUser_error := None;
     Accounts.auth_session := Some ana;
     Accounts.create_workspace_with_owner :=
       fun _ _ _ => Resolved {| data := Some [fresh_id]; error := None |};
     Accounts.accept_workspace_invitation :=
       fun _ _ =>
         Resolved {| data := Some {| Accounts.rpc_success := false;
                                     Accounts.rpc_error := Some "invitation_expired";
                                     Accounts.rpc_message := None |};
                     error := None |};
     Accounts.auth_signUp := fun _ _ _ => Resolved {| data := Some tt; error := None |};
     Accounts.auth_signInWithPassword :=
       fun _ _ => Resolved {| data := Some tt; error := None |};
     Accounts.auth_updateUser := fun _ => Resolved {| data := Some tt; error := None |};
     Accounts.auth_signOut := fun _ => Resolved {| data := Some tt; error := None |};
     Accounts.admin_generateRecoveryLink :=
       fun _ => Resolved {| data := Some "https://acme.test/auth/v1/verify?token=r";
                            error := None |};
     Accounts.upsert_visitor_log := fun _ => Resolved {| data := Some tt; error := None |};
     Accounts.randomUUID := fresh_id;
     Accounts.toISOString := "2025-01-01T00:00:00.000Z" |}.

(** The icon of a workspace is any text that is not empty; a visit is
    sent without its payload. *)
Definition icon (s : string) : option string := long_enough 1 s.
Definition no_visit (_ : unit) : option Accounts.ClientVisit := None.

Definition sign_up_ana : FormData :=
  [("email", "ana@acme.test"); ("password", "correct horse")].
Definition unnamed_workspace : FormData := [("icon", "rocket")].

(** The user has the field at [value] at time [now]. *)
Definition typed (now : nat) (value : string) : AvailabilityHook.Render :=
  {| AvailabilityHook.at_time := now; AvailabilityHook.subdomainValue := value;
     AvailabilityHook.isDirty := true; AvailabilityHook.hasErrors := false |}.

End Cases.

(* ===================================================================== *)
(** ** The client hooks *)
(* ===================================================================== *)

Section AvailabilityFacts.

Import Availability.

(** C9. The reducer is the machine idle -> checking -> (available |
    unavailable): from every state, [CHECK_START] gives [checking],
    [CHECK_SUCCESS] gives [available] when [isAvailable] is true and
    [unavailable] when it is false, [RESET] gives [idle], [CHECK_ERROR]
    gives [unavailable]; and one run of the debounced check goes through
    [checking] and ends in [available] or [unavailable], the latter
    whenever the remote check failed. *)
Theorem availabilityReducer_state_machine :
  forall state : State,
    status (availabilityReducer state CHECK_START) = checking
    /\ status (availabilityReducer state (CHECK_SUCCESS true)) = available
    /\ status (availabilityReducer state (CHECK_SUCCESS false)) = unavailable
    /\ status (availabilityReducer state RESET) = idle
    /\ status (availabilityReducer state CHECK_ERROR) = unavailable
    /\ forall result : ActionResult bool,
         map status (states_through state (debouncedCheck result))
         = [ checking;
             match result with
             | Success true => available
             | Success false => unavailable
             | Failure _ => unavailable
             end ].
Proof.
  intros state. repeat split.
  intros [[|]|msg]; reflexivity.
Qed.

End AvailabilityFacts.

Section OptimisticFacts.

Import Optimistic.

Variable entityName : string.
Variable createAction : FormData -> ActionResult string.
Variable deleteAction : FormData -> ActionResult unit.

Lemma handleCreate_transition_rollback previousItems formData st :
  succeeded (createAction formData) = false ->
  items (handleCreate_transition entityName createAction previousItems formData st)
  = previousItems.
Proof.
  unfold handleCreate_transition. destruct (createAction formData); simpl.
  - discriminate.
  - reflexivity.
Qed.

Lemma handleDelete_transition_rollback previousItems formData st :
  succeeded (deleteAction formData) = false ->
  items (handleDelete_transition entityName deleteAction previousItems formData st)
  = previousItems.
Proof.
  unfold handleDelete_transition. destruct (deleteAction formData); simpl.
  - discriminate.
  - reflexivity.
Qed.

(** C8. When the server action of a [handleCreate] or [handleDelete] call
    resolves with [{ success: false }], the rollback sets [items] to the
    snapshot [previousItems] the call took before its optimistic update,
    whatever the state is by then; so a call made from an up-to-date
    render leaves [items] as it found them. *)
Theorem rollback_restores_snapshot :
  forall (call : HandlerCall) (previousItems : list Resource) (st : HookState),
    server_fails createAction deleteAction call = true ->
    items (transition entityName createAction deleteAction call previousItems st)
    = previousItems
    /\ items (handle entityName createAction deleteAction call (items st) st)
       = items st.
Proof.
  intros [now formData optimisticItem | formData] previousItems st Hfail;
    simpl in Hfail; apply negb_true_iff in Hfail; simpl.
  - split.
    + now apply handleCreate_transition_rollback.
    + unfold handleCreate. now apply handleCreate_transition_rollback.
  - split.
    + now apply handleDelete_transition_rollback.
    + unfold handleDelete.
      destruct (get formData "siteId") as [idToDelete|]; simpl; [|reflexivity].
      destruct (negb (negb (idToDelete =? ""))); [reflexivity|].
      now apply handleDelete_transition_rollback.
Qed.

(** C10. [handleDelete] reads the id from the entry named ["siteId"] only:
    on a form without that entry it returns at once, leaving [items] and
    [mutatingId] as they were and never invoking the delete action (no
    effect is performed at all). *)
Theorem handleDelete_needs_siteId :
  forall (rendered : list Resource) (formData : FormData) (st : HookState),
    get formData "siteId" = None ->
    let st' := handleDelete entityName deleteAction rendered formData st in
    items st' = items st
    /\ mutatingId st' = mutatingId st
    /\ effects st' = effects st
    /\ st' = st.
Proof.
  intros rendered formData st Hno. unfold handleDelete. rewrite Hno. simpl.
  repeat split.
Qed.

End OptimisticFacts.

(** C8 on a server that refuses: the phantom site is gone again. *)
Lemma rollback_restores_snapshot_witness :
  Optimistic.server_fails Scenario.refusing_create Scenario.refusing_delete
    (Optimistic.Create "1700000000000" [("subdomain", "acme")] [("name", "Acme")]) = true
  /\ Optimistic.items
       (Optimistic.handle "Site" Scenario.refusing_create Scenario.refusing_delete
          (Optimistic.Create "1700000000000" [("subdomain", "acme")] [("name", "Acme")])
          Scenario.two_sites Scenario.rendered_state)
     = Scenario.two_sites.
Proof.
  split; [reflexivity|].
  apply (rollback_restores_snapshot "Site" Scenario.refusing_create Scenario.refusing_delete
           (Optimistic.Create "1700000000000" [("subdomain", "acme")] [("name", "Acme")])
           Scenario.two_sites Scenario.rendered_state).
  reflexivity.
Defined.

(** C10 on a campaign form: nothing happens. *)
Lemma handleDelete_needs_siteId_witness :
  get Scenario.campaign_form "siteId" = None
  /\ Optimistic.handleDelete "Campaña" Scenario.refusing_delete
       Scenario.two_sites Scenario.campaign_form Scenario.rendered_state
     = Scenario.rendered_state.
Proof.
  split; [reflexivity|].
  apply (handleDelete_needs_siteId "Campaña" Scenario.refusing_delete
           Scenario.two_sites Scenario.campaign_form Scenario.rendered_state).
  reflexivity.
Defined.

(* ===================================================================== *)
(** ** The permission and guard layers *)
(* ===================================================================== *)

Import Server.

Unset Implicit Arguments.
Arguments String.append : simpl never.

(** Unfolds the server code down to the request monad. *)
Ltac unfold_server :=
  unfold invoke, with_payload, guard, denial,
    createSiteAction, updateSiteAction, deleteSiteAction,
    createCampaignAction, deleteCampaignAction, updateCampaignContentAction,
    sendWorkspaceInvitationAction, createInvitation,
    impersonateUserAction, deleteSiteAsAdminAction, updateUserRoleAction,
    updateDashboardLayoutAction,
    getCampaignContentById, getAuthenticatedUser,
    requireAppRole, requireWorkspacePermission, requireSitePermission,
    getAuthenticatedUserAuthData, fetchUserAuthData,
    hasWorkspacePermission, getSiteById, createAuditLog,
    select_member, select_site, select_campaign, single, memberships, embed_site,
    send, await, revalidatePath, revalidateLayout, revalidateTag,
    headers_get, auth_getUser, createClient, createAdminClient, parse,
    readCache, writeCache,
    logger.trace, logger.info, logger.warn, logger.error,
    try_catch, bind, emit, ret, throw, run, initial.

(** Case analysis on the innermost scrutinee of the goal. *)
Ltac split_case :=
  match goal with
  | |- context [match ?x with _ => _ end] =>
      lazymatch x with
      | context [match _ with _ => _ end] => fail
      | _ => destruct x eqn:?
      end
  end.

Ltac crunch := repeat (simpl; try split_case).

Ltac settle :=
  intros;
  repeat match goal with
         | H : (_, _) = (_, _) |- _ => injection H as ? ?; subst
         | H : Returned _ = Returned _ |- _ => injection H as ?; subst
         | H : Success _ = Success _ |- _ => injection H as ?; subst
         | H : Failure _ = Failure _ |- _ => injection H as ?; subst
         end;
  try discriminate; try congruence.

(** Two equations on one term: keep one, and what it implies. *)
(** Unfolds the other server actions down to the request monad. *)
Ltac unfold_accounts :=
  unfold Accounts.answer, Accounts.as_result,
    Accounts.acceptInvitationAction, Accounts.acceptInvitation,
    Accounts.setActiveWorkspaceAction, Accounts.createWorkspaceAction,
    Accounts.requestPasswordResetAction, Accounts.updatePasswordAction,
    Accounts.signUpAction, Accounts.signInWithPasswordAction, Accounts.signOutAction,
    Accounts.logClientVisitAction, Accounts.testSentryServerErrorAction,
    Accounts.checkRateLimit, Accounts.sendPasswordResetEmail,
    Accounts.rpc, Accounts.redirect;
  unfold_server.

Ltac merge_equations :=
  repeat match goal with
         | H1 : ?x = _, H2 : ?x = _ |- _ =>
             rewrite H1 in H2;
             first [ discriminate H2 | injection H2 as ?; subst | clear H2 ]
         end.


(** Closes a goal whose hypotheses contradict one another. *)
Ltac clash :=
  repeat match goal with
         | H : exists _, _ |- _ => destruct H
         | H : _ /\ _ |- _ => destruct H
         end;
  merge_equations;
  repeat match goal with
         | H : (_ =? _) = true |- _ => apply String.eqb_eq in H
         | H : (_ =? _) = false |- _ => apply String.eqb_neq in H
         end;
  try discriminate; try congruence.

Ltac count_events :=
  unfold calls, selects, audit_writes, logged;
  repeat rewrite filter_app; repeat rewrite length_app; simpl; try lia; try reflexivity.

Lemma starts_with_append needle rest : starts_with needle (needle ++ rest) = true.
Proof.
  induction needle as [|c needle IH]; simpl.
  - reflexivity.
  - unfold String.append; fold String.append. rewrite Ascii.eqb_refl. exact IH.
Qed.

Lemma contains_here needle rest : contains needle (needle ++ rest) = true.
Proof.
  destruct (needle ++ rest) eqn:E; simpl; rewrite <- E, starts_with_append; reflexivity.
Qed.

Lemma contains_later needle before rest :
  contains needle rest = true -> contains needle (before ++ rest) = true.
Proof.
  intros H. induction before as [|c before IH].
  - exact H.
  - unfold String.append; fold String.append. simpl. rewrite IH. apply orb_true_r.
Qed.

Ltac find_text :=
  repeat first [ apply contains_here | apply contains_later ].

Lemma memberships_In env userId workspaceId m :
  In m (memberships env userId workspaceId) <->
  In m (workspace_members env) /\ wm_user_id m = userId /\ wm_workspace_id m = workspaceId.
Proof.
  unfold memberships. rewrite !filter_In, !String.eqb_eq. tauto.
Qed.

(** C1. With (user, workspace) a key of [workspace_members],
    [hasWorkspacePermission] returns, and returns [true] exactly when the
    lookup did not fail and the table has a row for the pair whose role is
    in [requiredRoles]. When no row exists it returns [false] and logs no
    error; when the lookup fails with any code but [PGRST116] it returns
    [false] and logs that error once, naming the user and the workspace. *)
Theorem hasWorkspacePermission_fail_closed :
  forall env userId workspaceId requiredRoles (r : Request),
    length (memberships env userId workspaceId) <= 1 ->
    exists granted new,
      hasWorkspacePermission env userId workspaceId requiredRoles r
      = (Returned granted,
         {| trace := trace r ++ new; sessionCache := sessionCache r |})
      /\ (granted = true <->
          read_fault env "workspace_members" = None
          /\ exists m, In m (workspace_members env)
                       /\ wm_user_id m = userId /\ wm_workspace_id m = workspaceId
                       /\ includes requiredRoles (role m) = true)
      /\ (read_fault env "workspace_members" = None ->
          (forall m, In m (workspace_members env) ->
                     ~ (wm_user_id m = userId /\ wm_workspace_id m = workspaceId)) ->
          granted = false /\ logged ERROR new = [])
      /\ (forall e, read_fault env "workspace_members" = Some e ->
                    code e <> "PGRST116" ->
                    granted = false
                    /\ exists text, logged ERROR new = [Log ERROR text (WithError e)]
                       /\ contains userId text = true /\ contains workspaceId text = true).
Proof.
  intros env userId workspaceId requiredRoles r Hkey.
  unfold hasWorkspacePermission, select_member, createClient, logger.error,
    bind, emit, ret, single.
  destruct (read_fault env "workspace_members") as [e|] eqn:Hfault.
  - (* the lookup failed *)
    cbn [error data].
    destruct (negb (code e =? "PGRST116")) eqn:Hcode; cbn [trace sessionCache];
      do 2 eexists; (split; [rewrite <- !app_assoc; reflexivity|]).
    + split; [|split].
      * split; [discriminate|]. intros [H _]; discriminate.
      * discriminate.
      * intros e' [= <-] _. split; [reflexivity|]. eexists. split; [reflexivity|].
        split; find_text.
    + split; [|split].
      * split; [discriminate|]. intros [H _]; discriminate.
      * discriminate.
      * intros e' [= <-] Hne. apply negb_false_iff, String.eqb_eq in Hcode. contradiction.
  - (* the lookup answered *)
    destruct (memberships env userId workspaceId) as [|m [|m' rest]] eqn:Hrows;
      cbn [error data trace sessionCache];
      do 2 eexists; (split; [rewrite <- !app_assoc; reflexivity|]).
    + (* no row *)
      split; [|split].
      * split; [discriminate|]. intros [_ [m [Hin [Hu [Hw _]]]]].
        assert (In m (memberships env userId workspaceId)) as Hm
            by (apply memberships_In; auto).
        rewrite Hrows in Hm. destruct Hm.
      * intros _ _. split; reflexivity.
      * discriminate.
    + (* one row *)
      assert (In m (memberships env userId workspaceId)) as Hm
          by (rewrite Hrows; left; reflexivity).
      apply memberships_In in Hm. destruct Hm as [Hin [Hu Hw]].
      split; [|split].
      * split.
        -- intros Hgranted. split; [reflexivity|]. exists m. auto.
        -- intros [_ [m0 [Hin0 [Hu0 [Hw0 Hrole]]]]].
           assert (In m0 (memberships env userId workspaceId)) as Hm0
               by (apply memberships_In; auto).
           rewrite Hrows in Hm0. destruct Hm0 as [<-|[]]. exact Hrole.
      * intros _ Hnone. exfalso. apply (Hnone m Hin). auto.
      * discriminate.
    + (* several rows: excluded by the key *)
      simpl in Hkey. lia.
Qed.

(** C1 where the store cannot be reached: beto is a member of [w1], and
    the check still answers [false], with the error logged. *)
Lemma hasWorkspacePermission_fail_closed_witness :
  length (memberships (Scenario.world None Scenario.healthy Scenario.members_unreachable)
            "beto" Scenario.w1) <= 1
  /\ exists granted new,
       hasWorkspacePermission
         (Scenario.world None Scenario.healthy Scenario.members_unreachable)
         "beto" Scenario.w1 [owner; admin; member] initial
       = (Returned granted, {| trace := trace initial ++ new; sessionCache := None |})
       /\ granted = false.
Proof.
  split; [simpl; lia|].
  destruct (hasWorkspacePermission_fail_closed
              (Scenario.world None Scenario.healthy Scenario.members_unreachable)
              "beto" Scenario.w1 [owner; admin; member] initial)
    as [granted [new [Hrun [_ [_ Hfault]]]]]; [simpl; lia|].
  exists granted, new. split; [exact Hrun|].
  apply (Hfault {| code := "08006"; message := "connection failure" |});
    [reflexivity | discriminate].
Defined.

(** [requireWorkspacePermission] logs no warning, whatever it answers. *)
Lemma requireWorkspacePermission_never_warns env workspaceId requiredRoles :
  logged WARN (snd (run (requireWorkspacePermission env workspaceId requiredRoles))) = [].
Proof.
  unfold_server; crunch; reflexivity.
Qed.

(** The sibling guard does warn: a denial by [requireSitePermission] logs
    one warning that names the user and the workspace. *)
Lemma requireSitePermission_denial_warns_once env siteId requiredRoles u site :
  auth_user env = Some u ->
  fst (run (getSiteById env siteId)) = Returned (Some site) ->
  fst (run (hasWorkspacePermission env (user_id u) (workspace_id site) requiredRoles))
  = Returned false ->
  exists events text,
    run (requireSitePermission env siteId requiredRoles)
    = (Returned (Denied PERMISSION_DENIED), events)
    /\ logged WARN events = [Log WARN text NoContext]
    /\ contains (user_id u) text = true
    /\ contains (workspace_id site) text = true.
Proof.
  intros Huser. unfold_server. rewrite Huser.
  crunch; settle; merge_equations; settle;
    try match goal with
        | H1 : ?b = _, H2 : negb ?b = _ |- _ => rewrite H1 in H2; discriminate H2
        end;
    (do 2 eexists; split; [reflexivity|]; split; [reflexivity|]; split; find_text).
Qed.

(** C2. Beto is a member of [w1] and asks for what owners and admins may
    do: [requireWorkspacePermission] answers [PERMISSION_DENIED], and the
    request has logged no warning at all, where the claim wants one. *)
Theorem requireWorkspacePermission_denies_without_warning :
  run (requireWorkspacePermission
         (Scenario.world (Some Scenario.beto) Scenario.healthy Scenario.no_fault)
         Scenario.w1 [owner; admin])
  = (Returned (Denied PERMISSION_DENIED),
     [ Call "requireWorkspacePermission";
       Call "getAuthenticatedUserAuthData";
       Log TRACE "[AuthCache] Miss: Obteniendo datos de sesión del usuario." NoContext;
       GetUser;
       Select "profiles" [("id", "beto")];
       Call "hasWorkspacePermission";
       Select "workspace_members" [("user_id", "beto"); ("workspace_id", Scenario.w1)] ])
  /\ logged WARN
       (snd (run (requireWorkspacePermission
                    (Scenario.world (Some Scenario.beto) Scenario.healthy Scenario.no_fault)
                    Scenario.w1 [owner; admin]))) = [].
Proof. split; reflexivity. Qed.

(** C3. For a signed-in user and a site id [getSiteById] answers [null]
    for, [requireSitePermission] answers [NOT_FOUND], and neither enters
    [hasWorkspacePermission] nor reads [workspace_members]. *)
Theorem requireSitePermission_not_found :
  forall env siteId requiredRoles (r : Request) authData,
    fst (getAuthenticatedUserAuthData env r) = Returned (Some authData) ->
    (forall r0, fst (getSiteById env siteId r0) = Returned None) ->
    exists r',
      requireSitePermission env siteId requiredRoles r = (Returned (Denied NOT_FOUND), r')
      /\ calls "hasWorkspacePermission" (trace r') = calls "hasWorkspacePermission" (trace r)
      /\ selects "workspace_members" (trace r') = selects "workspace_members" (trace r).
Proof.
  intros env siteId requiredRoles r authData Hsession Hsite.
  specialize (Hsite initial).
  unfold requireSitePermission, getAuthenticatedUserAuthData, fetchUserAuthData,
    getSiteById, select_site, auth_getUser, createClient, readCache, writeCache,
    logger.trace, logger.error, bind, emit, ret in *.
  cbn [trace sessionCache fst] in *.
  destruct (single (read_fault env "sites")
              (filter (fun s => site_id s =? siteId) (sites env))) as [found err].
  cbn [error data] in *.
  assert (err <> None \/ found = None) as Hnone.
  { destruct err as [e|]; [left; discriminate|right]. cbn in Hsite. congruence. }
  clear Hsite.
  destruct (sessionCache r) as [[cached|]|]; cbn [fst trace sessionCache] in *.
  - destruct err as [e|]; [destruct (negb (code e =? "PGRST116"))|];
      cbn [trace sessionCache].
    + eexists; split; [reflexivity|]. cbn [trace]. split; count_events.
    + eexists; split; [reflexivity|]. cbn [trace]. split; count_events.
    + destruct Hnone as [H|H]; [congruence|subst found].
      eexists; split; [reflexivity|]. cbn [trace]. split; count_events.
  - discriminate.
  - destruct (auth_user env) as [u|]; cbn [fst trace sessionCache] in *; [|discriminate].
    destruct err as [e|]; [destruct (negb (code e =? "PGRST116"))|];
      cbn [trace sessionCache].
    + eexists; split; [reflexivity|]. cbn [trace]. split; count_events.
    + eexists; split; [reflexivity|]. cbn [trace]. split; count_events.
    + destruct Hnone as [H|H]; [congruence|subst found].
      eexists; split; [reflexivity|]. cbn [trace]. split; count_events.
Qed.

(** C3 for ana and the unknown site [s9]. *)
Lemma requireSitePermission_not_found_witness :
  exists r',
    requireSitePermission
      (Scenario.world (Some Scenario.ana) Scenario.healthy Scenario.no_fault)
      Scenario.s9 [owner] initial
    = (Returned (Denied NOT_FOUND), r')
    /\ calls "hasWorkspacePermission" (trace r') = 0
    /\ selects "workspace_members" (trace r') = 0.
Proof.
  apply (requireSitePermission_not_found
           (Scenario.world (Some Scenario.ana) Scenario.healthy Scenario.no_fault)
           Scenario.s9 [owner] initial
           {| user := Scenario.ana; appRole := app_user;
              activeWorkspaceId := Some Scenario.w1 |}).
  - reflexivity.
  - intros r0. reflexivity.
Defined.

(* ===================================================================== *)
(** ** The mutation handlers *)
(* ===================================================================== *)

(** *** The audit helper *)



(** The handlers classed as guarded are those whose success path has gone
    through a permission check. *)
Lemma guarded_means_checked zod env call payload events :
  run (invoke zod env call) = (Returned (Success payload), events) ->
  guarded call
  = negb (calls "hasWorkspacePermission" events + calls "requireAppRole" events =? 0)%nat.
Proof.
  revert payload events.
  destruct call as [[| | | | |] formData | campaignId content | userId | formData
                   | userId newRole | moduleIds];
    unfold_server; crunch; settle; reflexivity.
Qed.


(** *** What a failure says *)




(** What [requireWorkspacePermission] answers does not depend on what the
    request has done before, while the session cache is still empty. *)
Lemma requireWorkspacePermission_outcome env workspaceId requiredRoles events :
  fst (requireWorkspacePermission env workspaceId requiredRoles
         {| trace := events; sessionCache := None |})
  = fst (run (requireWorkspacePermission env workspaceId requiredRoles)).
Proof.
  unfold_server; crunch; reflexivity.
Qed.

Lemma guard_code_is_passed_on zod env call g reason :
  passes_on zod env call = Some g ->
  fst (run (guard env g)) = Returned (Some reason) ->
  fst (run (invoke zod env call)) = Returned (Failure (AuthError_string reason)).
Proof.
  destruct call as [[| | | | |] formData | campaignId content | userId | formData
                   | userId newRole | moduleIds];
    unfold passes_on; try discriminate.
  - (* updateSiteAction *)
    destruct (UpdateSiteSchema zod (fromEntries formData)) as [[site_id changes]|] eqn:Hparse;
      [|discriminate].
    intros [= <-].
    unfold invoke, guard, with_payload, updateSiteAction, try_catch, bind, parse, ret, run.
    rewrite Hparse. simpl.
    destruct (requireSitePermission env site_id [owner; admin] initial)
      as [[[granted|denied]|thrown] r1]; simpl; intros [= <-]; reflexivity.
  - (* deleteSiteAction *)
    destruct (DeleteSiteSchema zod (get formData "siteId")) as [siteId|] eqn:Hparse;
      [|discriminate].
    intros [= <-].
    unfold invoke, guard, with_payload, deleteSiteAction, try_catch, bind, parse, ret, run.
    rewrite Hparse. simpl.
    destruct (requireSitePermission env siteId [owner] initial)
      as [[[granted|denied]|thrown] r1]; simpl; intros [= <-]; reflexivity.
  - (* sendWorkspaceInvitationAction *)
    destruct (auth_user env) as [u|] eqn:Huser; [|discriminate].
    destruct (InvitationServerSchema zod (fromEntries formData))
      as [[[invitee role] workspaceId]|] eqn:Hparse; [|discriminate].
    cbn [fst snd].
    destruct (match email u with Some own => invitee =? own | None => false end)
      eqn:Hself; [discriminate|].
    intros [= <-].
    unfold invoke, guard, with_payload, sendWorkspaceInvitationAction, auth_getUser,
      createClient, parse, try_catch, bind, emit, ret, run.
    rewrite Huser, Hparse. cbn [fst snd trace sessionCache initial]. rewrite Hself.
    pose proof (requireWorkspacePermission_outcome env workspaceId [owner; admin]
                  ([] ++ [GetUser])) as Hsame.
    unfold run in Hsame.
    destruct (requireWorkspacePermission env workspaceId [owner; admin] initial)
      as [[[granted|denied]|thrown] r1];
      destruct (requireWorkspacePermission env workspaceId [owner; admin]
                  {| trace := [] ++ [GetUser]; sessionCache := None |})
        as [outcome r2];
      cbn [fst] in Hsame; subst outcome; cbn [fst]; intros [= <-]; reflexivity.
  - (* impersonateUserAction *)
    intros [= <-].
    unfold invoke, guard, with_payload, impersonateUserAction, bind, ret, run.
    destruct (requireAppRole env [app_developer] initial)
      as [[[granted|denied]|thrown] r1]; simpl; intros [= <-]; reflexivity.
  - (* deleteSiteAsAdminAction *)
    intros [= <-].
    unfold invoke, guard, with_payload, deleteSiteAsAdminAction, bind, ret, run.
    destruct (requireAppRole env [app_admin; app_developer] initial)
      as [[[granted|denied]|thrown] r1]; simpl; intros [= <-]; reflexivity.
  - (* updateUserRoleAction *)
    intros [= <-].
    unfold invoke, guard, with_payload, updateUserRoleAction, bind, ret, run.
    destruct (requireAppRole env [app_developer] initial)
      as [[[granted|denied]|thrown] r1]; simpl; intros [= <-]; reflexivity.
Qed.



Section AccountFacts.

Variable unknown : Type.
Variable zod : Zod.
Variable IconSchema : string -> option string.
Variable ClientVisitSchema : unknown -> option Accounts.ClientVisit.
Variable Required : string.
Variable env : Env.
Variable platform : Accounts.Platform.






(** An input its schema rejects is answered before any function of the
    guard, permission or data layer is entered. *)
Lemma rejected_input_is_answered action :
  Accounts.rejected zod IconSchema ClientVisitSchema Required action = true ->
  exists events,
    run (Accounts.answer zod IconSchema ClientVisitSchema Required env platform action)
    = (Returned (Accounts.rejection zod Required env action), events)
    /\ (forall function, calls function events = 0)
    /\ (forall table, selects table events = 0).
Proof.
  destruct action; unfold Accounts.rejected, Accounts.rejection; try discriminate;
    unfold_accounts; crunch; settle;
    eexists; (split; [reflexivity|]); split; reflexivity.
Qed.

End AccountFacts.





(** C5. When the form parses and the guard authorizes the user,
    [createSiteAction] sends the insert. It answers with the conflict
    message exactly when the insert comes back with the unique-constraint
    code 23505; the insert is then all it has sent, no audit log is
    attempted and nothing is logged as an error. An insert that comes back
    with another error is logged and answered with the generic message, a
    rejected one with the message for the unexpected, and one that went
    through with the id, after one audit row. *)
Theorem createSiteAction_subdomain_conflict :
  forall zod env formData parsedData user,
    CreateSiteServerSchema zod (fromEntries formData) = Some parsedData ->
    fst (run (requireWorkspacePermission env (cs_workspace_id parsedData) [owner; admin]))
    = Returned (Authorized user) ->
    exists result events,
      run (createSiteAction zod env formData) = (Returned result, events)
      /\ In (Send (InsertSite parsedData (user_id user))) events
      /\ (result = Failure "Este subdominio ya está en uso."
          <-> exists answer e,
                execute env (InsertSite parsedData (user_id user)) = Resolved answer
                /\ error answer = Some e
                /\ code e = "23505")
      /\ (result = Failure "Este subdominio ya está en uso." ->
          sent events = [Send (InsertSite parsedData (user_id user))]
          /\ calls "createAuditLog" events = 0
          /\ audit_writes events = 0
          /\ logged ERROR events = [])
      /\ (forall answer e,
            execute env (InsertSite parsedData (user_id user)) = Resolved answer ->
            error answer = Some e ->
            code e <> "23505" ->
            result = Failure "No se pudo crear el sitio."
            /\ audit_writes events = 0
            /\ exists text, logged ERROR events = [Log ERROR text (WithError e)])
      /\ (forall what,
            execute env (InsertSite parsedData (user_id user)) = Rejected what ->
            result = Failure "Un error inesperado ocurrió."
            /\ audit_writes events = 0)
      /\ (forall answer id,
            execute env (InsertSite parsedData (user_id user)) = Resolved answer ->
            error answer = None ->
            data answer = Some id ->
            result = Success id /\ audit_writes events = 1).
Proof.
  intros zod env formData parsedData user Hparse Hguard. revert Hguard.
  unfold_server. rewrite Hparse.
  crunch; intros Hguard; settle.
  all: do 2 eexists; (split; [reflexivity|]).
  all: (split; [rewrite ?in_app_iff; simpl; tauto|]).
  all: repeat match goal with
              | |- _ /\ _ => split
              | |- _ <-> _ => split
              | |- forall _, _ => intro
              end.
  all: try solve [clash].
  all: try solve [reflexivity].
  all: try solve [do 2 eexists; repeat split; try eassumption; clash].
  all: try solve [clash; eexists; reflexivity].
  all: try solve [clash; subst; reflexivity].
Qed.

(** C5 for ana, owner of [w1], creating "acme" once more. *)
Lemma createSiteAction_subdomain_conflict_witness :
  exists events,
    run (createSiteAction Scenario.lenient
           (Scenario.world (Some Scenario.ana) Scenario.subdomain_taken Scenario.no_fault)
           Scenario.create_acme)
    = (Returned (Failure "Este subdominio ya está en uso."), events)
    /\ In (Send (InsertSite
                   {| cs_name := "Acme"; cs_subdomain := "acme";
                      cs_description := None; cs_workspace_id := Scenario.w1 |}
                   "ana")) events
    /\ calls "createAuditLog" events = 0
    /\ audit_writes events = 0.
Proof.
  destruct (createSiteAction_subdomain_conflict Scenario.lenient
              (Scenario.world (Some Scenario.ana) Scenario.subdomain_taken Scenario.no_fault)
              Scenario.create_acme
              {| cs_name := "Acme"; cs_subdomain := "acme";
                 cs_description := None; cs_workspace_id := Scenario.w1 |}
              Scenario.ana eq_refl eq_refl)
    as [result [events [Hrun [Hsent [Hconflict [Hquiet _]]]]]].
  assert (result = Failure "Este subdominio ya está en uso.") as Hresult.
  { apply Hconflict.
    exists {| data := None;
              error := Some {| code := "23505";
                               message := "duplicate key value violates unique constraint" |} |},
           {| code := "23505";
              message := "duplicate key value violates unique constraint" |}.
    repeat split. }
  exists events. rewrite Hrun, Hresult.
  destruct (Hquiet Hresult) as [_ [Hcalls [Hwrites _]]].
  repeat split; assumption.
Defined.




(** [deleteSiteAsAdminAction] has no schema: it looks at its form after
    the role check. *)
Lemma admin_delete_checks_the_role_first zod env formData outcome events :
  truthy (get formData "subdomain") = false ->
  run (invoke zod env (DeleteSiteAsAdmin formData)) = (outcome, events) ->
  calls "requireAppRole" events = 1
  /\ (outcome = Returned (Failure "Subdominio ausente.")
      \/ exists reason, outcome = Returned (Failure (AuthError_string reason))).
Proof.
  unfold truthy. unfold_server. crunch; intros Hmissing Hrun; try discriminate;
    injection Hrun as <- <-; (split; [reflexivity|]);
    first [ left; reflexivity
          | right; exists SESSION_NOT_FOUND; reflexivity
          | right; exists PERMISSION_DENIED; reflexivity
          | right; exists NOT_FOUND; reflexivity ].
Qed.

(** C7, as claimed: without a session, [createCampaignAction] answers a
    malformed form with the authentication message, not with its
    invalid-data message. *)
Lemma unauthenticated_form_is_not_validated :
  malformed Scenario.lenient createCampaign Scenario.empty_form = true
  /\ fst (run (invoke Scenario.lenient
                 (Scenario.world None Scenario.healthy Scenario.no_fault)
                 (OnForm createCampaign Scenario.empty_form)))
     = Returned (Failure "Usuario no autenticado.")
  /\ "Usuario no autenticado." <> invalid_data_message createCampaign.
Proof. repeat split. discriminate. Qed.

(** C7, amended. On an input its schema rejects, an action enters no
    function of the guard, permission or data layer and reads no table.
    Of the actions that check a permission, those of [sites.actions.ts]
    answer with their invalid-data message; those of
    [campaigns.actions.ts] and [invitations.actions.ts] resolve the user
    first, and answer with their invalid-data message for a signed-in user
    and with their authentication message otherwise. Of the other actions
    with a schema, [createWorkspaceAction] resolves the user first as well,
    and answers a signed-in user with the message of the schema for the
    name of the workspace where that is at fault; [updatePasswordAction]
    answers with the first message of the schema for the password or its
    confirmation; the password reset request, the sign-up, the sign-in and
    the visit log answer with one message each. [deleteSiteAsAdminAction],
    which parses with no schema, finds its form without a subdomain only
    after the role check. *)
Theorem malformed_input_short_circuits :
  forall (unknown : Type) zod IconSchema
         (ClientVisitSchema : unknown -> option Accounts.ClientVisit)
         Required env platform,
    (forall handler formData,
        malformed zod handler formData = true ->
        exists events,
          run (invoke zod env (OnForm handler formData))
          = (Returned (Failure match unauthenticated_message handler, auth_user env with
                               | Some text, None => text
                               | _, _ => invalid_data_message handler
                               end),
             events)
          /\ (forall function, calls function events = 0)
          /\ (forall table, selects table events = 0))
    /\ (forall action : Accounts.Action unknown,
          Accounts.rejected zod IconSchema ClientVisitSchema Required action = true ->
          exists events,
            run (Accounts.answer zod IconSchema ClientVisitSchema Required env platform
                   action)
            = (Returned
                 match action with
                 | Accounts.CreateWorkspace formData =>
                     Accounts.Result
                       (Failure
                          match auth_user env, fromEntries formData "workspaceName" with
                          | None, _ => "No autenticado. Inicia sesión de nuevo."
                          | Some _, None => "El nombre es requerido."
                          | Some _, Some workspaceName =>
                              match NameSchema zod workspaceName with
                              | None => "El nombre debe tener al menos 3 caracteres."
                              | Some _ => "Datos inválidos."
                              end
                          end)
                 | Accounts.UpdatePassword formData =>
                     Accounts.UpdatePasswordFormState
                       (Some (Accounts.first_truthy
                                [Accounts.password_error Required (fromEntries formData);
                                 Accounts.confirmPassword_error Required
                                   (fromEntries formData)]
                                "Datos inválidos."))
                       false
                 | Accounts.RequestPasswordReset _ =>
                     Accounts.RequestPasswordResetState
                       (Some "Por favor, introduce un email válido.")
                 | Accounts.SignUp _ =>
                     Accounts.Result (Failure "Datos de registro inválidos.")
                 | Accounts.SignIn _ =>
                     Accounts.Result (Failure "Datos de inicio de sesión inválidos.")
                 | Accounts.LogClientVisit _ =>
                     Accounts.Result (Failure "Datos de cliente inválidos.")
                 | _ => Accounts.Nothing
                 end,
               events)
            /\ (forall function, calls function events = 0)
            /\ (forall table, selects table events = 0))
    /\ (forall formData outcome events,
          truthy (get formData "subdomain") = false ->
          run (invoke zod env (DeleteSiteAsAdmin formData)) = (outcome, events) ->
          calls "requireAppRole" events = 1
          /\ (outcome = Returned (Failure "Subdominio ausente.")
              \/ exists reason, outcome = Returned (Failure (AuthError_string reason)))).
Proof.
  intros unknown zod IconSchema ClientVisitSchema Required env platform.
  split; [|split; [|apply admin_delete_checks_the_role_first]].
  - intros handler formData Hbad.
    destruct handler; unfold malformed in Hbad; unfold_server; simpl.
    + destruct (CreateSiteServerSchema zod (fromEntries formData)); [discriminate|].
      eexists; split; [reflexivity|]. split; reflexivity.
    + destruct (UpdateSiteSchema zod (fromEntries formData)); [discriminate|].
      eexists; split; [reflexivity|]. split; reflexivity.
    + destruct (DeleteSiteSchema zod (get formData "siteId")); [discriminate|].
      eexists; split; [reflexivity|]. split; reflexivity.
    + destruct (auth_user env); simpl.
      * destruct (CreateCampaignSchema zod (fromEntries formData)); [discriminate|].
        eexists; split; [reflexivity|]. split; reflexivity.
      * eexists; split; [reflexivity|]. split; reflexivity.
    + destruct (auth_user env); simpl.
      * destruct (DeleteCampaignSchema zod (get formData "campaignId")); [discriminate|].
        eexists; split; [reflexivity|]. split; reflexivity.
      * eexists; split; [reflexivity|]. split; reflexivity.
    + destruct (auth_user env); simpl.
      * destruct (InvitationServerSchema zod (fromEntries formData)); [discriminate|].
        eexists; split; [reflexivity|]. split; reflexivity.
      * eexists; split; [reflexivity|]. split; reflexivity.
  - intros action Hbad.
    destruct (rejected_input_is_answered unknown zod IconSchema ClientVisitSchema Required
                env platform action Hbad) as [events [Hrun Hquiet]].
    exists events. split; [|exact Hquiet]. rewrite Hrun. f_equal. f_equal.
    destruct action; try reflexivity.
    unfold Accounts.rejection, Accounts.first_truthy, Accounts.workspaceName_error, truthy.
    destruct (auth_user env); [|reflexivity].
    destruct (fromEntries formData "workspaceName") as [workspaceName|]; [|reflexivity].
    destruct (NameSchema zod workspaceName); reflexivity.
Qed.

(** C7 amended, for ana: an empty site form, and a workspace without a
    name. *)
Lemma malformed_input_short_circuits_witness :
  (exists events,
      run (invoke Scenario.lenient
             (Scenario.world (Some Scenario.ana) Scenario.healthy Scenario.no_fault)
             (OnForm createSite Scenario.empty_form))
      = (Returned (Failure "Datos de formulario inválidos."), events)
      /\ (forall function, calls function events = 0)
      /\ (forall table, selects table events = 0))
  /\ (exists events,
         run (Accounts.answer Scenario.lenient Cases.icon Cases.no_visit "Required"
                (Scenario.world (Some Scenario.ana) Scenario.healthy Scenario.no_fault)
                Cases.platform (Accounts.CreateWorkspace Cases.unnamed_workspace))
         = (Returned (Accounts.Result (Failure "El nombre es requerido.")), events)
         /\ (forall function, calls function events = 0)
         /\ (forall table, selects table events = 0)).
Proof.
  destruct (malformed_input_short_circuits unit Scenario.lenient Cases.icon Cases.no_visit
              "Required"
              (Scenario.world (Some Scenario.ana) Scenario.healthy Scenario.no_fault)
              Cases.platform)
    as [Hforms [Hothers _]].
  split.
  - apply (Hforms createSite Scenario.empty_form). reflexivity.
  - apply (Hothers (Accounts.CreateWorkspace Cases.unnamed_workspace)). reflexivity.
Defined.

(* ===================================================================== *)
(** ** Sessions and guards *)
(* ===================================================================== *)

Import Policy.

(** X2. On a fresh request [requireAppRole] answers [SESSION_NOT_FOUND]
    without a user, and for a user by the role of the profile alone, a
    missing profile counting as [user]: the session when that role is
    among the required ones, and otherwise [PERMISSION_DENIED] with one
    warning that names the user and the role. No other case warns. *)
Theorem requireAppRole_decides_by_role :
  forall env requiredRoles,
    exists events,
      run (requireAppRole env requiredRoles)
      = (Returned
           match auth_user env with
           | None => Denied SESSION_NOT_FOUND
           | Some u =>
               if existsb (AppRole_eqb (app_role_of env)) requiredRoles
               then Authorized {| user := u; appRole := app_role_of env;
                                  activeWorkspaceId :=
                                    if truthy (active_workspace_cookie env)
                                    then active_workspace_cookie env else None |}
               else Denied PERMISSION_DENIED
           end,
         events)
      /\ match auth_user env with
         | None => logged WARN events = []
         | Some u =>
             if existsb (AppRole_eqb (app_role_of env)) requiredRoles
             then logged WARN events = []
             else exists text,
                    logged WARN events = [Log WARN text NoContext]
                    /\ contains (user_id u) text = true
                    /\ contains (AppRole_string (app_role_of env)) text = true
         end.
Proof.
  intros env requiredRoles. unfold app_role_of. unfold_server.
  destruct (auth_user env) as [u|]; simpl.
  - destruct (existsb _ requiredRoles) eqn:Hrole; simpl;
      (eexists; split; [reflexivity|]); simpl.
    + reflexivity.
    + eexists. split; [reflexivity|]. split; find_text.
  - eexists; split; reflexivity.
Qed.

Lemma memberships_singleton env userId workspaceId roles m :
  filter (fun m => wm_workspace_id m =? workspaceId)
    (filter (fun m => wm_user_id m =? userId) (workspace_members env)) = [m] ->
  includes roles (role m) = true ->
  holds_role env userId workspaceId roles.
Proof.
  intros Hrows Hrole. exists m.
  assert (In m (memberships env userId workspaceId)) as Hin
      by (unfold memberships; rewrite Hrows; left; reflexivity).
  apply memberships_In in Hin. tauto.
Qed.

Lemma sites_singleton env siteId s :
  filter (fun s => site_id s =? siteId) (sites env) = [s] ->
  site_in env siteId (workspace_id s).
Proof.
  intros Hrows. exists s.
  assert (In s (filter (fun s => site_id s =? siteId) (sites env))) as Hin
      by (rewrite Hrows; left; reflexivity).
  apply filter_In in Hin. destruct Hin as [Hin Heq]. apply String.eqb_eq in Heq. auto.
Qed.

Lemma sites_find env siteId s :
  find (fun s => site_id s =? siteId) (sites env) = Some s ->
  site_in env siteId (workspace_id s).
Proof.
  intros Hfind. apply find_some in Hfind. destruct Hfind as [Hin Heq].
  apply String.eqb_eq in Heq. exists s. auto.
Qed.

Lemma campaigns_singleton env campaignId c :
  filter (fun c => campaign_id c =? campaignId) (campaigns env) = [c] ->
  campaign_in env campaignId (campaign_site_id c).
Proof.
  intros Hrows. exists c.
  assert (In c (filter (fun c => campaign_id c =? campaignId) (campaigns env))) as Hin
      by (rewrite Hrows; left; reflexivity).
  apply filter_In in Hin. destruct Hin as [Hin Heq]. apply String.eqb_eq in Heq. auto.
Qed.

Lemma campaign_found env campaignId found s :
  map (embed_site env)
    (filter (fun c => campaign_id c =? campaignId) (campaigns env)) = [found] ->
  parent found = Some s ->
  campaign_in env campaignId (campaign_site_id (campaign found))
  /\ site_in env (campaign_site_id (campaign found)) (workspace_id s).
Proof.
  intros Hrows Hparent.
  destruct (filter (fun c => campaign_id c =? campaignId) (campaigns env))
    as [|c [|c' rest]] eqn:Hfilter; try discriminate.
  injection Hrows as <-. simpl in *. split.
  - now apply campaigns_singleton.
  - now apply sites_find.
Qed.

Lemma campaign_found_id env campaignId found :
  map (embed_site env)
    (filter (fun c => campaign_id c =? campaignId) (campaigns env)) = [found] ->
  campaign_id (campaign found) = campaignId
  /\ In found (map (embed_site env) (campaigns env)).
Proof.
  intros Hrows.
  assert (In found (map (embed_site env)
                      (filter (fun c => campaign_id c =? campaignId) (campaigns env))))
    as Hin by (rewrite Hrows; left; reflexivity).
  apply in_map_iff in Hin. destruct Hin as [c [<- Hin]].
  apply filter_In in Hin. destruct Hin as [Hin Heq]. apply String.eqb_eq in Heq.
  split; [exact Heq|]. apply in_map. exact Hin.
Qed.

Lemma app_role_admits env roles :
  existsb (AppRole_eqb (app_role_of env)) roles = true -> In (app_role_of env) roles.
Proof.
  intros H. apply existsb_exists in H. destruct H as [r [Hin Heq]].
  destruct (app_role_of env), r; try discriminate; exact Hin.
Qed.

Ltac role_facts :=
  repeat match goal with
         | H : negb _ = false |- _ => apply negb_false_iff in H
         | H : negb _ = true |- _ => apply negb_true_iff in H
         end.

(** X3. A guard that lets a request through has seen a signed-in user who
    holds a required role: in the workspace of the site (which exists) for
    [requireSitePermission], in the workspace for
    [requireWorkspacePermission], as the role of the profile for
    [requireAppRole]. *)
Theorem guards_grant_only_to_role_holders :
  forall env g,
    fst (run (guard env g)) = Returned None ->
    exists u,
      auth_user env = Some u
      /\ match g with
         | SiteGuard siteId requiredRoles =>
             exists w, site_in env siteId w
                       /\ holds_role env (user_id u) w requiredRoles
         | WorkspaceGuard workspaceId requiredRoles =>
             holds_role env (user_id u) workspaceId requiredRoles
         | AppGuard requiredRoles => In (app_role_of env) requiredRoles
         end.
Proof.
  intros env [siteId requiredRoles | workspaceId requiredRoles | requiredRoles];
    unfold_server; crunch; settle;
    (eexists; split; [reflexivity|]); role_facts.
  - eexists. split; [eapply sites_singleton; eassumption|].
    eapply memberships_singleton; eassumption.
  - eapply memberships_singleton; eassumption.
  - apply app_role_admits. unfold app_role_of.
    match goal with H : profile_app_role _ = _ |- _ => rewrite H end. assumption.
  - apply app_role_admits. unfold app_role_of.
    match goal with H : profile_app_role _ = _ |- _ => rewrite H end. assumption.
Qed.

(** X3 for ana, who owns the workspace of [s1]. *)
Lemma guards_grant_only_to_role_holders_witness :
  exists u,
    auth_user Cases.ana_world = Some u
    /\ exists w,
         site_in Cases.ana_world
           Scenario.s1 w
         /\ holds_role Cases.ana_world
              (user_id u) w [owner].
Proof.
  apply (guards_grant_only_to_role_holders
           Cases.ana_world
           (SiteGuard Scenario.s1 [owner])).
  reflexivity.
Defined.

(** X4. The other way round, where the store answers: a signed-in user whose
    one membership row carries a required role (for the one site of that
    id, for the workspace), or whose profile role is required, is let
    through. *)
Theorem guards_admit_role_holders :
  forall env g u,
    auth_user env = Some u ->
    read_fault env "sites" = None ->
    read_fault env "workspace_members" = None ->
    match g with
    | SiteGuard siteId requiredRoles =>
        exists site,
          filter (fun s => site_id s =? siteId) (sites env) = [site]
          /\ exists m,
               memberships env (user_id u) (workspace_id site) = [m]
               /\ includes requiredRoles (role m) = true
    | WorkspaceGuard workspaceId requiredRoles =>
        exists m,
          memberships env (user_id u) workspaceId = [m]
          /\ includes requiredRoles (role m) = true
    | AppGuard requiredRoles =>
        existsb (AppRole_eqb (app_role_of env)) requiredRoles = true
    end ->
    fst (run (guard env g)) = Returned None.
Proof.
  intros env [siteId requiredRoles | workspaceId requiredRoles | requiredRoles]
    u Huser Hsites Hmembers.
  - intros [site [Hsite [m [Hm Hrole]]]]. unfold memberships in Hm.
    unfold_server. rewrite Huser. simpl. rewrite Hsites, Hsite. simpl.
    rewrite Hmembers, Hm. simpl. rewrite Hrole. reflexivity.
  - intros [m [Hm Hrole]]. unfold memberships in Hm.
    unfold_server. rewrite Huser. simpl. rewrite Hmembers, Hm. simpl.
    rewrite Hrole. reflexivity.
  - unfold app_role_of. intros Hrole.
    unfold_server. rewrite Huser. simpl. rewrite Hrole. reflexivity.
Qed.

(** X4 for ana on her workspace. *)
Lemma guards_admit_role_holders_witness :
  fst (run (guard Cases.ana_world
              (WorkspaceGuard Scenario.w1 [owner; admin])))
  = Returned None.
Proof.
  apply (guards_admit_role_holders
           Cases.ana_world
           (WorkspaceGuard Scenario.w1 [owner; admin]) Scenario.ana).
  - reflexivity.
  - reflexivity.
  - reflexivity.
  - exists {| wm_user_id := "ana"; wm_workspace_id := Scenario.w1; role := owner |}.
    split; reflexivity.
Defined.

(** X5. [getAuthDataForMiddleware] answers what [getAuthenticatedUserAuthData]
    answers on a request whose cache is empty; it leaves the cache alone
    and asks the auth service at every call. *)
Theorem middleware_sees_the_same_session :
  forall env (r r' : Request),
    sessionCache r' = None ->
    fst (Middleware.getAuthDataForMiddleware env r)
    = fst (getAuthenticatedUserAuthData env r')
    /\ forall outcome r1,
         Middleware.getAuthDataForMiddleware env r = (outcome, r1) ->
         sessionCache r1 = sessionCache r
         /\ session_lookups (trace r1) = S (session_lookups (trace r)).
Proof.
  intros env r r' Hmiss.
  unfold Middleware.getAuthDataForMiddleware, session_lookups.
  unfold_server. rewrite Hmiss.
  destruct (auth_user env) as [u|]; simpl;
    (split; [reflexivity|]; intros outcome r1 [= <- <-]; simpl; split; [reflexivity|];
     rewrite ?filter_app, ?length_app; simpl; lia).
Qed.

(** X5 for ana. *)
Lemma middleware_sees_the_same_session_witness :
  fst (Middleware.getAuthDataForMiddleware Cases.ana_world initial)
  = fst (getAuthenticatedUserAuthData Cases.ana_world initial).
Proof.
  apply (middleware_sees_the_same_session Cases.ana_world initial initial).
  reflexivity.
Defined.

(** X6. [getCampaignContentById] hands out a campaign only when it is the
    campaign of that id and the user holds a role in the workspace of the
    campaign's site. *)
Theorem getCampaignContentById_discloses_to_members_only :
  forall env campaignId userId found,
    fst (run (getCampaignContentById env campaignId userId)) = Returned (Some found) ->
    campaign_id (campaign found) = campaignId
    /\ exists site w,
         campaign_in env campaignId site
         /\ site_in env site w
         /\ holds_role env userId w [owner; admin; member].
Proof.
  intros env campaignId userId found.
  unfold_server; crunch; settle; role_facts.
  match goal with
  | Hrows : map _ (filter _ (campaigns _)) = [?c], Hparent : parent ?c = Some _ |- _ =>
      destruct (campaign_found _ _ _ _ Hrows Hparent) as [Hcampaign Hsite];
      destruct (campaign_found_id _ _ _ Hrows) as [Hid _]
  end.
  split; [exact Hid|].
  do 2 eexists. split; [exact Hcampaign|]. split; [exact Hsite|].
  eapply memberships_singleton; [eassumption | simpl; assumption].
Qed.

(** X6 for beto, a member, and the campaign [c1]. *)
Lemma getCampaignContentById_discloses_to_members_only_witness :
  exists site w,
    campaign_in Cases.beto_world
      Scenario.c1 site
    /\ site_in Cases.beto_world site w
    /\ holds_role Cases.beto_world
         "beto" w [owner; admin; member].
Proof.
  eapply (getCampaignContentById_discloses_to_members_only
            Cases.beto_world
            Scenario.c1 "beto").
  reflexivity.
Defined.

(* ===================================================================== *)
(** ** What the handlers send *)
(* ===================================================================== *)

Ltac app_role_fact :=
  unfold app_role_of;
  repeat match goal with
         | H : profile_app_role _ = _ |- _ => rewrite H in *
         end;
  repeat match goal with
         | H : context [AppRole_eqb ?a _] |- _ => is_var a; destruct a; simpl in H
         end;
  try discriminate; auto.

Ltac solve_permitted :=
  simpl; role_facts;
  repeat match goal with
         | H : Some _ = Some _ |- _ => injection H as ?; subst
         end;
  repeat match goal with
         | |- _ /\ _ => split
         | |- exists _, _ => eexists
         end;
  try match goal with
      | Hrows : map _ (filter _ (campaigns _)) = [?c], Hparent : parent ?c = Some _ |- _ =>
          destruct (campaign_found _ _ _ _ Hrows Hparent) as [? ?]
      end;
  first [ reflexivity
        | eassumption
        | eapply sites_singleton; eassumption
        | eapply sites_find; eassumption
        | eapply campaigns_singleton; eassumption
        | eapply memberships_singleton; [eassumption | simpl; eassumption]
        | match goal with
          | H : (_ =? _) = false |- _ <> _ =>
              apply String.eqb_neq in H; congruence
          end
        | match goal with
          | H : email ?u = _ |- email ?u <> _ =>
              rewrite H; try discriminate;
              intros [= <-]; rewrite String.eqb_refl in *; discriminate
          end
        | solve [app_role_fact] ].

Ltac solve_disciplined :=
  unfold disciplined;
  split; [ let H := fresh in
           intros ? H; simpl in H;
           repeat (destruct H as [H|H]; [subst; try exact I|]);
           try contradiction;
           unfold authorized;
           try (eexists; split; [eassumption|]); solve_permitted |];
  split; [ let H := fresh in
           simpl; intros H; first [ discriminate H | reflexivity ] |];
  split; [ unfold mutations; simpl; lia |];
  split; [ unfold audit_writes; simpl; lia |];
  split; [ let H := fresh in
           intros ? H; first [ discriminate H | reflexivity ] |];
  split; [ let H := fresh in
           intros ? H; first [ discriminate H | repeat split; reflexivity ] |];
  let H := fresh in let H' := fresh in
  intros ? H H';
  first [ discriminate H | reflexivity
        | (injection H as <-; vm_compute in H'; discriminate H') ].

(** Every run of a handler is [disciplined]. *)
Lemma handlers_are_disciplined zod env call
    (P : Outcome (ActionResult Payload) -> list Event -> Prop) :
  (forall outcome events, disciplined env call outcome events -> P outcome events) ->
  forall outcome events,
    run (invoke zod env call) = (outcome, events) -> P outcome events.
Proof.
  intros HP.
  destruct call as [[| | | | |] formData | campaignId content | userId | formData
                   | userId newRole | moduleIds];
    unfold_server; crunch; settle; apply HP; try solve [solve_disciplined].
Qed.

(** The request for a password reset, by contrast, asks for no session:
    for any address that parses it has the admin client generate a
    recovery link, and the audit row it writes has no actor. *)
Lemma reset_request_needs_no_session (unknown : Type) zod IconSchema
    (ClientVisitSchema : unknown -> option Accounts.ClientVisit) Required env platform
    formData validatedEmail outcome events :
  required (EmailSchema zod) (get formData "email") = Some validatedEmail ->
  run (Accounts.answer zod IconSchema ClientVisitSchema Required env platform
         (Accounts.RequestPasswordReset formData))
  = (outcome, events) ->
  In (AdminGenerateRecoveryLink validatedEmail) events
  /\ (forall row, In (Send (InsertAuditLog row)) events -> actor_id row = None)
  /\ (outcome = Threw (NEXT_REDIRECT "/auth-notice?message=check-email-for-reset") ->
      audit_writes events = 1).
Proof.
  intros Hparse.
  unfold Accounts.answer, Accounts.requestPasswordResetAction, Accounts.checkRateLimit,
    Accounts.sendPasswordResetEmail, Accounts.redirect.
  rewrite Hparse.
  unfold_server. crunch; intros Hrun; injection Hrun as <- <-.
  all: split; [simpl; tauto|].
  all: split; [intros row Hin; simpl in Hin;
               repeat (destruct Hin as [Hin|Hin]; [try discriminate Hin|]);
               try contradiction; injection Hin as <-; reflexivity
              | intros Hout; first [discriminate Hout | reflexivity]].
Qed.

(** X7. For the handlers of [invoke], which are the ten actions that check
    a permission and [updateDashboardLayoutAction]: whatever the handler
    answers, every write it has sent and every call it has made of the
    admin client was for a signed-in user with the role the operation asks
    for ([permitted]): owner or admin of the workspace to create or update
    a site or to invite, owner to delete a site, any member for campaigns,
    developer (admin for a site) for the admin actions, which never aim at
    the caller; a layout is saved for the caller only, and an audit row
    names the caller as its actor. This does not extend to the actions
    that ask for no session: [requestPasswordResetAction] has the admin
    client generate a recovery link for any address that parses, whoever
    asks, and writes its audit row without an actor. *)
Theorem privileged_calls_follow_the_role_matrix :
  forall (unknown : Type) zod IconSchema
         (ClientVisitSchema : unknown -> option Accounts.ClientVisit)
         Required env platform,
    (forall call outcome events e,
        run (invoke zod env call) = (outcome, events) ->
        In e events ->
        authorized env e)
    /\ (forall formData validatedEmail outcome events,
          required (EmailSchema zod) (get formData "email") = Some validatedEmail ->
          run (Accounts.answer zod IconSchema ClientVisitSchema Required env platform
                 (Accounts.RequestPasswordReset formData))
          = (outcome, events) ->
          In (AdminGenerateRecoveryLink validatedEmail) events
          /\ (forall row, In (Send (InsertAuditLog row)) events -> actor_id row = None)
          /\ (outcome
              = Threw (NEXT_REDIRECT "/auth-notice?message=check-email-for-reset") ->
              audit_writes events = 1)).
Proof.
  intros unknown zod IconSchema ClientVisitSchema Required env platform. split.
  - intros call outcome events e Hrun. revert e.
    refine (handlers_are_disciplined zod env call
              (fun _ events => forall e, In e events -> authorized env e)
              _ outcome events Hrun).
    intros outcome' events' Hd. apply Hd.
  - intros formData validatedEmail outcome events.
    apply reset_request_needs_no_session.
Qed.

(** X7 for ana deleting her site. *)
Lemma privileged_calls_follow_the_role_matrix_witness :
  authorized Cases.ana_world (Send (DeleteSite Scenario.s1)).
Proof.
  destruct (privileged_calls_follow_the_role_matrix unit Scenario.lenient Cases.icon
              Cases.no_visit "Required" Cases.ana_world Cases.platform)
    as [Hhandlers _].
  eapply (Hhandlers (OnForm deleteSite Scenario.delete_s1)).
  - reflexivity.
  - simpl. tauto.
Defined.

(** X8. In every run of a handler behind a permission check, the mutation
    comes after a permission check and the audit write after the
    mutation; there is at most one of each. *)
Theorem authorization_precedes_mutation_precedes_audit :
  forall zod env call outcome events,
    guarded call = true ->
    run (invoke zod env call) = (outcome, events) ->
    in_order false false events = true
    /\ mutations events <= 1
    /\ audit_writes events <= 1.
Proof.
  intros zod env call outcome events Hguarded Hrun.
  refine (handlers_are_disciplined zod env call
            (fun _ events =>
               in_order false false events = true
               /\ mutations events <= 1 /\ audit_writes events <= 1)
            _ outcome events Hrun).
  intros outcome' events' Hd. destruct Hd as [_ [Horder [Hone [Haudit _]]]].
  auto.
Qed.

(** X8 for ana deleting her site. *)
Lemma authorization_precedes_mutation_precedes_audit_witness :
  in_order false false
    (snd (run (invoke Scenario.lenient Cases.ana_world (OnForm deleteSite Scenario.delete_s1))))
  = true.
Proof.
  eapply (authorization_precedes_mutation_precedes_audit Scenario.lenient Cases.ana_world
            (OnForm deleteSite Scenario.delete_s1)).
  - reflexivity.
  - reflexivity.
Defined.



(** [signInWithPasswordAction], by contrast, logs the login it refuses. *)
Lemma refused_login_is_logged (unknown : Type) zod IconSchema
    (ClientVisitSchema : unknown -> option Accounts.ClientVisit) Required env platform
    formData email password response e :
  Accounts.SignInSchema zod (fromEntries formData) = Some (email, password) ->
  Accounts.auth_signInWithPassword platform email password = Resolved response ->
  error response = Some e ->
  exists events,
    run (Accounts.answer zod IconSchema ClientVisitSchema Required env platform
           (Accounts.SignIn formData))
    = (Returned (Accounts.Result (Failure "Credenciales inválidas.")), events)
    /\ calls "createAuditLog" events = 1.
Proof.
  intros Hparse Hcall Herror.
  unfold Accounts.answer, Accounts.as_result, Accounts.signInWithPasswordAction,
    Accounts.checkRateLimit.
  rewrite Hparse.
  unfold_server. simpl. rewrite Hcall. simpl. rewrite Herror.
  crunch; eexists; split; reflexivity.
Qed.

(** X10. A handler of [invoke], that is one of the ten actions that check a
    permission or [updateDashboardLayoutAction], that answers with a
    failure has attempted no audit log and has revalidated no cache. This
    does not extend to [signInWithPasswordAction], which calls
    [createAuditLog] for the login it then refuses. *)
Theorem failed_call_attempts_no_audit_log :
  forall (unknown : Type) zod IconSchema
         (ClientVisitSchema : unknown -> option Accounts.ClientVisit)
         Required env platform,
    (forall call text events,
        run (invoke zod env call) = (Returned (Failure text), events) ->
        audit_writes events = 0
        /\ calls "createAuditLog" events = 0
        /\ revalidated events = [])
    /\ (forall formData email password response e,
          Accounts.SignInSchema zod (fromEntries formData) = Some (email, password) ->
          Accounts.auth_signInWithPassword platform email password = Resolved response ->
          error response = Some e ->
          exists events,
            run (Accounts.answer zod IconSchema ClientVisitSchema Required env platform
                   (Accounts.SignIn formData))
            = (Returned (Accounts.Result (Failure "Credenciales inválidas.")), events)
            /\ calls "createAuditLog" events = 1).
Proof.
  intros unknown zod IconSchema ClientVisitSchema Required env platform. split.
  - intros call text events Hrun.
    refine (handlers_are_disciplined zod env call
              (fun outcome events =>
                 outcome = Returned (Failure text) ->
                 audit_writes events = 0
                 /\ calls "createAuditLog" events = 0
                 /\ revalidated events = [])
              _ _ events Hrun eq_refl).
    intros outcome' events' Hd Hout.
    destruct Hd as [_ [_ [_ [_ [_ [Hnoaudit _]]]]]]. exact (Hnoaudit text Hout).
  - apply refused_login_is_logged.
Qed.

(** X10 for beto, refused. *)
Lemma failed_call_attempts_no_audit_log_witness :
  audit_writes
    (snd (run (invoke Scenario.lenient Cases.beto_world (OnForm deleteSite Scenario.delete_s1))))
  = 0.
Proof.
  destruct (failed_call_attempts_no_audit_log unit Scenario.lenient Cases.icon
              Cases.no_visit "Required" Cases.beto_world Cases.platform)
    as [Hhandlers _].
  eapply (Hhandlers (OnForm deleteSite Scenario.delete_s1) "PERMISSION_DENIED").
  reflexivity.
Defined.

(** X11. When the guard a handler passes on denies, the handler answers with
    the guard's code, having sent no mutation and no audit write. *)
Theorem denied_call_changes_nothing :
  forall zod env call g reason,
    passes_on zod env call = Some g ->
    fst (run (guard env g)) = Returned (Some reason) ->
    exists events,
      run (invoke zod env call) = (Returned (Failure (AuthError_string reason)), events)
      /\ mutations events = 0
      /\ audit_writes events = 0.
Proof.
  intros zod env call g reason Hg Hdenied.
  pose proof (guard_code_is_passed_on zod env call g reason Hg Hdenied) as Hfail.
  destruct (run (invoke zod env call)) as [outcome events] eqn:Hrun.
  simpl in Hfail. subst outcome. exists events. split; [reflexivity|].
  refine (handlers_are_disciplined zod env call
            (fun outcome events =>
               outcome = Returned (Failure (AuthError_string reason)) ->
               mutations events = 0 /\ audit_writes events = 0)
            _ _ events Hrun eq_refl).
  intros outcome' events' Hd Hout.
  destruct Hd as [_ [_ [_ [_ [_ [Hnoaudit Hnomutation]]]]]]. split.
  - apply (Hnomutation _ Hout). destruct reason; reflexivity.
  - apply (Hnoaudit _ Hout).
Qed.

(** X11 for beto, a member, deleting the site [s1]. *)
Lemma denied_call_changes_nothing_witness :
  exists events,
    run (invoke Scenario.lenient Cases.beto_world (OnForm deleteSite Scenario.delete_s1))
    = (Returned (Failure "PERMISSION_DENIED"), events)
    /\ mutations events = 0
    /\ audit_writes events = 0.
Proof.
  apply (denied_call_changes_nothing Scenario.lenient Cases.beto_world
           (OnForm deleteSite Scenario.delete_s1)
           (SiteGuard Scenario.s1 [owner]) PERMISSION_DENIED).
  - reflexivity.
  - reflexivity.
Defined.

(** X12. [sendWorkspaceInvitationAction] refuses a user who invites their own
    address as soon as the form has parsed: nothing but the session lookup
    has happened, no permission is checked and nothing is written. *)
Theorem self_invitation_is_refused_unchecked :
  forall zod env formData u invitee role workspaceId,
    auth_user env = Some u ->
    InvitationServerSchema zod (fromEntries formData) = Some (invitee, role, workspaceId) ->
    email u = Some invitee ->
    run (sendWorkspaceInvitationAction zod env formData)
    = (Returned (Failure "No puedes invitarte a ti mismo."), [GetUser]).
Proof.
  intros zod env formData u invitee role workspaceId Huser Hparse Hemail.
  unfold_server. rewrite Huser. simpl. rewrite Hparse. simpl.
  rewrite Hemail, String.eqb_refl. reflexivity.
Qed.

(** X12 for ana inviting ana. *)
Lemma self_invitation_is_refused_unchecked_witness :
  run (sendWorkspaceInvitationAction Scenario.lenient Cases.ana_world Cases.invite_ana)
  = (Returned (Failure "No puedes invitarte a ti mismo."), [GetUser]).
Proof.
  apply (self_invitation_is_refused_unchecked Scenario.lenient Cases.ana_world
           Cases.invite_ana Scenario.ana "ana@acme.test" member Scenario.w1);
    reflexivity.
Defined.

(** X13. [impersonateUserAction] and [updateUserRoleAction] aimed at the
    caller's own id answer with a failure, whatever the caller's role,
    without asking the admin client for anything and without a write. *)
Theorem admin_actions_spare_the_caller :
  forall zod env call u,
    auth_user env = Some u ->
    (exists newRole, call = UpdateUserRole (user_id u) newRole)
    \/ call = Impersonate (user_id u) ->
    exists text events,
      run (invoke zod env call) = (Returned (Failure text), events)
      /\ mutations events = 0
      /\ (forall id, ~ In (AdminGetUserById id) events)
      /\ audit_writes events = 0.
Proof.
  intros zod env call u Huser [[newRole ->] | ->];
    unfold_server; rewrite Huser; crunch;
    try match goal with
        | H : (?x =? ?x) = false |- _ => rewrite String.eqb_refl in H; discriminate H
        end;
    (do 2 eexists; split; [reflexivity|]; split; [reflexivity|];
     split; [|reflexivity]; intros id Hin; simpl in Hin;
     repeat (destruct Hin as [Hin|Hin]; [discriminate Hin|]); exact Hin).
Qed.

(** X13 for ana as a developer. *)
Lemma admin_actions_spare_the_caller_witness :
  exists text events,
    run (invoke Scenario.lenient Cases.developer_world (Impersonate "ana"))
    = (Returned (Failure text), events)
    /\ mutations events = 0
    /\ (forall id, ~ In (AdminGetUserById id) events)
    /\ audit_writes events = 0.
Proof.
  apply (admin_actions_spare_the_caller Scenario.lenient Cases.developer_world
           (Impersonate "ana") Scenario.ana).
  - reflexivity.
  - right. reflexivity.
Defined.

(** X14. When [updateCampaignContentAction] succeeds, the campaign of that id
    exists, and the only revalidation is that of its public path
    [/s/<subdomain>/<slug>]; where the site has no subdomain or the
    campaign no slug, nothing is revalidated and one warning names the
    campaign. *)
Theorem saved_content_is_republished :
  forall env campaignId content events,
    run (updateCampaignContentAction env campaignId content)
    = (Returned (Success tt), events) ->
    exists found,
      In found (map (embed_site env) (campaigns env))
      /\ campaign_id (campaign found) = campaignId
      /\ match public_path found with
         | Some path => revalidated events = [RevalidatePath path]
         | None =>
             revalidated events = []
             /\ exists text context, logged WARN events = [Log WARN text context]
                                     /\ contains campaignId text = true
         end.
Proof.
  intros env campaignId content events.
  unfold_server; crunch;
    (let H := fresh in intros H; try discriminate H; injection H as <-).
  all: match goal with
       | Hrows : map _ (filter _ (campaigns _)) = [?c] |- _ =>
           exists c;
           destruct (campaign_found_id _ _ _ Hrows) as [Hid Hin]
       end.
  all: split; [exact Hin|]; split; [exact Hid|].
  all: unfold public_path, truthy in *.
  all: repeat match goal with
              | H : Some _ = Some _ |- _ => injection H as ?; subst
              end.
  all: repeat match goal with
              | H : parent _ = _ |- _ => rewrite H
              | H : subdomain _ = _ |- _ => rewrite H
              | H : slug _ = _ |- _ => rewrite H
              end.
  all: repeat match goal with
              | |- context [match subdomain ?s with _ => _ end] =>
                  destruct (subdomain s) eqn:?
              | |- context [match slug ?c with _ => _ end] =>
                  destruct (slug c) eqn:?
              end.
  all: simpl in *.
  all: try match goal with
           | H : _ && _ = _ |- _ => rewrite H
           end.
  all: try reflexivity.
  all: try discriminate.
  all: try match goal with
           | H : _ && false = true |- _ => rewrite andb_false_r in H; discriminate H
           end.
  all: (split; [reflexivity|]; do 2 eexists; split; [reflexivity|]; find_text).
Qed.

(** X14 for beto saving the campaign [c1] of the site acme. *)
Lemma saved_content_is_republished_witness :
  exists found,
    In found (map (embed_site Cases.beto_world)
                (campaigns Cases.beto_world))
    /\ campaign_id (campaign found) = Scenario.c1
    /\ match public_path found with
       | Some path =>
           revalidated
             (snd (run (updateCampaignContentAction
                          Cases.beto_world
                          Scenario.c1 {| config_name := "Oferta"; blocks := JNull |})))
           = [RevalidatePath path]
       | None => True
       end.
Proof.
  destruct (saved_content_is_republished
              Cases.beto_world
              Scenario.c1 {| config_name := "Oferta"; blocks := JNull |} _ eq_refl)
    as [found [Hin [Hid Hpath]]].
  exists found. split; [exact Hin|]. split; [exact Hid|].
  destruct (public_path found); [exact Hpath|exact I].
Defined.

(* ===================================================================== *)
(** ** The key conversion *)
(* ===================================================================== *)

Section CaseConverterFacts.

Import CaseConverter.

Lemma is_upper_lower c : is_upper c = true -> is_upper (lower c) = false.
Proof.
  unfold is_upper, lower. intros H. apply andb_true_iff in H. destruct H as [Hlo Hhi].
  apply Nat.leb_le in Hlo, Hhi.
  rewrite nat_ascii_embedding by lia.
  apply andb_false_iff. right. apply Nat.leb_gt. lia.
Qed.

Lemma toSnakeCase_no_upper str : has_upper (toSnakeCase str) = false.
Proof.
  induction str as [|c rest IH]; simpl; [reflexivity|].
  destruct (is_upper c) eqn:Hc; simpl.
  - rewrite (is_upper_lower c Hc), IH. reflexivity.
  - rewrite Hc, IH. reflexivity.
Qed.

Lemma toSnakeCase_fixed str : has_upper str = false -> toSnakeCase str = str.
Proof.
  induction str as [|c rest IH]; simpl; [reflexivity|].
  intros H. apply orb_false_iff in H. destruct H as [Hc Hrest].
  rewrite Hc, (IH Hrest). reflexivity.
Qed.

(** X15. [toSnakeCase] leaves no capital letter, lengthens the string by one
    character per capital, is the identity exactly on the strings without
    capitals, and so changes nothing when applied twice. *)
Theorem toSnakeCase_leaves_no_capital :
  forall str,
    has_upper (toSnakeCase str) = false
    /\ String.length (toSnakeCase str) = String.length str + uppers str
    /\ (toSnakeCase str = str <-> has_upper str = false)
    /\ toSnakeCase (toSnakeCase str) = toSnakeCase str.
Proof.
  intros str. split; [apply toSnakeCase_no_upper|]. split; [|split].
  - induction str as [|c rest IH]; simpl; [reflexivity|].
    destruct (is_upper c); simpl; rewrite IH; lia.
  - split; [|apply toSnakeCase_fixed]. intros Heq. rewrite <- Heq.
    apply toSnakeCase_no_upper.
  - apply toSnakeCase_fixed, toSnakeCase_no_upper.
Qed.

(** Induction on a value, through its elements and properties. *)
Section ValueInduction.
Variable P : Type.
Variable Q : Value P -> Prop.
Hypothesis HPrimitive : forall p, Q (Primitive p).
Hypothesis HNull : Q Null.
Hypothesis HArray : forall elements, Forall Q elements -> Q (Array elements).
Hypothesis HObject :
  forall prototype properties,
    Forall (fun property => Q (snd property)) properties ->
    Q (Object prototype properties).

End ValueInduction.



Lemma has_own_cons {P} key k (v : Value P) rest :
  has_own key ((k, v) :: rest) = (String.eqb k key || has_own key rest).
Proof. unfold has_own, lookup. simpl. destruct (k =? key); reflexivity. Qed.




Lemma keys_update {P} key (value : Value P) acc :
  map fst (update key value acc) = map fst acc.
Proof.
  induction acc as [|[k v] rest IH]; simpl; [reflexivity|].
  destruct (k =? key); simpl; [reflexivity|]. rewrite IH. reflexivity.
Qed.

Lemma keys_insert {P} key (value : Value P) acc k :
  In k (map fst (insert key value acc)) <-> k = key \/ In k (map fst acc).
Proof.
  induction acc as [|[k0 v0] rest IH]; simpl.
  - intuition.
  - destruct (comes_before key k0); simpl.
    + intuition.
    + rewrite IH. intuition.
Qed.

Lemma has_own_keys {P} key (acc : list (string * Value P)) :
  has_own key acc = true <-> In key (map fst acc).
Proof.
  induction acc as [|[k v] rest IH]; simpl.
  - split; [discriminate|intros []].
  - rewrite has_own_cons. rewrite orb_true_iff, IH, String.eqb_eq. reflexivity.
Qed.

Lemma keys_assign {P} key (value : Value P) acc k :
  In k (map fst (assign key value acc)) <-> k = key \/ In k (map fst acc).
Proof.
  unfold assign. destruct (has_own key acc) eqn:Hown.
  - rewrite keys_update. apply has_own_keys in Hown.
    split; [intros H; right; exact H|intros [->|H]; assumption].
  - apply keys_insert.
Qed.


































End CaseConverterFacts.

(* ===================================================================== *)
(** ** Sites by host, and the availability check *)
(* ===================================================================== *)

Section HostStrings.

Import Hosts.

Lemma append_cons c s t : String c s ++ t = String c (s ++ t).
Proof. reflexivity. Qed.

Lemma starts_with_refl s : starts_with s s = true.
Proof. induction s as [|c s IH]; simpl; [reflexivity|]. rewrite Ascii.eqb_refl. exact IH. Qed.

Lemma slice_length s : slice (String.length s) s = "".
Proof. induction s as [|c s IH]; simpl; [reflexivity|exact IH]. Qed.

Lemma starts_with_dot_free label pattern rest :
  contains "." label = false ->
  starts_with (String "." pattern) (label ++ rest) = true ->
  label = "".
Proof.
  destruct label as [|c label]; [reflexivity|].
  rewrite append_cons. simpl. intros Hno Hstart. exfalso.
  apply orb_false_iff in Hno. destruct Hno as [Hc _].
  apply andb_true_iff in Hstart. destruct Hstart as [Heq _].
  rewrite Heq in Hc. discriminate.
Qed.

Lemma contains_tail needle c rest :
  contains needle (String c rest) = false -> contains needle rest = false.
Proof. simpl. intros H. apply orb_false_iff in H. tauto. Qed.

Lemma remove_first_after_label label pattern :
  contains "." label = false ->
  remove_first (String "." pattern) (label ++ String "." pattern) = label.
Proof.
  induction label as [|c label IH]; intros Hno.
  - change ("" ++ String "." pattern) with (String "." pattern).
    pose proof (starts_with_refl (String "." pattern)) as Hs.
    pose proof (slice_length (String "." pattern)) as Hl.
    simpl in *. rewrite Hs. exact Hl.
  - assert (starts_with (String "." pattern) (String c label ++ String "." pattern) = false)
      as Hs.
    { destruct (starts_with _ _) eqn:E; [|reflexivity].
      apply starts_with_dot_free in E; [discriminate E|exact Hno]. }
    rewrite append_cons in *.
    simpl. simpl in Hs. rewrite Hs. f_equal. apply IH. eapply contains_tail. exact Hno.
Qed.

Lemma ends_with_append prefix needle : ends_with needle (prefix ++ needle) = true.
Proof.
  induction prefix as [|c prefix IH].
  - change ("" ++ needle) with needle.
    destruct needle; [reflexivity|]. cbn [ends_with]. rewrite String.eqb_refl. reflexivity.
  - rewrite append_cons. cbn [ends_with]. rewrite IH. apply orb_true_r.
Qed.

Lemma ends_with_contains needle haystack :
  ends_with needle haystack = true -> contains needle haystack = true.
Proof.
  induction haystack as [|c haystack IH]; cbn [ends_with contains].
  - rewrite orb_false_r. intros H. apply String.eqb_eq in H. subst. reflexivity.
  - intros H. apply orb_true_iff in H. destruct H as [H|H].
    + apply String.eqb_eq in H. subst needle. rewrite starts_with_refl. reflexivity.
    + rewrite (IH H). apply orb_true_r.
Qed.

Lemma contains_dot_pattern pattern haystack :
  contains (String "." pattern) haystack = true -> contains "." haystack = true.
Proof.
  induction haystack as [|c haystack IH]; simpl.
  - discriminate.
  - intros H. apply orb_true_iff in H. destruct H as [H|H].
    + apply andb_true_iff in H. destruct H as [H _]. rewrite H. reflexivity.
    + rewrite (IH H). apply orb_true_r.
Qed.

Lemma before_colon_has_no_colon str : contains ":" (before_colon str) = false.
Proof.
  induction str as [|c rest IH]; [reflexivity|].
  cbn [before_colon].
  destruct (Ascii.eqb c ":") eqn:Hc; [reflexivity|].
  cbn [contains starts_with]. rewrite Ascii.eqb_sym, Hc, IH. reflexivity.
Qed.

Lemma starts_with_prefix needle a b :
  starts_with needle a = true -> starts_with needle (a ++ b) = true.
Proof.
  revert a. induction needle as [|c needle IH]; intros a; [reflexivity|].
  destruct a as [|x a]; [discriminate|].
  rewrite append_cons. cbn [starts_with]. intros H. apply andb_true_iff in H.
  destruct H as [Hc H]. rewrite Hc, (IH a H). reflexivity.
Qed.

Lemma contains_prefix needle a b :
  contains needle a = true -> contains needle (a ++ b) = true.
Proof.
  induction a as [|x a IH]; cbn [contains].
  - rewrite orb_false_r. destruct needle; [|discriminate]. intros _.
    destruct ("" ++ b); reflexivity.
  - intros H. apply orb_true_iff in H. destruct H as [H|H].
    + apply (starts_with_prefix _ _ b) in H. rewrite append_cons in *.
      cbn [contains]. rewrite H. reflexivity.
    + rewrite append_cons. cbn [contains]. rewrite (IH H). apply orb_true_r.
Qed.

Lemma ends_with_past_colon needle name port :
  contains ":" needle = false ->
  contains "." port = false ->
  ends_with (String "." needle) (name ++ String ":" port) = false.
Proof.
  intros Hneedle Hport. induction name as [|c name IH].
  - change ("" ++ String ":" port) with (String ":" port). cbn [ends_with].
    apply orb_false_iff. split; [reflexivity|].
    destruct (ends_with (String "." needle) port) eqn:E; [|reflexivity].
    apply ends_with_contains, contains_dot_pattern in E. congruence.
  - rewrite append_cons. cbn [ends_with]. rewrite IH, orb_false_r.
    apply String.eqb_neq. intros Heq.
    assert (contains ":" (String "." needle) = true) as Hcolon.
    { rewrite Heq. rewrite <- append_cons.
      apply contains_later. change (String ":" port) with (":" ++ port).
      apply contains_here. }
    simpl in Hcolon. rewrite Hneedle in Hcolon. discriminate.
Qed.

End HostStrings.

Section HostFacts.

Import Hosts.

Variable toLowerCase : string -> string.
Variable NEXT_PUBLIC_ROOT_DOMAIN : option string.

(** X18. A host that, lower-cased and without a leading [www.], is a label
    without dots, or such a label followed by the root domain without its
    port, is looked up by [subdomain], under the label. *)
Theorem subdomain_hosts_are_looked_up_by_label :
  forall host label,
    contains "." label = false ->
    (sanitizedHost toLowerCase host = label
     \/ sanitizedHost toLowerCase host
        = label ++ "." ++ rootDomainWithoutPort NEXT_PUBLIC_ROOT_DOMAIN) ->
    isSubdomain toLowerCase NEXT_PUBLIC_ROOT_DOMAIN host = true
    /\ finalHost toLowerCase NEXT_PUBLIC_ROOT_DOMAIN host = label.
Proof.
  intros host label Hlabel.
  set (root := rootDomainWithoutPort NEXT_PUBLIC_ROOT_DOMAIN).
  intros [Hbare | Hunder];
    unfold isSubdomain, finalHost, isSubdomainOfRoot, isLikelySlug; fold root.
  - rewrite Hbare.
    assert (ends_with ("." ++ root) label = false) as Hends.
    { destruct (ends_with _ _) eqn:E; [|reflexivity].
      apply ends_with_contains in E. change ("." ++ root) with (String "." root) in E.
      apply contains_dot_pattern in E. congruence. }
    rewrite Hends, Hlabel. split; reflexivity.
  - rewrite Hunder. rewrite ends_with_append.
    assert ((label ++ "." ++ root =? root) = false) as Hne.
    { apply String.eqb_neq. intros Heq.
      assert (String.length (label ++ "." ++ root) = String.length root) as Hlen
          by (rewrite Heq; reflexivity).
      change ("." ++ root) with (String "." root) in Hlen.
      clear -Hlen. revert Hlen. generalize root as r. intros r.
      induction label as [|c label IH]; [simpl; lia|].
      rewrite append_cons. simpl. intros H. apply IH.
      assert (forall a b, String.length (a ++ b) = String.length a + String.length b) as Hl.
      { clear. induction a as [|x a IHa]; intros b; [reflexivity|].
        rewrite append_cons. simpl. rewrite IHa. reflexivity. }
      rewrite Hl in *. simpl in *. lia. }
    rewrite Hne. simpl. split; [reflexivity|].
    change ("." ++ root) with (String "." root).
    apply remove_first_after_label. exact Hlabel.
Qed.

(** X19. A host with dots that still carries a port is not taken for a
    subdomain of the root, whatever the root is: it is looked up by
    [custom_domain], port included. *)
Theorem host_with_port_is_looked_up_as_custom_domain :
  forall host name port,
    sanitizedHost toLowerCase host = name ++ ":" ++ port ->
    contains "." name = true ->
    contains "." port = false ->
    isSubdomain toLowerCase NEXT_PUBLIC_ROOT_DOMAIN host = false
    /\ finalHost toLowerCase NEXT_PUBLIC_ROOT_DOMAIN host = name ++ ":" ++ port.
Proof.
  intros host name port Hhost Hname Hport.
  unfold isSubdomain, finalHost, isSubdomainOfRoot, isLikelySlug. rewrite Hhost.
  change ("." ++ rootDomainWithoutPort NEXT_PUBLIC_ROOT_DOMAIN)
    with (String "." (rootDomainWithoutPort NEXT_PUBLIC_ROOT_DOMAIN)).
  change (":" ++ port) with (String ":" port).
  rewrite ends_with_past_colon;
    [|apply before_colon_has_no_colon|exact Hport].
  rewrite (contains_prefix "." name _ Hname). split; reflexivity.
Qed.

End HostFacts.

(** X18 for a site under the root domain of a development machine. *)
Lemma subdomain_hosts_are_looked_up_by_label_witness :
  Hosts.isSubdomain Cases.lowercase None "acme.localhost" = true
  /\ Hosts.finalHost Cases.lowercase None "acme.localhost" = "acme".
Proof.
  apply (subdomain_hosts_are_looked_up_by_label Cases.lowercase None "acme.localhost" "acme").
  - reflexivity.
  - right. reflexivity.
Defined.

(** X19 for the host the comment of the function gives as its example of
    a subdomain. *)
Lemma host_with_port_is_looked_up_as_custom_domain_witness :
  Hosts.isSubdomain Cases.lowercase None "mi-sitio.localhost:3000" = false
  /\ Hosts.finalHost Cases.lowercase None "mi-sitio.localhost:3000" = "mi-sitio.localhost:3000".
Proof.
  apply (host_with_port_is_looked_up_as_custom_domain Cases.lowercase None
           "mi-sitio.localhost:3000" "mi-sitio.localhost" "3000");
    reflexivity.
Defined.

Section ActionFacts.

Import Hosts.

Variable toLowerCase : string -> string.
Variable NEXT_PUBLIC_ROOT_DOMAIN : option string.
Variable env : Env.
Variable custom_domain : Site -> option string.
Variable dataCache : string -> option (option Site).

(** X20. For a value of three UTF-16 code units or more: when the lookup of
    [getSiteDataByHost] fails with any code but [PGRST116] (on a cache
    miss), [checkSubdomainAvailabilityAction] logs the error and answers
    that the subdomain is available, which the hook shows as
    [available]. *)
Theorem failed_lookup_reports_available :
  forall subdomain e,
    3 <= js_length subdomain ->
    dataCache ("site-data-host-" ++ finalHost toLowerCase NEXT_PUBLIC_ROOT_DOMAIN subdomain)
    = None ->
    read_fault env "sites" = Some e ->
    code e <> "PGRST116" ->
    exists events text,
      run (checkSubdomainAvailabilityAction toLowerCase NEXT_PUBLIC_ROOT_DOMAIN env
             custom_domain dataCache subdomain)
      = (Returned (Success true), events)
      /\ logged ERROR events = [Log ERROR text (WithError e)]
      /\ map Availability.status
           (Availability.states_through Availability.initialState
              (Availability.debouncedCheck (Success true)))
         = [Availability.checking; Availability.available].
Proof.
  intros subdomain e Hlong Hmiss Hfault Hcode.
  unfold checkSubdomainAvailabilityAction.
  assert ((subdomain =? "") || (js_length subdomain <? 3)%nat = false) as Hok.
  { apply orb_false_iff. split.
    - apply String.eqb_neq. intros ->. simpl in Hlong. lia.
    - apply Nat.ltb_ge. exact Hlong. }
  rewrite Hok. unfold getSiteDataByHost. rewrite Hmiss.
  unfold_server. rewrite Hfault. cbn [error data].
  apply String.eqb_neq in Hcode. rewrite Hcode. simpl.
  do 2 eexists. split; [reflexivity|]. split; reflexivity.
Qed.

(** X21. On a cache miss and with the store answering, for a value of three
    UTF-16 code units or more that matches one row at most,
    [checkSubdomainAvailabilityAction] answers [isAvailable: false] exactly
    when a site has the looked-up host in the column looked at, and logs
    no error. *)
Theorem taken_host_is_reported_unavailable :
  forall subdomain,
    3 <= js_length subdomain ->
    dataCache ("site-data-host-" ++ finalHost toLowerCase NEXT_PUBLIC_ROOT_DOMAIN subdomain)
    = None ->
    read_fault env "sites" = None ->
    length (host_rows toLowerCase NEXT_PUBLIC_ROOT_DOMAIN env custom_domain subdomain) <= 1 ->
    exists events isAvailable,
      run (checkSubdomainAvailabilityAction toLowerCase NEXT_PUBLIC_ROOT_DOMAIN env
             custom_domain dataCache subdomain)
      = (Returned (Success isAvailable), events)
      /\ logged ERROR events = []
      /\ (isAvailable = false <->
          exists site,
            In site (sites env)
            /\ (if isSubdomain toLowerCase NEXT_PUBLIC_ROOT_DOMAIN subdomain
                then Server.subdomain site else custom_domain site)
               = Some (finalHost toLowerCase NEXT_PUBLIC_ROOT_DOMAIN subdomain)).
Proof.
  intros subdomain Hlong Hmiss Hfault Hkey.
  unfold checkSubdomainAvailabilityAction.
  assert ((subdomain =? "") || (js_length subdomain <? 3)%nat = false) as Hok.
  { apply orb_false_iff. split.
    - apply String.eqb_neq. intros ->. simpl in Hlong. lia.
    - apply Nat.ltb_ge. exact Hlong. }
  rewrite Hok. unfold getSiteDataByHost. rewrite Hmiss.
  unfold_server. rewrite Hfault.
  assert (forall site,
             In site (host_rows toLowerCase NEXT_PUBLIC_ROOT_DOMAIN env custom_domain subdomain)
             <-> In site (sites env)
                 /\ (if isSubdomain toLowerCase NEXT_PUBLIC_ROOT_DOMAIN subdomain
                     then Server.subdomain site else custom_domain site)
                    = Some (finalHost toLowerCase NEXT_PUBLIC_ROOT_DOMAIN subdomain))
    as Hrows.
  { intros site. unfold host_rows. rewrite filter_In.
    destruct (if isSubdomain toLowerCase NEXT_PUBLIC_ROOT_DOMAIN subdomain
              then Server.subdomain site else custom_domain site) as [value|].
    - rewrite String.eqb_eq. split; intros [H1 H2]; (split; [exact H1|congruence]).
    - split; intros [H1 H2]; discriminate. }
  destruct (host_rows toLowerCase NEXT_PUBLIC_ROOT_DOMAIN env custom_domain subdomain)
    as [|site [|site' rest]] eqn:Hfound; simpl.
  - do 2 eexists. split; [reflexivity|]. split; [reflexivity|].
    split; [discriminate|]. intros [site Hsite]. apply Hrows in Hsite. destruct Hsite.
  - do 2 eexists. split; [reflexivity|]. split; [reflexivity|].
    split; [|reflexivity]. intros _. exists site. apply Hrows. left. reflexivity.
  - simpl in Hkey. lia.
Qed.

End ActionFacts.

(** X20 with the table of sites out of reach: acme is taken, and the check
    says it is free. *)
Lemma failed_lookup_reports_available_witness :
  exists events text,
    run (Hosts.checkSubdomainAvailabilityAction Cases.lowercase None Cases.sites_down
           Cases.no_custom_domain Cases.cold_cache "acme")
    = (Returned (Success true), events)
    /\ logged ERROR events
       = [Log ERROR text (WithError {| code := "08006"; message := "connection failure" |})]
    /\ map Availability.status
         (Availability.states_through Availability.initialState
            (Availability.debouncedCheck (Success true)))
       = [Availability.checking; Availability.available].
Proof.
  apply (failed_lookup_reports_available Cases.lowercase None Cases.sites_down
           Cases.no_custom_domain Cases.cold_cache "acme"
           {| code := "08006"; message := "connection failure" |}).
  - vm_compute. lia.
  - reflexivity.
  - reflexivity.
  - discriminate.
Defined.

(** X21 for acme, which ana's workspace has. *)
Lemma taken_host_is_reported_unavailable_witness :
  exists events isAvailable,
    run (Hosts.checkSubdomainAvailabilityAction Cases.lowercase None Cases.ana_world
           Cases.no_custom_domain Cases.cold_cache "acme")
    = (Returned (Success isAvailable), events)
    /\ logged ERROR events = []
    /\ (isAvailable = false <->
        exists site,
          In site (sites Cases.ana_world)
          /\ (if Hosts.isSubdomain Cases.lowercase None "acme"
              then subdomain site else Cases.no_custom_domain site)
             = Some (Hosts.finalHost Cases.lowercase None "acme")).
Proof.
  apply (taken_host_is_reported_unavailable Cases.lowercase None Cases.ana_world
           Cases.no_custom_domain Cases.cold_cache "acme").
  - vm_compute. lia.
  - reflexivity.
  - reflexivity.
  - vm_compute. lia.
Defined.

(* ===================================================================== *)
(** ** [debounce], and the availability hook around it *)
(* ===================================================================== *)

Section DebounceFacts.

Import Debounce.

Variable A : Type.
Variable waitFor : nat.

Lemma elapse_pending (st : State A) (p : option (nat * A)) now :
  pending_is st p ->
  pending_is (elapse now st) (remains p now)
  /\ invoked (elapse now st) = (invoked st ++ fires p now)%list.
Proof.
  intros [Hp Hid]. destruct p as [[d a]|]; simpl in *.
  - destruct Hp as [id [Htimeout [Hlt Htimers]]].
    unfold elapse, pending_is, is_due. rewrite Htimers. simpl.
    destruct (d <=? now)%nat; simpl.
    + split; [split; [reflexivity|exact Hid]|reflexivity].
    + split; [|rewrite app_nil_r; reflexivity].
      split; [exists id; auto|exact Hid].
  - unfold elapse, pending_is. rewrite Hp. simpl. rewrite app_nil_r. auto.
Qed.

Lemma debounced_pending (st : State A) (p : option (nat * A)) now a :
  pending_is st p ->
  pending_is (debounced waitFor now a st) (Some (now + waitFor, a))
  /\ invoked (debounced waitFor now a st) = invoked st.
Proof.
  intros [Hp Hid]. unfold debounced, pending_is.
  destruct p as [[d a0]|]; simpl in *.
  - destruct Hp as [id [Htimeout [Hlt Htimers]]]. rewrite Htimeout. simpl.
    rewrite Htimers. simpl. rewrite Nat.eqb_refl. simpl.
    split; [|reflexivity]. split; [|lia]. eexists. split; [reflexivity|]. split; [lia|].
    reflexivity.
  - destruct (timeout st) as [id|]; simpl; rewrite Hp; simpl;
      (split; [|reflexivity]); (split; [|lia]);
      (eexists; split; [reflexivity|]; split; [lia|reflexivity]).
Qed.

Lemma play_settles calls : forall (st : State A) (p : option (nat * A)) horizon,
  pending_is st p ->
  invoked (elapse horizon (play waitFor calls st))
  = (invoked st ++ settled waitFor p calls horizon)%list.
Proof.
  induction calls as [|[now a] rest IH]; intros st p horizon Hp; cbn [play settled].
  - apply (elapse_pending st p horizon Hp).
  - destruct (elapse_pending st p now Hp) as [Hp1 Hinv1].
    destruct (debounced_pending _ _ now a Hp1) as [Hp2 Hinv2].
    rewrite (IH _ _ horizon Hp2), Hinv2, Hinv1, app_assoc. reflexivity.
Qed.

Lemma last_of_nonempty (c : nat * A) rest d d' : last (c :: rest) d = last (c :: rest) d'.
Proof.
  revert c. induction rest as [|c' rest IH]; intros c; [reflexivity|].
  change (last (c' :: rest) d = last (c' :: rest) d'). apply IH.
Qed.

Lemma settled_burst (calls : list (nat * A)) : forall now a horizon,
  burst waitFor now calls ->
  settled waitFor (Some (now + waitFor, a)) calls horizon
  = fires (Some (fst (last calls (now, a)) + waitFor, snd (last calls (now, a)))) horizon.
Proof.
  induction calls as [|[now' a'] rest IH]; intros now a horizon Hburst.
  - reflexivity.
  - destruct Hburst as [Hsoon Hrest]. cbn [settled].
    assert (fires (Some (now + waitFor, a)) now' = []) as Hnone.
    { simpl. destruct (now + waitFor <=? now')%nat eqn:E; [|reflexivity].
      apply Nat.leb_le in E. lia. }
    rewrite Hnone, (IH now' a' horizon Hrest). cbn [app].
    destruct rest as [|c rest']; [reflexivity|].
    change (last ((now', a') :: c :: rest') (now, a)) with (last (c :: rest') (now, a)).
    rewrite (last_of_nonempty c rest' (now', a') (now, a)). reflexivity.
Qed.

Lemma settled_spaced (calls : list (nat * A)) : forall now a horizon,
  spaced waitFor now calls ->
  fst (last calls (now, a)) + waitFor <= horizon ->
  settled waitFor (Some (now + waitFor, a)) calls horizon
  = map (fun call => (fst call + waitFor, snd call)) ((now, a) :: calls).
Proof.
  induction calls as [|[now' a'] rest IH]; intros now a horizon Hspaced Hhorizon.
  - simpl in *. apply Nat.leb_le in Hhorizon. rewrite Hhorizon. reflexivity.
  - destruct Hspaced as [Hlate Hrest]. cbn [settled].
    assert (fires (Some (now + waitFor, a)) now' = [(now + waitFor, a)]) as Hfires.
    { simpl. apply Nat.leb_le in Hlate. rewrite Hlate. reflexivity. }
    rewrite Hfires, (IH now' a' horizon Hrest).
    + reflexivity.
    + destruct rest as [|c rest']; [exact Hhorizon|].
      change (last ((now', a') :: c :: rest') (now, a)) with (last (c :: rest') (now, a))
        in Hhorizon.
      rewrite (last_of_nonempty c rest' (now', a') (now, a)). exact Hhorizon.
Qed.

Lemma init_pending : pending_is (init A) (@None (nat * A)).
Proof. split; [reflexivity|exact I]. Qed.

(** X22. Of calls of a debounced function that each come before the timer of
    the one before is due, only the last reaches [func], [waitFor] after
    it was made; calls that each come after that timer all reach it. *)
Theorem debounce_fires_once_per_pause :
  forall now (a : A) calls horizon,
    let final := last calls (now, a) in
    (burst waitFor now calls ->
     invoked (elapse horizon (play waitFor ((now, a) :: calls) (init A)))
     = if (fst final + waitFor <=? horizon)%nat
       then [(fst final + waitFor, snd final)]
       else [])
    /\ (spaced waitFor now calls ->
        fst final + waitFor <= horizon ->
        invoked (elapse horizon (play waitFor ((now, a) :: calls) (init A)))
        = map (fun call => (fst call + waitFor, snd call)) ((now, a) :: calls)).
Proof.
  intros now a calls horizon final.
  rewrite (play_settles ((now, a) :: calls) (init A) None horizon init_pending).
  cbn [settled fires invoked init app]. split.
  - intros Hburst. rewrite (settled_burst calls now a horizon Hburst). reflexivity.
  - intros Hspaced Hhorizon. apply settled_spaced; assumption.
Qed.

End DebounceFacts.

(** X22 for four keystrokes and a pause. *)
Lemma debounce_fires_once_per_pause_witness :
  Debounce.invoked
    (Debounce.elapse 1000
       (Debounce.play 500 [(0, "a"); (100, "ac"); (250, "acm"); (400, "acme")]
          (Debounce.init string)))
  = [(900, "acme")].
Proof.
  destruct (debounce_fires_once_per_pause string 500 0 "a"
              [(100, "ac"); (250, "acm"); (400, "acme")] 1000) as [Hburst _].
  apply Hburst. simpl. lia.
Defined.

Section AvailabilityHookFacts.

Import Availability AvailabilityHook.

Variable check : string -> Awaited (ActionResult bool).

Lemma check_now_result h subdomain :
  status (state (check_now check h subdomain)) = verdict check subdomain
  /\ requests (check_now check h subdomain) = (requests h ++ [subdomain])%list
  /\ timer (check_now check h subdomain) = timer h.
Proof.
  unfold check_now, verdict, debouncedCheck.
  destruct (check subdomain) as [[[|]|message]|]; simpl; auto.
Qed.

Lemma elapse_hook h p now :
  Debounce.pending_is (timer h) p ->
  Debounce.pending_is (timer (elapse check now h)) (Debounce.remains p now)
  /\ match Debounce.fires p now with
     | [] => state (elapse check now h) = state h
             /\ requests (elapse check now h) = requests h
     | (_, subdomain) :: _ =>
         status (state (elapse check now h)) = verdict check subdomain
         /\ requests (elapse check now h) = (requests h ++ [subdomain])%list
     end.
Proof.
  intros Hp. destruct (elapse_pending string (timer h) p now Hp) as [Hrem _].
  unfold elapse. destruct Hp as [Hp Hid]. destruct p as [[d a]|].
  - destruct Hp as [id [Htimeout [Hlt Htimers]]]. rewrite Htimers.
    unfold Debounce.remains, Debounce.fires in *.
    cbn [filter]. unfold Debounce.is_due. cbn [Debounce.due].
    destruct (d <=? now)%nat eqn:Hdue; cbn [map fold_left Debounce.args].
    + destruct (check_now_result
                  {| state := state h; timer := Debounce.elapse now (timer h);
                     requests := requests h |} a) as [Hs [Hr Ht]].
      rewrite Ht, Hs, Hr. cbn [timer requests]. auto.
    + cbn [timer state requests]. auto.
  - cbn [Debounce.pending_is] in Hp. rewrite Hp.
    cbn [filter map fold_left timer state requests Debounce.fires]. auto.
Qed.

Lemma effect_hook h p r :
  Debounce.pending_is (timer h) p ->
  gated r = false ->
  Debounce.pending_is (timer (effect r h)) (Some (at_time r + 500, subdomainValue r))
  /\ state (effect r h) = state h
  /\ requests (effect r h) = requests h.
Proof.
  intros Hp Hopen. unfold effect. rewrite Hopen. cbn [timer state requests].
  split; [|auto]. apply (debounced_pending string 500 (timer h) p _ _ Hp).
Qed.

Lemma reset_hook h p r :
  Debounce.pending_is (timer h) p ->
  gated r = true ->
  Debounce.pending_is (timer (effect r h)) p
  /\ status (state (effect r h)) = idle
  /\ requests (effect r h) = requests h.
Proof.
  intros Hp Hshut. unfold effect. rewrite Hshut. auto.
Qed.

Lemma mount_pending : Debounce.pending_is (timer mount) (@None (nat * string)).
Proof. split; [reflexivity|exact I]. Qed.

(** X23. A check the effect has scheduled is not cancelled when the field is
    cleared, or cut below three UTF-16 code units, within the 500 ms: the
    reset shows [idle], and then the check of the earlier value runs all
    the same and sets the status, to [checking] and, once the call of the
    server action has settled, to what it answered; after a call that
    rejects the status stays [checking]. *)
Theorem scheduled_check_survives_reset :
  forall typed cleared horizon,
    gated typed = false ->
    gated cleared = true ->
    at_time cleared < at_time typed + 500 ->
    at_time typed + 500 <= horizon ->
    let h := renders check [typed; cleared] mount in
    status (state h) = idle
    /\ requests h = []
    /\ status (state (elapse check horizon h)) = verdict check (subdomainValue typed)
    /\ requests (elapse check horizon h) = [subdomainValue typed].
Proof.
  intros typed cleared horizon Hopen Hshut Hsoon Hlate. cbn [renders].
  destruct (elapse_hook mount None (at_time typed) mount_pending) as [Hp1 [Hs1 Hr1]].
  cbn [Debounce.remains] in Hp1.
  destruct (effect_hook _ _ typed Hp1 Hopen) as [Hp2 [Hs2 Hr2]].
  destruct (elapse_hook _ _ (at_time cleared) Hp2) as [Hp3 Hfire3].
  cbn [Debounce.remains Debounce.fires] in Hp3, Hfire3.
  assert ((at_time typed + 500 <=? at_time cleared)%nat = false) as Hnotdue
      by (apply Nat.leb_gt; exact Hsoon).
  rewrite Hnotdue in Hp3, Hfire3. destruct Hfire3 as [Hs3 Hr3].
  destruct (reset_hook _ _ cleared Hp3 Hshut) as [Hp4 [Hs4 Hr4]].
  destruct (elapse_hook _ _ horizon Hp4) as [_ Hfire5].
  cbn [Debounce.fires] in Hfire5.
  apply Nat.leb_le in Hlate. rewrite Hlate in Hfire5. destruct Hfire5 as [Hs5 Hr5].
  split; [exact Hs4|]. split; [|split; [exact Hs5|]].
  - rewrite Hr4, Hr3, Hr2, Hr1. reflexivity.
  - rewrite Hr5, Hr4, Hr3, Hr2, Hr1. reflexivity.
Qed.

Lemma burst_renders rs : forall h now value,
  Debounce.pending_is (timer h) (Some (now + 500, value)) ->
  Forall (fun r => gated r = false) rs ->
  Debounce.burst 500 now (map keystroke rs) ->
  let final := last (map keystroke rs) (now, value) in
  Debounce.pending_is (timer (renders check rs h)) (Some (fst final + 500, snd final))
  /\ state (renders check rs h) = state h
  /\ requests (renders check rs h) = requests h.
Proof.
  induction rs as [|r rest IH]; intros h now value Hp Hopen Hburst.
  - simpl. auto.
  - inversion Hopen as [|? ? Hr Hrest]; subst.
    cbn [map keystroke Debounce.burst] in Hburst. destruct Hburst as [Hsoon Hburst].
    destruct (elapse_hook h _ (at_time r) Hp) as [Hp1 Hfire1].
    cbn [Debounce.remains Debounce.fires] in Hp1, Hfire1.
    assert ((now + 500 <=? at_time r)%nat = false) as Hnotdue
        by (apply Nat.leb_gt; exact Hsoon).
    rewrite Hnotdue in Hp1, Hfire1. destruct Hfire1 as [Hs1 Hr1].
    destruct (effect_hook _ _ r Hp1 Hr) as [Hp2 [Hs2 Hr2]].
    destruct (IH _ _ _ Hp2 Hrest Hburst) as [Hp3 [Hs3 Hr3]].
    cbn [renders]. split; [|split].
    + cbn [map]. destruct (map keystroke rest) as [|k ks] eqn:Hks.
      * simpl in *. exact Hp3.
      * change (last (keystroke r :: k :: ks) (now, value)) with (last (k :: ks) (now, value)).
        rewrite (last_of_nonempty string k ks (now, value) (at_time r, subdomainValue r)).
        exact Hp3.
    + rewrite Hs3, Hs2, Hs1. reflexivity.
    + rewrite Hr3, Hr2, Hr1. reflexivity.
Qed.

(** X24. While values that pass the gate (a touched field without errors,
    of three UTF-16 code units or more) follow each other within 500 ms
    the server is not asked; 500 ms after the last one it is asked once,
    for that value, and the status is the verdict on it: [available] or
    [unavailable] as the call answers, [unavailable] after a failure, and
    [checking] for good after a call that rejects. *)
Theorem typing_burst_checks_the_last_value_once :
  forall first rest horizon,
    Forall (fun r => gated r = false) (first :: rest) ->
    Debounce.burst 500 (at_time first) (map keystroke rest) ->
    let final := last rest first in
    at_time final + 500 <= horizon ->
    requests (renders check (first :: rest) mount) = []
    /\ requests (elapse check horizon (renders check (first :: rest) mount))
       = [subdomainValue final]
    /\ status (state (elapse check horizon (renders check (first :: rest) mount)))
       = verdict check (subdomainValue final).
Proof.
  intros first rest horizon Hopen Hburst final Hlate.
  inversion Hopen as [|? ? Hfirst Hrest]; subst.
  cbn [renders].
  destruct (elapse_hook mount None (at_time first) mount_pending) as [Hp1 [Hs1 Hr1]].
  cbn [Debounce.remains] in Hp1.
  destruct (effect_hook _ _ first Hp1 Hfirst) as [Hp2 [Hs2 Hr2]].
  destruct (burst_renders rest _ _ _ Hp2 Hrest Hburst) as [Hp3 [Hs3 Hr3]].
  assert (last (map keystroke rest) (at_time first, subdomainValue first)
          = keystroke final) as Hlast.
  { unfold final. change (at_time first, subdomainValue first) with (keystroke first).
    clear. induction rest as [|r rest IH]; [reflexivity|].
    destruct rest as [|r' rest']; [reflexivity|]. exact IH. }
  rewrite Hlast in Hp3. cbn [keystroke fst snd] in Hp3.
  destruct (elapse_hook _ _ horizon Hp3) as [_ Hfire].
  cbn [Debounce.fires] in Hfire. apply Nat.leb_le in Hlate. rewrite Hlate in Hfire.
  destruct Hfire as [Hs4 Hr4].
  split; [|split].
  - rewrite Hr3, Hr2, Hr1. reflexivity.
  - rewrite Hr4, Hr3, Hr2, Hr1. reflexivity.
  - exact Hs4.
Qed.

End AvailabilityHookFacts.

(** X23: acme is typed, and cut back to two letters 200 ms later. *)
Lemma scheduled_check_survives_reset_witness :
  Availability.status
    (AvailabilityHook.state
       (AvailabilityHook.elapse Cases.always_free 600
          (AvailabilityHook.renders Cases.always_free
             [Cases.typed 0 "acme"; Cases.typed 200 "ac"] AvailabilityHook.mount)))
  = Availability.available.
Proof.
  apply (scheduled_check_survives_reset Cases.always_free
           (Cases.typed 0 "acme") (Cases.typed 200 "ac") 600);
    try reflexivity; simpl; lia.
Defined.

(** X24: acme is typed letter by letter from the third on. *)
Lemma typing_burst_checks_the_last_value_once_witness :
  AvailabilityHook.requests
    (AvailabilityHook.elapse Cases.always_free 1000
       (AvailabilityHook.renders Cases.always_free
          [Cases.typed 0 "acm"; Cases.typed 300 "acme"] AvailabilityHook.mount))
  = ["acme"].
Proof.
  apply (typing_burst_checks_the_last_value_once Cases.always_free
           (Cases.typed 0 "acm") [Cases.typed 300 "acme"] 1000).
  - repeat constructor.
  - simpl. lia.
  - simpl. lia.
Defined.

(* ===================================================================== *)
(** ** The optimistic hook, with a server action that may reject, and on the
    site actions *)
(* ===================================================================== *)

Section SitesPageFacts.

Import Optimistic SitesPage.

Variable entityName : string.
Variable createAction : FormData -> Awaited (ActionResult string).
Variable deleteAction : FormData -> Awaited (ActionResult unit).

(** X26. A call of [handleCreate], or of [handleDelete] with an id, whose
    server action resolves ends with [mutatingId] null and nothing
    pending, having called the action once and shown one toast; the router
    is refreshed exactly when the action succeeded. When the awaited
    action rejects, nothing after the [await] runs: the action was called,
    no toast is shown, the optimistic items stay as they are and
    [mutatingId] stays set. *)
Theorem call_settles_unless_the_action_rejects :
  forall call rendered st,
    proceeds call = true ->
    let st' := settle entityName createAction deleteAction call rendered st in
    match outcome createAction deleteAction call with
    | Fulfilled success =>
        mutatingId st' = None
        /\ isPending st' = false
        /\ exists action toast,
             effects st'
             = (effects st ++ action :: toast
                  :: if success then [RouterRefresh] else [])%list
             /\ is_action_call action = true
             /\ is_toast toast = true
    | Rejects =>
        mutatingId st' <> None
        /\ items st' = optimistic_items call (items st)
        /\ exists action,
             effects st' = (effects st ++ [action])%list
             /\ is_action_call action = true
    end.
Proof.
  intros [now formData optimisticItem | formData] rendered st Hgo; simpl in *.
  - unfold handleCreate, handleCreate_transition.
    destruct (createAction formData) as [[newId|error]|]; simpl.
    + split; [reflexivity|]. split; [reflexivity|]. do 2 eexists.
      split; [rewrite <- ?app_assoc; reflexivity|]. split; reflexivity.
    + split; [reflexivity|]. split; [reflexivity|]. do 2 eexists.
      split; [rewrite <- ?app_assoc; reflexivity|]. split; reflexivity.
    + split; [discriminate|]. split; [reflexivity|]. eexists.
      split; reflexivity.
  - unfold handleDelete, handleDelete_transition. rewrite Hgo. simpl.
    destruct (get formData "siteId") as [idToDelete|]; [|discriminate].
    destruct (deleteAction formData) as [[done|error]|]; simpl.
    + split; [reflexivity|]. split; [reflexivity|]. do 2 eexists.
      split; [rewrite <- ?app_assoc; reflexivity|]. split; reflexivity.
    + split; [reflexivity|]. split; [reflexivity|]. do 2 eexists.
      split; [rewrite <- ?app_assoc; reflexivity|]. split; reflexivity.
    + split; [discriminate|]. split; [reflexivity|]. eexists.
      split; reflexivity.
Qed.

End SitesPageFacts.

(** X26 for a creation whose server action cannot be reached: the phantom
    site stays in the list, marked as mutating. *)
Lemma call_settles_unless_the_action_rejects_witness :
  Optimistic.mutatingId
    (SitesPage.settle "Site" Cases.unreachable_create Cases.accepting_delete
       (Optimistic.Create "1700000000000" [("subdomain", "acme")] [("name", "Acme")])
       Scenario.two_sites Scenario.rendered_state)
  <> None.
Proof.
  pose proof (call_settles_unless_the_action_rejects "Site"
                Cases.unreachable_create Cases.accepting_delete
                (Optimistic.Create "1700000000000" [("subdomain", "acme")]
                   [("name", "Acme")])
                Scenario.two_sites Scenario.rendered_state eq_refl) as Hsettled.
  simpl in Hsettled. destruct Hsettled as [Hmutating _]. exact Hmutating.
Defined.

(** X27. With [deleteSiteAction] as the hook's delete action, as
    [useSitesPage] wires it: when the site guard denies, the list is put
    back and the error toast reads the guard's internal code. *)
Theorem denied_delete_shows_the_guard_code :
  forall zod env deleteAction rendered formData st siteId reason,
    truthy (get formData "siteId") = true ->
    DeleteSiteSchema zod (get formData "siteId") = Some siteId ->
    fst (run (guard env (SiteGuard siteId [owner]))) = Returned (Some reason) ->
    SitesPage.awaited (deleteSiteAction zod env formData) = Some (deleteAction formData) ->
    let st' := Optimistic.handleDelete "Site" deleteAction rendered formData st in
    Optimistic.effects st'
    = (Optimistic.effects st
         ++ [Optimistic.DeleteActionCalled formData;
             Optimistic.ToastError (AuthError_string reason)])%list
    /\ Optimistic.items st' = rendered
    /\ is_internal_code (AuthError_string reason) = true.
Proof.
  intros zod env deleteAction rendered formData st siteId reason
    Hid Hparse Hdenied Hawait.
  assert (passes_on zod env (OnForm deleteSite formData) = Some (SiteGuard siteId [owner]))
    as Hpass by (simpl; rewrite Hparse; reflexivity).
  pose proof (guard_code_is_passed_on zod env _ _ _ Hpass Hdenied) as Hfail.
  unfold SitesPage.awaited in Hawait.
  unfold invoke, with_payload, bind, ret, run in Hfail. unfold run in Hawait.
  destruct (deleteSiteAction zod env formData initial) as [[[message|error]|thrown] r1];
    simpl in Hfail, Hawait; try discriminate.
  injection Hfail as ->. injection Hawait as Hresult.
  unfold Optimistic.handleDelete, Optimistic.handleDelete_transition.
  rewrite Hid. simpl. destruct (get formData "siteId") as [idToDelete|]; [|discriminate].
  rewrite <- Hresult. simpl.
  rewrite <- app_assoc. destruct reason; repeat split; reflexivity.
Qed.

(** X27 for beto, a member: the toast reads PERMISSION_DENIED. *)
Lemma denied_delete_shows_the_guard_code_witness :
  Optimistic.effects
    (Optimistic.handleDelete "Site" Scenario.refusing_delete Scenario.two_sites
       Scenario.delete_s1 Scenario.rendered_state)
  = [Optimistic.DeleteActionCalled Scenario.delete_s1;
     Optimistic.ToastError "PERMISSION_DENIED"].
Proof.
  apply (denied_delete_shows_the_guard_code Scenario.lenient
           Cases.beto_world
           Scenario.refusing_delete Scenario.two_sites Scenario.delete_s1
           Scenario.rendered_state Scenario.s1 PERMISSION_DENIED);
    reflexivity.
Defined.

(* ===================================================================== *)
(** ** The countdown *)
(* ===================================================================== *)

Section CountdownFacts.

Import Countdown.

Variable number : Type.
Variable minus_one : number -> number.
Variable not_positive : number -> bool.
Variable same : number -> number -> bool.

(** The numbers that are integers, and what the language does with those
    of them that a double holds exactly. *)
Variable of_Z : Z -> number.
Hypothesis minus_one_exact :
  forall z, (0 < z <= 2 ^ 53)%Z -> minus_one (of_Z z) = of_Z (z - 1).
Hypothesis not_positive_exact :
  forall z, (- 2 ^ 53 <= z <= 2 ^ 53)%Z -> not_positive (of_Z z) = (z <=? 0)%Z.
Hypothesis same_exact :
  forall a b, (0 <= a <= 2 ^ 53)%Z -> (0 <= b <= 2 ^ 53)%Z ->
              same (of_Z a) (of_Z b) = (a =? b)%Z.


Lemma idle_stays callback ss : forall h,
  stable callback ss ->
  onCountdownEnd h = callback ->
  timer h = false ->
  steps minus_one not_positive same ss h = h.
Proof.
  induction ss as [|[|c] rest IH]; intros h Hstable Hcallback Hidle; [reflexivity| |];
    inversion Hstable as [|? ? Hhead Hrest]; subst; cbn [steps fold_left step].
  - unfold second. rewrite Hidle. apply IH; auto.
  - unfold render. rewrite Nat.eqb_refl. apply IH; auto.
Qed.

Lemma steps_counting callback ss : forall h c,
  stable callback ss ->
  onCountdownEnd h = callback ->
  timer h = true ->
  countdown h = of_Z c ->
  ended h = [] ->
  (0 < c <= 2 ^ 53)%Z ->
  steps minus_one not_positive same ss h
  = if (Z.of_nat (seconds ss) <? c)%Z
    then {| countdown := of_Z (c - Z.of_nat (seconds ss)); onCountdownEnd := callback;
            timer := true; ended := [] |}
    else {| countdown := of_Z 0; onCountdownEnd := callback;
            timer := false; ended := [callback] |}.
Proof.
  induction ss as [|[|c0] rest IH]; intros [n cb t e] c Hstable Hcallback Htimer Hcount
    Hended Hc; cbn in Hcallback, Htimer, Hcount, Hended; subst n cb t e.
  - cbn [seconds]. change (Z.of_nat 0) with 0%Z. rewrite Z.sub_0_r.
    destruct (0 <? c)%Z eqn:E; [reflexivity|apply Z.ltb_ge in E; lia].
  - inversion Hstable as [|? ? _ Hrest]; subst.
    match goal with
    | |- steps minus_one not_positive same (Second :: rest) ?h = _ =>
        change (steps minus_one not_positive same (Second :: rest) h)
          with (steps minus_one not_positive same rest (second minus_one not_positive same h))
    end.
    unfold second. cbn [countdown onCountdownEnd timer ended].
    rewrite (minus_one_exact c Hc).
    rewrite same_exact by lia.
    assert ((c =? c - 1)%Z = false) as -> by (apply Z.eqb_neq; lia).
    unfold effect. cbn [countdown onCountdownEnd timer ended].
    rewrite not_positive_exact by lia.
    cbn [seconds].
    destruct (c - 1 <=? 0)%Z eqn:Hend.
    + apply Z.leb_le in Hend. assert (c = 1%Z) by lia. subst c.
      rewrite (idle_stays callback) by (auto; reflexivity).
      assert ((Z.of_nat (S (seconds rest)) <? 1)%Z = false) as ->
          by (apply Z.ltb_ge; lia).
      reflexivity.
    + apply Z.leb_gt in Hend.
      rewrite (IH _ (c - 1)%Z) by (auto; try reflexivity; lia).
      destruct (Z.of_nat (seconds rest) <? c - 1)%Z eqn:E1;
        destruct (Z.of_nat (S (seconds rest)) <? c)%Z eqn:E2;
        try (apply Z.ltb_lt in E1); try (apply Z.ltb_ge in E1);
        try (apply Z.ltb_lt in E2); try (apply Z.ltb_ge in E2); try lia.
      * do 2 f_equal. lia.
      * reflexivity.
  - inversion Hstable as [|? ? Hhead Hrest]; subst c0.
    match goal with
    | |- steps minus_one not_positive same (Render callback :: rest) ?h = _ =>
        change (steps minus_one not_positive same (Render callback :: rest) h)
          with (steps minus_one not_positive same rest (render not_positive callback h))
    end.
    unfold render. cbn [countdown onCountdownEnd timer ended].
    rewrite Nat.eqb_refl. cbn [seconds]. apply IH; auto.
Qed.

(** X28. For a count that is an integer a double holds exactly, and while
    every render hands over the same callback: [useCountdownRedirect]
    counts down by one each time its timer runs out, to zero and not below,
    calls [onCountdownEnd] once, when zero is reached (at once for a count
    that starts at zero or below), and sets no timer after. A render that
    hands over another callback after the end calls that one as well. A
    count that is not [<= 0] and that subtracting one leaves as it is, as
    [NaN] and [Infinity] are, never ends: after the first timer none is
    set and the callback is not called. *)
Theorem countdown_ends_once :
  (forall initialCount callback ss,
      (- 2 ^ 53 <= initialCount <= 2 ^ 53)%Z ->
      stable callback ss ->
      let h := steps minus_one not_positive same ss (mount not_positive (of_Z initialCount) callback) in
      countdown h
      = of_Z (if (initialCount <=? 0)%Z then initialCount
              else Z.max 0 (initialCount - Z.of_nat (seconds ss)))
      /\ ended h = (if (initialCount <=? Z.of_nat (seconds ss))%Z then [callback] else [])
      /\ timer h = negb (initialCount <=? Z.of_nat (seconds ss))%Z
      /\ (forall other,
            other <> callback ->
            (initialCount <= Z.of_nat (seconds ss))%Z ->
            ended (render not_positive other h) = [callback; other]))
  /\ (forall stuck callback n,
        not_positive stuck = false ->
        same stuck (minus_one stuck) = true ->
        let h := steps minus_one not_positive same (repeat Second (S n)) (mount not_positive stuck callback) in
        countdown h = stuck /\ ended h = [] /\ timer h = false).
Proof.
  split.
  - intros initialCount callback ss Hrange Hstable.
    unfold Countdown.mount, effect.
    cbn [countdown onCountdownEnd timer ended].
    rewrite not_positive_exact by exact Hrange.
    destruct (initialCount <=? 0)%Z eqn:Hstart.
    + apply Z.leb_le in Hstart.
      rewrite (idle_stays callback) by (auto; reflexivity).
      cbn [countdown onCountdownEnd timer ended].
      assert ((initialCount <=? Z.of_nat (seconds ss))%Z = true) as ->
          by (apply Z.leb_le; lia).
      repeat split. intros other Hother _. unfold render.
      cbn [countdown onCountdownEnd timer ended].
      apply Nat.eqb_neq in Hother. rewrite Hother.
      unfold effect, cleanup. cbn [countdown onCountdownEnd timer ended].
      rewrite not_positive_exact by exact Hrange.
      apply Z.leb_le in Hstart. rewrite Hstart. reflexivity.
    + apply Z.leb_gt in Hstart.
      rewrite (steps_counting callback ss _ initialCount) by (auto; try reflexivity; lia).
      destruct (Z.of_nat (seconds ss) <? initialCount)%Z eqn:E.
      * apply Z.ltb_lt in E.
        assert ((initialCount <=? Z.of_nat (seconds ss))%Z = false) as ->
            by (apply Z.leb_gt; lia).
        cbn [countdown onCountdownEnd timer ended negb]. rewrite Z.max_r by lia.
        repeat split. intros other _ Hdone. lia.
      * apply Z.ltb_ge in E.
        assert ((initialCount <=? Z.of_nat (seconds ss))%Z = true) as ->
            by (apply Z.leb_le; lia).
        cbn [countdown onCountdownEnd timer ended negb]. rewrite Z.max_l by lia.
        repeat split. intros other Hother _. unfold render.
        cbn [countdown onCountdownEnd timer ended].
        apply Nat.eqb_neq in Hother. rewrite Hother.
        unfold effect, cleanup. cbn [countdown onCountdownEnd timer ended].
        rewrite not_positive_exact by lia. reflexivity.
  - intros stuck callback n Hopen Hsame.
    unfold Countdown.mount, effect. cbn [countdown]. rewrite Hopen.
    cbn [repeat].
    match goal with
    | |- context [steps minus_one not_positive same (Second :: ?l) ?h] =>
        change (steps minus_one not_positive same (Second :: l) h)
          with (steps minus_one not_positive same l
                  (second minus_one not_positive same h))
    end.
    unfold second. cbn [countdown onCountdownEnd timer ended]. rewrite Hsame.
    unfold cleanup. cbn [countdown onCountdownEnd timer ended].
    rewrite (idle_stays callback); [repeat split| |reflexivity|reflexivity].
    clear. induction n as [|n IH]; constructor; [exact I|exact IH].
Qed.

End CountdownFacts.

(** X28 for a count of three, with a render between the timers: the
    callback, number 7, is called once the third timer has run out. *)
Lemma countdown_ends_once_witness :
  Countdown.ended
    (Countdown.steps (fun z => (z - 1)%Z) (fun z => (z <=? 0)%Z) Z.eqb
       [Countdown.Second; Countdown.Second; Countdown.Render 7; Countdown.Second]
       (Countdown.mount (fun z => (z <=? 0)%Z) 3%Z 7))
  = [7].
Proof.
  destruct (countdown_ends_once Z (fun z => (z - 1)%Z) (fun z => (z <=? 0)%Z) Z.eqb
              (fun z => z)
              (fun z _ => eq_refl) (fun z _ => eq_refl) (fun a b _ _ => eq_refl))
    as [Hcounts _].
  destruct (Hcounts 3%Z 7
              [Countdown.Second; Countdown.Second; Countdown.Render 7; Countdown.Second])
    as [_ [Hended _]].
  - lia.
  - repeat constructor.
  - exact Hended.
Defined.

(* ===================================================================== *)
(** ** Private addresses *)
(* ===================================================================== *)

Section PrivateIpFacts.

Import Utils.

Lemma rests_seq p q str middle rest :
  In middle (rests p str) -> In rest (rests q middle) -> In rest (rests (Seq p q) str).
Proof. intros Hp Hq. cbn [rests]. apply in_flat_map. exists middle. auto. Qed.

Lemma rests_lit c rest : In rest (rests (Lit c) (String c rest)).
Proof. cbn [rests]. rewrite Ascii.eqb_refl. left. reflexivity. Qed.

Lemma rests_text s : forall then_ str rest,
  In rest (rests then_ str) -> In rest (rests (text s then_) (s ++ str)).
Proof.
  induction s as [|c s IH]; intros then_ str rest Hthen.
  - exact Hthen.
  - change (String c s ++ str) with (String c (s ++ str)). cbn [text].
    eapply rests_seq; [apply rests_lit|]. apply IH. exact Hthen.
Qed.

Lemma rests_digit c rest : is_digit c = true -> In rest (rests digit (String c rest)).
Proof. intros Hc. unfold digit. cbn [rests]. unfold is_digit in Hc. rewrite Hc. left. reflexivity. Qed.

Lemma rests_opt_skip p str : In str (rests (Opt p) str).
Proof. cbn [rests]. apply in_or_app. right. left. reflexivity. Qed.

Lemma rests_opt_take p str rest : In rest (rests p str) -> In rest (rests (Opt p) str).
Proof. intros H. cbn [rests]. apply in_or_app. left. exact H. Qed.

Lemma rests_octet s rest : is_octet s = true -> In rest (rests octet (s ++ rest)).
Proof.
  unfold octet.
  destruct s as [|a [|b [|c [|d s]]]]; cbn [is_octet]; try discriminate; intros H.
  - change (String a "" ++ rest) with (String a rest).
    eapply rests_seq; [apply rests_digit; exact H|].
    eapply rests_seq; apply rests_opt_skip.
  - apply andb_true_iff in H. destruct H as [Ha Hb].
    change (String a (String b "") ++ rest) with (String a (String b rest)).
    eapply rests_seq; [apply rests_digit; exact Ha|].
    eapply rests_seq; [apply rests_opt_take, rests_digit; exact Hb|apply rests_opt_skip].
  - apply andb_true_iff in H. destruct H as [H Hc].
    apply andb_true_iff in H. destruct H as [Ha Hb].
    change (String a (String b (String c "")) ++ rest)
      with (String a (String b (String c rest))).
    eapply rests_seq; [apply rests_digit; exact Ha|].
    eapply rests_seq; [apply rests_opt_take, rests_digit; exact Hb|].
    apply rests_opt_take, rests_digit; exact Hc.
Qed.

Lemma matches_In p str rest : In rest (rests p str) -> matches p str = true.
Proof. unfold matches. destruct (rests p str); [intros []|reflexivity]. Qed.

Lemma somewhere_later found before str :
  somewhere found str = true -> somewhere found (before ++ str) = true.
Proof.
  intros H. induction before as [|c before IH]; [exact H|].
  change (String c before ++ str) with (String c (before ++ str)).
  cbn [somewhere]. rewrite IH. apply orb_true_r.
Qed.

Lemma somewhere_here (found : string -> bool) str : found str = true -> somewhere found str = true.
Proof. intros H. destruct str; cbn [somewhere]; rewrite H; reflexivity. Qed.

(** X29. [isPrivateIpAddress] answers true for a string that starts with a
    10.x.y.z address, contains a 192.168.x.y or 172.16.x.y address
    anywhere, or ends with 127.0.0.1, whatever else the string holds; an
    octet is any one to three digits. *)
Theorem isPrivateIpAddress_is_not_anchored :
  forall a b c before after,
    is_octet a = true -> is_octet b = true -> is_octet c = true ->
    isPrivateIpAddress ("10." ++ a ++ "." ++ b ++ "." ++ c ++ after) = true
    /\ isPrivateIpAddress (before ++ "192.168." ++ a ++ "." ++ b ++ after) = true
    /\ isPrivateIpAddress (before ++ "172.16." ++ a ++ "." ++ b ++ after) = true
    /\ isPrivateIpAddress (before ++ "127.0.0.1") = true.
Proof.
  intros a b c before after Ha Hb Hc. unfold isPrivateIpAddress.
  split; [|split; [|split]].
  - assert (matches class_a ("10." ++ a ++ "." ++ b ++ "." ++ c ++ after) = true) as ->;
      [|reflexivity].
    apply (matches_In _ _ after). unfold class_a. apply rests_text.
    eapply rests_seq; [apply rests_octet; exact Ha|].
    eapply rests_seq; [apply rests_lit|].
    eapply rests_seq; [apply rests_octet; exact Hb|].
    eapply rests_seq; [apply rests_lit|].
    apply rests_octet; exact Hc.
  - assert (somewhere (matches class_c) (before ++ "192.168." ++ a ++ "." ++ b ++ after)
            = true) as ->; [|rewrite !orb_true_r; reflexivity].
    apply somewhere_later, somewhere_here, (matches_In _ _ after).
    unfold class_c. apply rests_text.
    eapply rests_seq; [apply rests_octet; exact Ha|].
    eapply rests_seq; [apply rests_lit|].
    apply rests_octet; exact Hb.
  - assert (somewhere (matches class_b) (before ++ "172.16." ++ a ++ "." ++ b ++ after)
            = true) as ->; [|rewrite !orb_true_r; reflexivity].
    apply somewhere_later, somewhere_here, (matches_In _ _ after).
    change ("172.16." ++ a ++ "." ++ b ++ after)
      with ("172." ++ String "1" (String "6" ("." ++ a ++ "." ++ b ++ after))).
    unfold class_b. apply rests_text.
    eapply rests_seq.
    + cbn [rests]. apply in_or_app. left. apply in_flat_map.
      eexists. split; [left; reflexivity|]. left. reflexivity.
    + eapply rests_seq; [apply rests_lit|].
      eapply rests_seq; [apply rests_octet; exact Ha|].
      eapply rests_seq; [apply rests_lit|].
      apply rests_octet; exact Hb.
  - assert (somewhere (matches_to_end loopback) (before ++ "127.0.0.1") = true) as ->;
      [|rewrite !orb_true_r; reflexivity].
    apply somewhere_later. reflexivity.
Qed.

Lemma rests_text_starts s : forall then_ str rest,
  In rest (rests (text s then_) str) ->
  exists tail, str = s ++ tail /\ In rest (rests then_ tail).
Proof.
  induction s as [|c s IH]; intros then_ str rest Hin.
  - exists str. split; [reflexivity|exact Hin].
  - cbn [text rests] in Hin. apply in_flat_map in Hin. destruct Hin as [middle [Hlit Hrest]].
    destruct str as [|x str]; [destruct Hlit|].
    destruct (Ascii.eqb x c) eqn:Hx; [|destruct Hlit].
    apply Ascii.eqb_eq in Hx. subst x. destruct Hlit as [<-|[]].
    destruct (IH _ _ _ Hrest) as [tail [-> Htail]].
    exists tail. split; [reflexivity|exact Htail].
Qed.

Lemma matches_text_starts s then_ str :
  matches (text s then_) str = true -> starts_with s str = true.
Proof.
  unfold matches. destruct (rests (text s then_) str) as [|rest others] eqn:Hrests;
    [discriminate|]. intros _.
  destruct (rests_text_starts s then_ str rest) as [tail [-> _]];
    [rewrite Hrests; left; reflexivity|].
  apply starts_with_append.
Qed.

Lemma somewhere_contains found needle str :
  (forall s, found s = true -> starts_with needle s = true) ->
  somewhere found str = true -> contains needle str = true.
Proof.
  intros Hfound. induction str as [|c str IH]; cbn [somewhere contains]; intros H.
  - rewrite orb_false_r in *. apply Hfound in H. rewrite H. reflexivity.
  - apply orb_true_iff in H. destruct H as [H|H].
    + apply Hfound in H. rewrite H. reflexivity.
    + rewrite (IH H). apply orb_true_r.
Qed.

(** X30. [isPrivateIpAddress] answers true only for a string that starts
    with [10.], contains [172.] or [192.168.], or ends with [127.0.0.1]. *)
Theorem isPrivateIpAddress_needs_a_private_mark :
  forall ip,
    isPrivateIpAddress ip = true ->
    starts_with "10." ip = true
    \/ contains "172." ip = true
    \/ contains "192.168." ip = true
    \/ Hosts.ends_with "127.0.0.1" ip = true.
Proof.
  intros ip. unfold isPrivateIpAddress. rewrite !orb_true_iff.
  intros [[[Ha|Hb]|Hc]|Hd].
  - left. exact (matches_text_starts "10." _ ip Ha).
  - right. left. apply (somewhere_contains (matches class_b)); [|exact Hb].
    intros s. apply (matches_text_starts "172.").
  - right. right. left. apply (somewhere_contains (matches class_c)); [|exact Hc].
    intros s. apply (matches_text_starts "192.168.").
  - right. right. right.
    induction ip as [|c ip IH]; cbn [somewhere Hosts.ends_with] in *.
    + rewrite orb_false_r in Hd. discriminate Hd.
    + apply orb_true_iff in Hd. destruct Hd as [Hd|Hd].
      * unfold matches_to_end in Hd. apply existsb_exists in Hd.
        destruct Hd as [rest [Hin Hend]]. apply String.eqb_eq in Hend. subst rest.
        unfold loopback in Hin. apply rests_text_starts in Hin.
        destruct Hin as [tail [Heq Hlit]]. cbn [rests] in Hlit.
        destruct tail as [|x tail]; [destruct Hlit|].
        destruct (Ascii.eqb x "1") eqn:Hx; [|destruct Hlit].
        apply Ascii.eqb_eq in Hx. subst x. destruct Hlit as [->|[]].
        rewrite Heq. reflexivity.
      * rewrite (IH Hd). apply orb_true_r.
Qed.

End PrivateIpFacts.

(** X29: neither is an address of a private network. *)
Lemma isPrivateIpAddress_is_not_anchored_witness :
  Utils.isPrivateIpAddress "10.999.999.999.example.com" = true
  /\ Utils.isPrivateIpAddress "8.8.8.8, 192.168.0.1" = true.
Proof.
  destruct (isPrivateIpAddress_is_not_anchored "999" "999" "999" "" ".example.com")
    as [Ha _]; try reflexivity.
  destruct (isPrivateIpAddress_is_not_anchored "0" "1" "0" "8.8.8.8, " "")
    as [_ [Hc _]]; try reflexivity.
  split; [exact Ha|exact Hc].
Defined.

(** X30 for an address of the 10.0.0.0/8 network. *)
Lemma isPrivateIpAddress_needs_a_private_mark_witness :
  starts_with "10." "10.0.0.7" = true
  \/ contains "172." "10.0.0.7" = true
  \/ contains "192.168." "10.0.0.7" = true
  \/ Hosts.ends_with "127.0.0.1" "10.0.0.7" = true.
Proof.
  apply (isPrivateIpAddress_needs_a_private_mark "10.0.0.7"). reflexivity.
Defined.
